(** * neuralgeom: manifold-aware VAEs, synthetic data and grid-cell tooling

    A shallow embedding of the parts of the repository that its
    specification talks about, one module per source file:

    - [FcVae]         src/neuralgeom/models/fc_vae.py
    - [DefaultConfig] src/neuralgeom/default_config.py
    - [Main]          src/neuralgeom/main.py
    - [Experiment]    src/neurometry/datasets/piRNNs/saliency/experiment.py
    - [RnnIsometry]   src/neurometry/curvature/grid-cells-curvature/models/xu_rnn/configs/rnn_isometry.py
    - [Synthetic]     src/abn/datasets/synthetic.py
    - [Visualize]     src/neurometry/datasets/piRNNs/dual_agent/visualize.py

    Python exceptions are values of [exn] carried by the [result] monad;
    random-number generators are threaded as explicit state; floating-point
    numbers are an abstract carrier with the operations the code applies,
    except for int(a / b) on two integers, whose rounding [PyNum] spells
    out. *)

From Stdlib Require Import ZArith QArith Qround Lia.
From stdpp Require Import base option list strings.

Local Open Scope string_scope.
Local Open Scope Z_scope.

(** ** Python values shared by all modules *)

Module Py.

(** The exceptions that the modelled code can raise. *)
Inductive exn : Type :=
| UnboundLocalError (name : string)
| ValueError (msg : string)
| RuntimeError (msg : string)
| SyntaxError
| OverflowError
| ZeroDivisionError
| IndexError.

(** A computation either returns a value or raises. *)
Inductive result (A : Type) : Type :=
| Ok (a : A)
| Raise (e : exn).
Arguments Ok {A} a.
Arguments Raise {A} e.

Definition is_raise {A} (r : result A) : Prop :=
  match r with Ok _ => False | Raise _ => True end.

#[export] Instance result_ret : MRet result := fun _ a => Ok a.
#[export] Instance result_bind : MBind result := fun _ _ f m =>
  match m with Ok a => f a | Raise e => Raise e end.
#[export] Instance result_fmap : FMap result := fun _ _ f m =>
  match m with Ok a => Ok (f a) | Raise e => Raise e end.

(** Binary64 numbers as the code uses them: conversions from Python
    integers and decimal literals, int/int true division, the arithmetic
    and elementary functions applied to array entries, the comparisons
    <= and <, and int(x). *)
Class PyFloat (F : Type) : Type := {
  of_int : Z -> F;
  of_lit : Q -> F;
  np_pi : F;
  truediv : Z -> Z -> F;
  fadd : F -> F -> F;
  fmul : F -> F -> F;
  fdiv : F -> F -> F;
  fneg : F -> F;
  fexp : F -> F;
  fcos : F -> F;
  fsin : F -> F;
  frelu : F -> F;
  fsoftplus : F -> F;
  to_float32 : F -> F;
  fle : F -> F -> bool;
  flt : F -> F -> bool;
  to_int : F -> Z
}.

(** Exact rational arithmetic, the number system at which general
    statements are instantiated.  The elementary functions are replaced by
    their first-order expansions at 0. *)
#[export] Instance Qfloat : PyFloat Q := {|
  of_int := inject_Z;
  of_lit := fun q => q;
  np_pi := (355 # 113)%Q;
  truediv := fun a b => Qmake a (Z.to_pos b);
  fadd := Qplus;
  fmul := Qmult;
  fdiv := Qdiv;
  fneg := Qopp;
  fexp := fun x => Qplus 1 x;
  fcos := fun _ => 1%Q;
  fsin := fun x => x;
  frelu := fun x => if Qle_bool 0 x then x else 0%Q;
  fsoftplus := fun x => if Qle_bool 0 x then x else 0%Q;
  to_float32 := fun x => x;
  fle := Qle_bool;
  flt := fun x y => negb (Qle_bool y x);
  to_int := fun x => if Qle_bool 0 x then Qfloor x else - Qfloor (- x)
|}.

End Py.
Import Py.

(** ** src/neuralgeom/models/fc_vae.py *)

Module FcVae.
Section VAE.
Context {F : Type} `{PyFloat F}.

(** A batch of vectors, shape [batch_size, width]. *)
Definition tensor : Type := list (list F).

Definition tmap (f : F -> F) (t : tensor) : tensor := map (map f) t.

Definition torch_exp : tensor -> tensor := tmap fexp.
Definition scalar_mul (c : F) : tensor -> tensor := tmap (fmul c).
Definition add_int (t : tensor) (n : Z) : tensor :=
  tmap (fun v => fadd v (of_int n)) t.
Definition relu : tensor -> tensor := tmap frelu.
Definition softplus : tensor -> tensor := tmap fsoftplus.
Definition ones_like (t : tensor) : tensor := tmap (fun _ => of_int 1) t.
Definition zeros_like (t : tensor) : tensor := tmap (fun _ => of_int 0) t.

(** torch.distributions.Normal and the two hyperspherical_vae
    distributions, kept as the constructor calls the code makes. *)
Inductive distribution : Type :=
| Normal (loc scale : tensor)
| VonMisesFisher (loc scale : tensor)
| HypersphericalUniform (dim : Z).

(** The generator state consumed by [rsample]. *)
Variable rng : Type.
Variable rsample : distribution -> rng -> tensor * rng.

(** torch.nn.Linear applied to a batch; it raises on a shape mismatch. *)
Definition layer : Type := tensor -> result tensor.

Record VAE : Type := {
  data_dim : Z;
  latent_dim : Z;
  posterior_type : string;
  encoder_fc : layer;
  encoder_linears : list layer;
  fc_z_mu : layer;
  fc_z_logvar : layer;
  decoder_fc : layer;
  decoder_linears : list layer;
  fc_x_mu : layer
}.

(** for layer in layers: h = F.relu(layer(h)) *)
Fixpoint relu_stack (layers : list layer) (h : tensor) : result tensor :=
  match layers with
  | [] => Ok h
  | l :: ls => h' ← l h; relu_stack ls (relu h')
  end.

Definition encode (self : VAE) (x : tensor) : result (tensor * tensor) :=
  h0 ← encoder_fc self x;
  h ← relu_stack (encoder_linears self) (relu h0);
  if String.eqb (posterior_type self) "gaussian" then
    z_mu ← fc_z_mu self h;
    z_logvar ← fc_z_logvar self h;
    Ok (z_mu, z_logvar)
  else if String.eqb (posterior_type self) "hyperspherical" then
    z_mu ← fc_z_mu self h;
    k ← fc_z_logvar self h;
    Ok (z_mu, add_int (softplus k) 1)
  else Raise (UnboundLocalError "posterior_params").

Definition reparameterize (self : VAE) (posterior_params : tensor * tensor)
    (s : rng) : result (tensor * distribution * distribution * rng) :=
  if String.eqb (posterior_type self) "gaussian" then
    let '(z_mu, z_logvar) := posterior_params in
    let z_std := torch_exp (scalar_mul (of_lit 0.5) z_logvar) in
    let p_z := Normal (ones_like z_mu) (ones_like z_std) in
    let q_z := Normal z_mu z_std in
    let '(z, s') := rsample q_z s in
    Ok (z, q_z, p_z, s')
  else if String.eqb (posterior_type self) "hyperspherical" then
    let '(z_mu, z_kappa) := posterior_params in
    let q_z := VonMisesFisher z_mu z_kappa in
    let p_z := HypersphericalUniform (latent_dim self - 1) in
    let '(z, s') := rsample q_z s in
    Ok (z, q_z, p_z, s')
  else Raise (UnboundLocalError "q_z").

Definition decode (self : VAE) (z : tensor) : result tensor :=
  h0 ← decoder_fc self z;
  h ← relu_stack (decoder_linears self) (relu h0);
  fc_x_mu self h.

Definition forward (self : VAE) (x : tensor) (s : rng)
    : result (tensor * (tensor * tensor) * rng) :=
  posterior_params ← encode self x;
  '(z, _, _, s') ← reparameterize self posterior_params s;
  x_mu ← decode self z;
  Ok (x_mu, posterior_params, s').

End VAE.
Arguments tensor F : clear implicits.
Arguments distribution F : clear implicits.
Arguments layer F : clear implicits.
Arguments VAE F : clear implicits.
End FcVae.

(** ** Python idioms used by several modules *)

Module Idiom.

(** [name in (s1, ..., sn)] on strings: equality with one of the members. *)
Definition py_in (name : string) (members : list string) : bool :=
  existsb (String.eqb name) members.

(** Reading a local variable that is bound on some paths only. *)
Definition read_local {A} (name : string) (v : option A) : result A :=
  match v with
  | Some a => Ok a
  | None => Raise (UnboundLocalError name)
  end.

(** range(a, b) *)
Definition py_range (a b : Z) : list Z := seqZ a (b - a).

(** A for loop whose body may raise: the first exception ends the loop. *)
Fixpoint for_each {S : Type} (body : Z -> S -> result S) (steps : list Z)
    (s : S) : result S :=
  match steps with
  | [] => Ok s
  | step :: rest => s' ← body step s; for_each body rest s'
  end.

(** Computations that thread a state of type [S] and may raise. *)
Definition stateful (S A : Type) : Type := S -> result (A * S).

#[export] Instance stateful_ret {S} : MRet (stateful S) :=
  fun _ a s => Ok (a, s).
#[export] Instance stateful_bind {S} : MBind (stateful S) :=
  fun _ _ f m s =>
    match m s with
    | Ok (a, s') => f a s'
    | Raise e => Raise e
    end.

Definition lift {S A} (r : result A) : stateful S A :=
  fun s => match r with Ok a => Ok (a, s) | Raise e => Raise e end.

(** A for loop over [steps] that updates an accumulator in [stateful]. *)
Fixpoint for_range {S A : Type} (body : Z -> A -> stateful S A)
    (steps : list Z) (a : A) : stateful S A :=
  match steps with
  | [] => mret a
  | step :: rest => a' ← body step a; for_range body rest a'
  end.

End Idiom.
Import Idiom.

(** ** int(a / b) on Python integers

    [a / b] on two ints is the binary64 number nearest to the exact
    quotient (ties to the even mantissa); it raises ZeroDivisionError for
    b = 0 and OverflowError when the quotient is too large for a float.
    [int] then truncates toward zero. *)

Module PyNum.

(** Nearest integer to N / D for N >= 0 and D > 0, ties to even. *)
Definition round_half_even (N D : Z) : Z :=
  let d := N / D in
  let r := N mod D in
  if 2 * r <? D then d
  else if D <? 2 * r then d + 1
  else if Z.even d then d else d + 1.

(** The exponent e with 2^e <= a / b < 2^(e+1), for a, b > 0. *)
Definition quot_exponent (a b : Z) : Z :=
  let e0 := Z.log2 a - Z.log2 b in
  if b * 2 ^ Z.max e0 0 <=? a * 2 ^ Z.max (- e0) 0 then e0 else e0 - 1.

(** The binary64 value of a / b for a, b > 0, as a pair (m, q) that stands
    for m * 2^q: 53 significant bits, and the fixed quantum 2^-1074 in the
    subnormal range. *)
Definition round_quot (a b : Z) : Z * Z :=
  let q := Z.max (quot_exponent a b - 52) (-1074) in
  (round_half_even (a * 2 ^ Z.max (- q) 0) (b * 2 ^ Z.max q 0), q).

(** int(a / b) for a, b > 0. *)
Definition int_truediv_pos (a b : Z) : result Z :=
  let '(m, q) := round_quot a b in
  if 0 <=? q then
    if 2 ^ 1024 <=? m * 2 ^ q then Raise OverflowError else Ok (m * 2 ^ q)
  else Ok (m / 2 ^ (- q)).

(** int(a / b) *)
Definition int_truediv (a b : Z) : result Z :=
  if b =? 0 then Raise ZeroDivisionError
  else if a =? 0 then Ok 0
  else r ← int_truediv_pos (Z.abs a) (Z.abs b); Ok (Z.sgn a * Z.sgn b * r).

End PyNum.

(** ** src/neuralgeom/default_config.py *)

Module DefaultConfig.

Definition recognized_datasets : list string :=
  ["s1_synthetic"; "s2_synthetic"; "t2_synthetic"; "experimental"; "grid_cells"].

Definition not_recognized (one_dataset_name : string) : string :=
  "Dataset name " ++ one_dataset_name ++ " not recognized.".

(** The module-level loop that validates the list [dataset_name]. *)
Fixpoint check_dataset_names (dataset_name : list string) : result unit :=
  match dataset_name with
  | [] => Ok tt
  | one_dataset_name :: rest =>
      if negb (py_in one_dataset_name recognized_datasets)
      then Raise (ValueError (not_recognized one_dataset_name))
      else check_dataset_names rest
  end.

(** The value the file assigns. *)
Definition dataset_name : list string := ["experimental"].

End DefaultConfig.

(** ** src/neuralgeom/main.py *)

Module Main.
Section Script.

(** wandb.config, read through its attributes. *)
Variable config : Type.
Variable dataset_name : config -> string.
Variable posterior_type : config -> string.
Variable scheduler : config -> bool.

(** Collaborators that live outside this file: the two model classes,
    the optimizer and scheduler constructors and train.train_test. *)
Variables model optimizer lr_scheduler losses : Type.
Variable NeuralVAE : config -> result model.
Variable ToroidalVAE : config -> result model.
Variable Adam : model -> config -> optimizer.
Variable ReduceLROnPlateau : optimizer -> lr_scheduler.
Variable train_test :
  model -> optimizer -> option lr_scheduler -> config ->
  result (losses * losses * model).

Definition train_test_model (cfg : config)
    : result (losses * losses * model) :=
  model_var ←
    (if py_in (posterior_type cfg) ["gaussian"; "hyperspherical"]
     then Some <$> NeuralVAE cfg
     else if String.eqb (posterior_type cfg) "toroidal"
     then Some <$> ToroidalVAE cfg
     else Ok None);
  m ← read_local "model" model_var;
  let opt := Adam m cfg in
  let sched := if scheduler cfg then Some (ReduceLROnPlateau opt) else None in
  train_test m opt sched cfg.

(** Values produced by evaluate.py and viz.py. *)
Variables grid curv figure scalar : Type.
Variable compute_mean_curvature_true : config -> grid * curv.
Variable compute_mean_curvature_learned : model -> config -> grid * curv.
Variable compute_error : grid -> curv -> curv -> config -> scalar.
Variable plot_curv : grid -> curv -> config -> option scalar -> string -> figure.
Variable curv_max : curv -> scalar.

Inductive logged : Type :=
| Image (fig : figure)
| Scalar (x : scalar).

(** What evaluate_curvature does that is visible from outside, in order. *)
Inductive event : Type :=
| Print (msg : string)
| ComputeTrue
| ComputeLearned
| ComputeError
| WandbLog (key : string) (payload : logged).

Definition synthetic_datasets : list string :=
  ["s1_synthetic"; "s2_synthetic"; "t2_synthetic"].

Definition evaluate_curvature (m : model) (cfg : config) : result (list event) :=
  let '(curv_norms_true, tr1) :=
    if py_in (dataset_name cfg) synthetic_datasets then
      let '(z_grid, curv_true) := compute_mean_curvature_true cfg in
      let fig := plot_curv z_grid curv_true cfg None "true" in
      (Some curv_true,
       [Print "Computing true curvature from synthetic data..."; ComputeTrue;
        WandbLog "fig_curv_norms_true" (Image fig)])
    else (None, []) in
  let '(z_grid, curv_norms_learned) := compute_mean_curvature_learned m cfg in
  let tr2 :=
    (tr1 ++ [Print "Computing learned curvature..."; ComputeLearned])%list in
  '(norm_val, tr3) ←
    (if py_in (dataset_name cfg) synthetic_datasets then
       curv_true ← read_local "curv_norms_true" curv_norms_true;
       let curvature_error :=
         compute_error z_grid curv_norms_learned curv_true cfg in
       Ok (Some (curv_max curv_true),
           (tr2 ++ [ComputeError;
                    WandbLog "curvature_error" (Scalar curvature_error)])%list)
     else Ok (None, tr2));
  let fig := plot_curv z_grid curv_norms_learned cfg norm_val "learned" in
  Ok (tr3 ++ [WandbLog "fig_curv_norms_learned" (Image fig)])%list.

End Script.
Arguments Image {figure scalar} fig.
Arguments Scalar {figure scalar} x.
Arguments Print {figure scalar} msg.
Arguments ComputeTrue {figure scalar}.
Arguments ComputeLearned {figure scalar}.
Arguments ComputeError {figure scalar}.
Arguments WandbLog {figure scalar} key payload.
End Main.

(** ** src/neurometry/datasets/piRNNs/saliency/experiment.py *)

Module Experiment.

Section TrainLoop.

(** The entries of config.train that the loop reads. *)
Record train_config : Type := {
  num_steps_train : Z;
  lr : Q;
  steps_per_logging : Z;
  steps_per_large_logging : Z;
  steps_per_integration : Z;
  norm_v : bool;
  positive_v : bool
}.

(** Model weights with the optimizer buffers, a training batch, the
    training iterator, and the other entries of a parameter group. *)
Variables weights batch data_iter group_options path_error : Type.

(** next(self.train_iter), moved to the device. *)
Variable next_batch : data_iter -> batch * data_iter.

Record param_group : Type := {
  group_lr : Q;
  group_rest : group_options
}.

(** zero_grad, forward, backward, gradient clipping and optimizer.step(),
    under the learning rates held by the parameter groups. *)
Variable optimizer_update : list param_group -> weights -> batch -> Z -> weights.

(** The rest of the loop body: the projections of v and b, the logging and
    the periodic evaluation, which may append a path-integration error. *)
Variable after_update :
  train_config -> Z -> weights -> result (weights * list path_error).

Record experiment : Type := {
  model : weights;
  param_groups : list param_group;
  train_iter : data_iter;
  starting_step : Z;
  updates : nat;
  errors : list path_error
}.

(** for param_group in self.optimizer.param_groups: param_group["lr"] = lr *)
Fixpoint assign_lr (lr_var : option Q) (groups : list param_group)
    : result (list param_group) :=
  match groups with
  | [] => Ok []
  | g :: rest =>
      v ← read_local "lr" lr_var;
      rest' ← assign_lr lr_var rest;
      Ok ({| group_lr := v; group_rest := group_rest g |} :: rest')
  end.

(** One iteration of the training loop; [lr_var] is the local variable lr,
    which keeps its binding from one iteration to the next. *)
Definition train_step (config : train_config) (step : Z)
    (acc : experiment * option Q) : result (experiment * option Q) :=
  let '(self, lr_var) := acc in
  let '(batch_data, it) := next_batch (train_iter self) in
  let lr_var :=
    if (step <? 120000) && (10000 <? step) then Some (lr config) else lr_var in
  groups ← assign_lr lr_var (param_groups self);
  let w := optimizer_update groups (model self) batch_data step in
  '(w', errs) ← after_update config step w;
  Ok ({| model := w'; param_groups := groups; train_iter := it;
         starting_step := starting_step self;
         updates := S (updates self);
         errors := (errors self ++ errs)%list |}, lr_var).

Definition train_and_evaluate (config : train_config) (self : experiment)
    : result (list path_error * weights) :=
  '(self', _) ←
    for_each (train_step config)
      (py_range (starting_step self)
         (num_steps_train config + starting_step self))
      (self, None);
  Ok (errors self', model self').

End TrainLoop.
Arguments group_lr {group_options} _.
Arguments group_rest {group_options} _.
Arguments model {weights data_iter group_options path_error} _.
Arguments param_groups {weights data_iter group_options path_error} _.
Arguments train_iter {weights data_iter group_options path_error} _.
Arguments starting_step {weights data_iter group_options path_error} _.
Arguments updates {weights data_iter group_options path_error} _.
Arguments errors {weights data_iter group_options path_error} _.
End Experiment.

(** ** src/neurometry/curvature/grid-cells-curvature/models/xu_rnn/configs/rnn_isometry.py *)

Module RnnIsometry.

(** The literals that occur as keyword values. *)
Inductive value : Type :=
| VInt (n : Z)
| VFloat (q : Q)
| VBool (b : bool)
| VStr (s : string)
| VTensor (entries : list Q).

(** The tokens between the parentheses of a call d(...); a value
    expression counts as one token. *)
Inductive token : Type :=
| NAME (id : string)
| EQUAL
| EXPR (v : value)
| COMMA.

Definition dict : Type := list (string * value).

(** The argument list of a call: keyword items separated by commas, with
    an optional trailing comma.  Anything else is a syntax error. *)
Fixpoint parse_kwargs (ts : list token) : result dict :=
  match ts with
  | [] => Ok []
  | NAME k :: EQUAL :: EXPR v :: rest =>
      match rest with
      | [] => Ok [(k, v)]
      | COMMA :: rest' => kvs ← parse_kwargs rest'; Ok ((k, v) :: kvs)
      | _ => Raise SyntaxError
      end
  | _ => Raise SyntaxError
  end.

Definition kw (k : string) (v : value) : list token :=
  [NAME k; EQUAL; EXPR v].

Definition train_tokens : list token :=
  (kw "num_steps_train" (VInt 25000) ++ [COMMA]
   ++ kw "lr" (VFloat (6 # 1000)) ++ [COMMA]
   ++ kw "lr_decay_from" (VInt 10000) ++ [COMMA]
   ++ kw "steps_per_logging" (VInt 20) ++ [COMMA]
   ++ kw "steps_per_large_logging" (VInt 500) ++ [COMMA]
   ++ kw "steps_per_integration" (VInt 2000) ++ [COMMA]
   ++ kw "norm_v" (VBool true) ++ [COMMA]
   ++ kw "positive_v" (VBool true) ++ [COMMA]
   ++ kw "positive_u" (VBool false) ++ [COMMA]
   ++ kw "optimizer_type" (VStr "adam") ++ [COMMA])%list.

Definition data_tokens : list token :=
  (kw "max_dr_trans" (VFloat 3) ++ [COMMA]
   ++ kw "max_dr_isometry" (VFloat 15) ++ [COMMA]
   ++ kw "batch_size" (VInt 10000) ++ [COMMA]
   ++ kw "sigma_data" (VFloat (48 # 100)) ++ [COMMA]
   ++ kw "add_dx_0" (VBool false) ++ [COMMA]
   ++ kw "small_int" (VBool false) ++ [COMMA])%list.

(** Lines 41 to 56.  No comma follows the value of x_star on line 54. *)
Definition model_tokens : list token :=
  (kw "trans_type" (VStr "nonlinear_simple") ++ [COMMA]
   ++ kw "rnn_step" (VInt 10) ++ [COMMA]
   ++ kw "num_grid" (VInt 40) ++ [COMMA]
   ++ kw "num_neurons" (VInt 1800) ++ [COMMA]
   ++ kw "block_size" (VInt 12) ++ [COMMA]
   ++ kw "sigma" (VFloat (7 # 100)) ++ [COMMA]
   ++ kw "w_kernel" (VFloat (105 # 100)) ++ [COMMA]
   ++ kw "w_trans" (VFloat (1 # 10)) ++ [COMMA]
   ++ kw "w_isometry" (VFloat (5 # 1000)) ++ [COMMA]
   ++ kw "w_reg_u" (VFloat (2 # 10)) ++ [COMMA]
   ++ kw "reg_decay_until" (VInt 15000) ++ [COMMA]
   ++ kw "adaptive_dr" (VBool true) ++ [COMMA]
   ++ kw "s_0" (VFloat (2 # 10)) ++ [COMMA]
   ++ kw "x_star" (VTensor [1 # 2; 1 # 2]%Q)
   ++ kw "sigma_star" (VFloat (1 # 10)) ++ [COMMA]
   ++ kw "reward_step" (VInt 20000) ++ [COMMA])%list.

Definition integration_tokens : list token :=
  (kw "n_inte_step" (VInt 30) ++ [COMMA]
   ++ kw "n_traj" (VInt 100) ++ [COMMA]
   ++ kw "n_inte_step_vis" (VInt 30) ++ [COMMA]
   ++ kw "n_traj_vis" (VInt 5) ++ [COMMA])%list.

Record config : Type := {
  gpu : Z;
  train : dict;
  data : dict;
  model : dict;
  integration : dict
}.

(** get_config as the file defines it: the body is available only if
    each of its calls parses. *)
Definition get_config_from (model_source : list token) : result config :=
  t ← parse_kwargs train_tokens;
  d ← parse_kwargs data_tokens;
  m ← parse_kwargs model_source;
  i ← parse_kwargs integration_tokens;
  Ok {| gpu := 0; train := t; data := d; model := m; integration := i |}.

Definition get_config : result config := get_config_from model_tokens.

(** The hyperparameters of config.model as line 40 to 57 list them. *)
Definition model_entries : dict :=
  [("trans_type", VStr "nonlinear_simple"); ("rnn_step", VInt 10);
   ("num_grid", VInt 40); ("num_neurons", VInt 1800); ("block_size", VInt 12);
   ("sigma", VFloat (7 # 100)); ("w_kernel", VFloat (105 # 100));
   ("w_trans", VFloat (1 # 10)); ("w_isometry", VFloat (5 # 1000));
   ("w_reg_u", VFloat (2 # 10)); ("reg_decay_until", VInt 15000);
   ("adaptive_dr", VBool true); ("s_0", VFloat (2 # 10));
   ("x_star", VTensor [1 # 2; 1 # 2]%Q); ("sigma_star", VFloat (1 # 10));
   ("reward_step", VInt 20000)].

(** The token list with the comma after x_star put back. *)
Definition model_tokens_with_comma : list token :=
  (take 55 model_tokens ++ [COMMA] ++ drop 55 model_tokens)%list.

End RnnIsometry.

(** ** src/abn/datasets/synthetic.py *)

Module Synthetic.
Section Generators.
Context {F : Type} `{PyFloat F}.

(** A two-dimensional array, as a list of rows. *)
Definition image : Type := list (list F).

Definition shape (img : image) : nat * nat :=
  (length img, length (default [] (head img))).

(** Labels organized in two columns. *)
Record label_table (S : Type) : Type := {
  angles : list F;
  scalars : list S
}.

(** The state of numpy's global generator and the two samplers used:
    np.random.normal(loc, scale, size) and np.random.poisson(lam). *)
Variable rng : Type.
Variable random_normal : F -> F -> nat * nat -> rng -> image * rng.
Variable random_poisson : F -> rng -> Z * rng.

(** skimage: the camera picture, resize with anti-aliasing, rotate by an
    angle in degrees and the Gaussian filter of width sigma. *)
Variable camera : image.
Variable resize : image -> Z * Z -> image.
Variable rotate : image -> F -> image.
Variable gaussian : image -> F -> image.

(** Reduction of one row by np.sum and the product rotmat @ point; the
    order in which numpy adds the terms is left to numpy. *)
Variable np_sum : list F -> F.
Variable np_matmul : list (list F) -> list F -> list F.

(** (blur_image + noise).astype(np.float32) *)
Definition noisy_float32 (blur_image noise : image) : image :=
  zip_with (zip_with (fun b n => to_float32 (fadd b n))) blur_image noise.

Definition images_acc : Type := list image * list F * list F * rng.

(** angle = 360 * i_angle / n_angles and scalar = 1 + 0.2 * i_scalar *)
Definition angle_of (n_angles i_angle : Z) : F :=
  truediv (360 * i_angle) n_angles.
Definition scalar_of (i_scalar : Z) : F :=
  fadd (of_int 1) (fmul (of_lit (2 # 10)) (of_int i_scalar)).

(** Body of the loop over i_scalar in load_images. *)
Definition images_inner (angle : F) (rot_image : image) (acc : images_acc)
    (i_scalar : Z) : images_acc :=
  let '(images, angles, scalars, s) := acc in
  let scalar := scalar_of i_scalar in
  let blur_image := gaussian rot_image scalar in
  let '(noise, s') :=
    random_normal (of_lit 0) (of_lit (5 # 100)) (shape blur_image) s in
  ((images ++ [noisy_float32 blur_image noise])%list,
   (angles ++ [angle])%list, (scalars ++ [scalar])%list, s').

(** Body of the loop over i_angle in load_images. *)
Definition images_outer (n_scalars n_angles : Z) (img : image)
    (acc : images_acc) (i_angle : Z) : images_acc :=
  let angle := angle_of n_angles i_angle in
  let rot_image := rotate img angle in
  foldl (images_inner angle rot_image) acc (py_range 0 n_scalars).

Definition load_images (n_scalars n_angles img_size : Z) (s : rng)
    : list image * label_table F * rng :=
  let img := resize camera (img_size, img_size) in
  let '(images, angles, scalars, s') :=
    foldl (images_outer n_scalars n_angles img) ([], [], [], s)
      (py_range 0 n_angles) in
  (images, {| angles := angles; scalars := scalars |}, s').

Definition load_projections (n_scalars n_angles img_size : Z) (s : rng)
    : list (list F) * label_table F * rng :=
  let '(images, labels, s') := load_images n_scalars n_angles img_size s in
  (map (map np_sum) images, labels, s').

Definition points_acc : Type := list (list F) * list F * list Z.

(** Body of the loop over i_scalar in load_points. *)
Definition points_inner (angle : F) (rot_point : list F) (acc : points_acc)
    (i_scalar : Z) : points_acc :=
  let '(points, angles, scalars) := acc in
  let scalar := 1 + i_scalar in
  ((points ++ [map (fmul (of_int scalar)) rot_point])%list,
   (angles ++ [angle])%list, (scalars ++ [scalar])%list).

(** Body of the loop over i_angle in load_points. *)
Definition points_outer (n_scalars n_angles : Z) (acc : points_acc)
    (i_angle : Z) : points_acc :=
  let angle :=
    fdiv (fmul (fmul (of_int 2) np_pi) (of_int i_angle)) (of_int n_angles) in
  let rotmat :=
    [[fcos angle; fneg (fsin angle); of_int 0];
     [fsin angle; fcos angle; of_int 0];
     [of_int 0; of_int 0; of_lit 1]] in
  let rot_point := np_matmul rotmat (map of_int [1; 1; 1]) in
  foldl (points_inner angle rot_point) acc (py_range 0 n_scalars).

(** Like every function of the module, load_points runs with numpy's
    global generator in some state [s]; it returns it as it found it. *)
Definition load_points (n_scalars n_angles : Z) (s : rng)
    : list (list F) * label_table Z * rng :=
  let '(points, angles, scalars) :=
    foldl (points_outer n_scalars n_angles) ([], [], [])
      (py_range 0 n_angles) in
  (points, {| angles := angles; scalars := scalars |}, s).

(** np.zeros(n) *)
Definition np_zeros (n : Z) : list F := replicate (Z.to_nat n) (of_int 0).

(** A row has at most [k] entries different from 0.0: they all sit at the
    positions listed in some [idxs] of length at most [k]. *)
Definition at_most_nonzero (k : nat) (row : list F) : Prop :=
  exists idxs : list nat,
    (length idxs <= k)%nat
    /\ forall j x, row !! j = Some x -> x <> of_int 0 -> j ∈ idxs.

(** A row of [n] cells with at most [k] entries different from 0.0. *)
Definition row_ok (n : Z) (k : nat) (row : list F) : Prop :=
  length row = Z.to_nat n /\ at_most_nonzero k row.

(** a[i] = v on a one-dimensional array: a negative index counts from the
    end, and an index outside the array raises IndexError. *)
Definition setitem (a : list F) (i : Z) (v : F) : result (list F) :=
  let n := Z.of_nat (length a) in
  let j := if i <? 0 then i + n else i in
  if (0 <=? j) && (j <? n) then Ok (<[Z.to_nat j := v]> a)
  else Raise IndexError.

(** cell_firings[i] = np.random.poisson(lam) *)
Definition store_poisson (cell_firings : list F) (i : Z) (lam : Q)
    : stateful rng (list F) :=
  fun s =>
    let '(k, s') := random_poisson (of_lit lam) s in
    c ← setitem cell_firings i (of_int k);
    Ok (c, s').

(** The row of firings built for one value of i_cell. *)
Definition cell_row (n_cells i_cell : Z) : stateful rng (list F) :=
  let cell_firings := np_zeros n_cells in
  if i_cell =? 0 then
    c ← store_poisson cell_firings (-2) 1;
    c ← store_poisson c (-1) 2;
    c ← store_poisson c 0 4;
    c ← store_poisson c 1 2;
    store_poisson c 2 1
  else if i_cell =? 1 then
    c ← store_poisson cell_firings (-1) 1;
    c ← store_poisson c 0 2;
    c ← store_poisson c 1 4;
    c ← store_poisson c 2 2;
    store_poisson c 3 1
  else if i_cell =? n_cells - 2 then
    c ← store_poisson cell_firings (-4) 1;
    c ← store_poisson c (-3) 2;
    c ← store_poisson c (-2) 4;
    c ← store_poisson c (-1) 2;
    store_poisson c 0 1
  else if i_cell =? n_cells - 1 then
    c ← store_poisson cell_firings (-3) 1;
    c ← store_poisson c (-2) 2;
    c ← store_poisson c (-1) 4;
    c ← store_poisson c 0 2;
    store_poisson c 1 1
  else
    c ← store_poisson cell_firings (i_cell - 2) 1;
    c ← store_poisson c (i_cell - 1) 2;
    c ← store_poisson c i_cell 4;
    c ← store_poisson c (i_cell + 1) 2;
    store_poisson c (i_cell - 3) 1.

Definition cells_acc : Type := list (list F) * list F.

(** Body of the loop over i_cell in load_place_cells. *)
Definition place_cells_inner (n_cells i_cell : Z) (acc : cells_acc)
    : stateful rng cells_acc :=
  let '(place_cells, labels) := acc in
  cell_firings ← cell_row n_cells i_cell;
  mret ((place_cells ++ [cell_firings])%list,
        (labels ++ [fmul (truediv i_cell n_cells) (of_int 360)])%list).

(** The outer loop runs the loop over the cells n_firing_per_cell times. *)
Definition place_cells_outer (n_cells : Z) (_ : Z) (acc : cells_acc)
    : stateful rng cells_acc :=
  for_range (place_cells_inner n_cells) (py_range 0 n_cells) acc.

Definition load_place_cells (n_times n_cells : Z) : stateful rng cells_acc :=
  n_firing_per_cell ← lift (PyNum.int_truediv n_times n_cells);
  for_range (place_cells_outer n_cells) (py_range 0 n_firing_per_cell)
    ([], []).

End Generators.
Arguments image F : clear implicits.
Arguments label_table F S : clear implicits.
Arguments angles {F S} _.
Arguments scalars {F S} _.
End Synthetic.

(** ** src/neurometry/datasets/piRNNs/dual_agent/visualize.py *)

Module Visualize.
Section Ratemaps.
Context {F : Type} `{PyFloat F}.

(** The fields of [options] that the two functions read. *)
Record options : Type := {
  batch_size : Z;
  sequence_length : Z;
  box_width : F;
  box_height : F
}.

(** One row of a test batch after flattening: the two coordinates of
    pos_batch[i] and the activations g_batch[i, :] of the selected cells. *)
Definition sample : Type := F * F * list F.

Abbreviation plane := (list (list F)).

Definition np_zeros2 (rows cols : Z) : plane :=
  replicate (Z.to_nat rows) (replicate (Z.to_nat cols) (of_int 0)).

Definition np_zeros3 (n rows cols : Z) : list plane :=
  replicate (Z.to_nat n) (np_zeros2 rows cols).

Definition np_zeros4 (n rows cols depth : Z) : list (list plane) :=
  replicate (Z.to_nat n) (np_zeros3 rows cols depth).

(** np.zeros(dims) refuses a negative dimension. *)
Definition check_dims (dims : list Z) : result unit :=
  if forallb (fun d => 0 <=? d) dims then Ok tt
  else Raise (ValueError "negative dimensions are not allowed").

(** a[i, j] and a[n, i, j], None outside the array. *)
Definition get2 (a : plane) (i j : nat) : option F :=
  row ← a !! i; row !! j.
Definition get3 (acts : list plane) (n i j : nat) : option F :=
  a ← acts !! n; get2 a i j.

(** if not n_avg: n_avg = 1000 // options.sequence_length *)
Definition default_n_avg (opts : options) (n_avg : option Z) : result Z :=
  match n_avg with
  | Some n => if n =? 0 then
                if sequence_length opts =? 0 then Raise ZeroDivisionError
                else Ok (1000 / sequence_length opts)
              else Ok n
  | None => if sequence_length opts =? 0 then Raise ZeroDivisionError
            else Ok (1000 / sequence_length opts)
  end.

(** (pos_batch[:, k] + extent / 2) / extent * res *)
Definition bin_coordinate (p extent : F) (res : Z) : F :=
  fmul (fdiv (fadd p (fdiv extent (of_int 2))) extent) (of_int res).

(** x >= 0 and x < res and y >= 0 and y < res *)
Definition in_grid (x y : F) (res : Z) : bool :=
  fle (of_int 0) x && flt x (of_int res)
  && fle (of_int 0) y && flt y (of_int res).

(** An index into an axis of length [n]: negative indices count from the
    end and anything outside raises IndexError. *)
Definition py_index (n i : Z) : result nat :=
  if (0 <=? i) && (i <? n) then Ok (Z.to_nat i)
  else if (- n <=? i) && (i <? 0) then Ok (Z.to_nat (i + n))
  else Raise IndexError.

(** a[ix, iy] = f(a[ix, iy]) *)
Definition update2 (f : F -> F) (ix iy : nat) (a : plane) : plane :=
  alter (alter f iy) ix a.

(** activations[:, ix, iy] += g_row *)
Definition add_row (g_row : list F) (ix iy : nat) (activations : list plane)
    : list plane :=
  zip_with (fun gn a => update2 (fun v => fadd v gn) ix iy a) g_row activations.

(** all_activations[:, ix, iy, index] += g_row *)
Definition add_row4 (g_row : list F) (ix iy index : nat)
    (all_activations : list (list plane)) : list (list plane) :=
  zip_with (fun gn a => alter (update2 (fun v => fadd v gn) iy index) ix a)
    g_row all_activations.

Record bins : Type := {
  counts : plane;
  activations : list plane;
  all_activations : list (list plane)
}.

(** The body of the loop over the samples of one batch. *)
Definition bin_sample (opts : options) (res : Z) (all_activations_flag : bool)
    (index : Z) (b : bins) (smp : sample) : result bins :=
  let '(px, py, g_row) := smp in
  let x := bin_coordinate px (box_width opts) res in
  let y := bin_coordinate py (box_height opts) res in
  if in_grid x y res then
    ix ← py_index res (to_int x);
    iy ← py_index res (to_int y);
    Ok {| counts := update2 (fun c => fadd c (of_int 1)) ix iy (counts b);
          activations := add_row g_row ix iy (activations b);
          all_activations :=
            if all_activations_flag
            then add_row4 g_row ix iy (Z.to_nat index) (all_activations b)
            else all_activations b |}
  else Ok b.

Fixpoint bin_samples (opts : options) (res : Z) (flag : bool) (index : Z)
    (b : bins) (batch : list sample) : result bins :=
  match batch with
  | [] => Ok b
  | smp :: rest =>
      b' ← bin_sample opts res flag index b smp;
      bin_samples opts res flag index b' rest
  end.

(** g[index] = g_batch and pos[index] = pos_batch need a batch of
    batch_size * sequence_length rows with Ng activations each. *)
Definition fits (opts : options) (Ng : Z) (batch : list sample) : bool :=
  (Z.of_nat (length batch) =? batch_size opts * sequence_length opts)
  && forallb (fun smp => Z.of_nat (length smp.2) =? Ng) batch.

(** The test batch drawn at iteration [index], encoded by model.g and
    restricted to the cells idxs[:Ng]. *)
Variable test_batch : Z -> list sample.
Variable test_batch_single_agent : Z -> list sample.

(** The loop over index in range(n_avg). *)
Definition bin_batches (batch_at : Z -> list sample) (opts : options)
    (res Ng : Z) (flag : bool) (index : Z) (b : bins) : result bins :=
  let batch := batch_at index in
  if fits opts Ng batch then bin_samples opts res flag index b batch
  else Raise (ValueError "could not broadcast input array").

(** if counts[x, y] > 0: activations[:, x, y] /= counts[x, y] *)
Definition normalize_bin (cnt : plane) (x y : Z) (acts : list plane)
    : result (list plane) :=
  ix ← py_index (Z.of_nat (length cnt)) x;
  row ← match cnt !! ix with Some r => Ok r | None => Raise IndexError end;
  iy ← py_index (Z.of_nat (length row)) y;
  c ← match row !! iy with Some c => Ok c | None => Raise IndexError end;
  if flt (of_int 0) c
  then Ok (map (update2 (fun v => fdiv v c) ix iy) acts)
  else Ok acts.

(** The two nested loops over x and y in range(res). *)
Definition normalize (cnt : plane) (res : Z) (acts : list plane)
    : result (list plane) :=
  for_each
    (fun x acts => for_each (fun y acts => normalize_bin cnt x y acts)
                     (py_range 0 res) acts)
    (py_range 0 res) acts.

(** activations.reshape(Ng, -1) *)
Definition reshape_rows (acts : list plane) : list (list F) :=
  map (fun a => mjoin a) acts.

Record ratemaps : Type := {
  returned_activations : list plane + list (list plane);
  rate_map : list (list F);
  g : list (list F);
  pos : list (F * F)
}.

Definition stack_g (batch_at : Z -> list sample) (n_avg : Z) : list (list F) :=
  mjoin ((fun index => (fun smp : sample => smp.2) <$> batch_at index)
           <$> py_range 0 n_avg).

Definition stack_pos (batch_at : Z -> list sample) (n_avg : Z) : list (F * F) :=
  mjoin ((fun index => (fun smp : sample => smp.1) <$> batch_at index)
           <$> py_range 0 n_avg).

(** The allocation of the arrays and the loop over index in range(n_avg). *)
Definition accumulate (batch_at : Z -> list sample) (opts : options)
    (res n_avg Ng : Z) (flag with_all : bool) : result bins :=
  _ ← check_dims [n_avg; batch_size opts * sequence_length opts; Ng; res];
  let start :=
    {| counts := np_zeros2 res res;
       activations := np_zeros3 Ng res res;
       all_activations := if with_all then np_zeros4 Ng res res n_avg else [] |} in
  for_each (bin_batches batch_at opts res Ng flag) (py_range 0 n_avg) start.

Definition compute_ratemaps (opts : options) (res : Z) (n_avg : option Z)
    (Ng : Z) (all_activations_flag : bool) : result ratemaps :=
  n_avg ← default_n_avg opts n_avg;
  b ← accumulate test_batch opts res n_avg Ng all_activations_flag true;
  acts ← normalize (counts b) res (activations b);
  Ok {| returned_activations :=
          if all_activations_flag then inr (all_activations b) else inl acts;
        rate_map := reshape_rows acts;
        g := stack_g test_batch n_avg;
        pos := stack_pos test_batch n_avg |}.

Definition compute_ratemaps_single_agent (opts : options) (res : Z)
    (n_avg : option Z) (Ng : Z) : result ratemaps :=
  n_avg ← default_n_avg opts n_avg;
  b ← accumulate test_batch_single_agent opts res n_avg Ng false false;
  acts ← normalize (counts b) res (activations b);
  Ok {| returned_activations := inl acts;
        rate_map := reshape_rows acts;
        g := stack_g test_batch_single_agent n_avg;
        pos := stack_pos test_batch_single_agent n_avg |}.

(** A two-dimensional array of shape [res, res]. *)
Definition plane_shape (res : Z) (a : plane) : Prop :=
  length a = Z.to_nat res /\ Forall (fun row => length row = Z.to_nat res) a.

(** Bin (bx, by) receives a sample of one of the first [n_avg] batches. *)
Definition visited (batch_at : Z -> list sample) (opts : options)
    (res n_avg : Z) (bx by_ : Z) : Prop :=
  exists index px py g_row,
    0 <= index < n_avg
    /\ (px, py, g_row) ∈ batch_at index
    /\ in_grid (bin_coordinate px (box_width opts) res)
         (bin_coordinate py (box_height opts) res) res = true
    /\ to_int (bin_coordinate px (box_width opts) res) = bx
    /\ to_int (bin_coordinate py (box_height opts) res) = by_.

(** The samples of [batch] fall outside bin (bx, by). *)
Definition misses (opts : options) (res : Z) (batch : list sample)
    (bx by_ : Z) : Prop :=
  forall px py g_row,
    (px, py, g_row) ∈ batch ->
    ~ (in_grid (bin_coordinate px (box_width opts) res)
         (bin_coordinate py (box_height opts) res) res = true
       /\ to_int (bin_coordinate px (box_width opts) res) = bx
       /\ to_int (bin_coordinate py (box_height opts) res) = by_).

(** The arrays keep their shapes while samples are binned. *)
Definition bins_shape (res Ng : Z) (b : bins) : Prop :=
  plane_shape res (counts b)
  /\ length (activations b) = Z.to_nat Ng
  /\ Forall (plane_shape res) (activations b).

(** Shapes of the activations during the normalization. *)
Definition acts_shape (res Ng : Z) (acts : list plane) : Prop :=
  length acts = Z.to_nat Ng /\ Forall (plane_shape res) acts.

(** Bin (bx, by) holds a zero count and zero activations. *)
Definition bin_zero (Ng : Z) (bx by_ : nat) (cnt : plane) (acts : list plane)
    : Prop :=
  get2 cnt bx by_ = Some (of_int 0)
  /\ forall n, (n < Z.to_nat Ng)%nat -> get3 acts n bx by_ = Some (of_int 0).

(** What one step of the normalization does to bin (x, y): it divides by
    the count c only under the guard c > 0, and then c is not zero. *)
Definition guarded_division (cnt : plane) (x y : Z) : Prop :=
  exists c,
    get2 cnt (Z.to_nat x) (Z.to_nat y) = Some c
    /\ (forall acts,
          normalize_bin cnt x y acts
          = Ok (if flt (of_int 0) c
                then map (update2 (fun v => fdiv v c) (Z.to_nat x) (Z.to_nat y))
                       acts
                else acts))
    /\ (flt (of_int 0) c = true -> c <> of_int 0).

(** Every bin of the grid that no sample visits is zero for every cell in
    the returned rate map. *)
Definition unvisited_zero (batch_at : Z -> list sample) (opts : options)
    (res n_avg Ng : Z) (r : ratemaps) : Prop :=
  forall bx by_,
    0 <= bx < res -> 0 <= by_ < res ->
    ~ visited batch_at opts res n_avg bx by_ ->
    forall n, (n < Z.to_nat Ng)%nat ->
      get2 (rate_map r) n (Z.to_nat (bx * res + by_)) = Some (of_int 0).

End Ratemaps.
Arguments options F : clear implicits.
Arguments sample F : clear implicits.
Arguments bins F : clear implicits.
Arguments ratemaps F : clear implicits.
End Visualize.

(** ** Concrete inputs

    Values at which the general statements below are instantiated. *)

Module Samples.
Import FcVae Experiment Synthetic Visualize.

(** Instantiation at a two-dimensional latent space with exact rationals;
    [rsample] returns the location parameter. *)
Definition sample_loc (d : distribution Q) (s : nat) : tensor Q * nat :=
  match d with
  | Normal loc _ => (loc, S s)
  | VonMisesFisher loc _ => (loc, S s)
  | HypersphericalUniform _ => ([], S s)
  end.

Definition identity_layer : layer Q := fun t => Ok t.

Definition vae_of (ty : string) : VAE Q :=
  {| data_dim := 2; latent_dim := 2; posterior_type := ty;
     encoder_fc := identity_layer; encoder_linears := [identity_layer];
     fc_z_mu := identity_layer; fc_z_logvar := identity_layer;
     decoder_fc := identity_layer; decoder_linears := [identity_layer];
     fc_x_mu := identity_layer |}.

Definition mu0 : tensor Q := [[1#2; 3#4]%Q].
Definition logvar0 : tensor Q := [[0; 0]%Q].

(** A run of 25000 steps at learning rate 0.006 that starts at step 1 with
    an optimizer holding a single parameter group. *)
Definition config0 : train_config :=
  {| num_steps_train := 25000; lr := 6 # 1000; steps_per_logging := 20;
     steps_per_large_logging := 500; steps_per_integration := 2000;
     norm_v := true; positive_v := true |}.

Definition experiment0 : Experiment.experiment unit unit unit unit :=
  {| model := tt; param_groups := [{| group_lr := 6 # 1000; group_rest := tt |}];
     train_iter := tt; starting_step := 1; updates := 0; errors := [] |}.

(** A generator over the rationals whose state counts the draws: the
    noise is constant and every Poisson draw returns the counter. *)
Definition counting_normal (loc scale : Q) (size : nat * nat) (s : nat)
    : image Q * nat :=
  (replicate size.1 (replicate size.2 (Qplus loc scale)), S s).

Definition counting_poisson (lam : Q) (s : nat) : Z * nat :=
  (Z.of_nat s, S s).

Definition camera0 : image Q := [[1; 2]%Q; [3; 4]%Q].
Definition keep_image (img : image Q) (_ : Z * Z) : image Q := img.
Definition scale_image (img : image Q) (c : Q) : image Q :=
  map (map (Qmult c)) img.
Definition sum_row (row : list Q) : Q := foldr Qplus 0%Q row.
Definition apply_rows (m : list (list Q)) (v : list Q) : list Q :=
  map (fun row => sum_row (zip_with Qmult row v)) m.

(** A box of side 2 on a 2 x 2 grid with one cell: the first sample falls
    in bin (0, 0) and the second outside the box. *)
Definition options0 : options Q :=
  {| batch_size := 2; sequence_length := 1; box_width := 2%Q;
     box_height := 2%Q |}.

Definition batch0 (_ : Z) : list (sample Q) :=
  [((-1 # 2)%Q, (-1 # 2)%Q, [3%Q]); (5%Q, 5%Q, [7%Q])].

End Samples.

(** ** src/abn/datasets/synthetic.py: the values the loops compute *)

Module SyntheticAux.
Import Synthetic.
Section Generators.
Context {F : Type} `{PyFloat F}.
Variable rng : Type.
Variable random_poisson : F -> rng -> Z * rng.
Variable np_matmul : list (list F) -> list F -> list F.

(** angle = 2 * np.pi * i_angle / n_angles in load_points *)
Definition point_angle (n_angles i_angle : Z) : F :=
  fdiv (fmul (fmul (of_int 2) np_pi) (of_int i_angle)) (of_int n_angles).

(** rot_point = rotmat @ point for that angle *)
Definition rot_point (n_angles i_angle : Z) : list F :=
  let angle := point_angle n_angles i_angle in
  np_matmul
    [[fcos angle; fneg (fsin angle); of_int 0];
     [fsin angle; fcos angle; of_int 0];
     [of_int 0; of_int 0; of_lit 1]]
    (map of_int [1; 1; 1]).

(** The position that index i denotes in an array of n entries. *)
Definition wrap (n i : Z) : nat := Z.to_nat (if i <? 0 then i + n else i).

(** The label appended for cell i_cell: i_cell / n_cells * 360 *)
Definition cell_angle (n_cells i_cell : Z) : F :=
  fmul (truediv i_cell n_cells) (of_int 360).

(** The generator state after np.random.poisson(lam), and the value drawn. *)
Definition poisson_next (lam : Q) (s : rng) : rng :=
  (random_poisson (of_lit lam) s).2.
Definition poisson_value (lam : Q) (s : rng) : Z :=
  (random_poisson (of_lit lam) s).1.

(** The state after the five draws of one row: rates 1, 2, 4, 2, 1. *)
Definition row_next (s : rng) : rng :=
  poisson_next 1 (poisson_next 2 (poisson_next 4 (poisson_next 2
    (poisson_next 1 s)))).

(** The five numbers stored in a row started in state [s], in the order
    of the assignments. *)
Definition row_values (s : rng) : list F :=
  let s1 := poisson_next 1 s in
  let s2 := poisson_next 2 s1 in
  let s3 := poisson_next 4 s2 in
  let s4 := poisson_next 2 s3 in
  [of_int (poisson_value 1 s); of_int (poisson_value 2 s1);
   of_int (poisson_value 4 s2); of_int (poisson_value 2 s3);
   of_int (poisson_value 1 s4)].

(** The indices assigned for cell i_cell, in the order of the assignments. *)
Definition cell_indices (n_cells i_cell : Z) : list Z :=
  if i_cell =? 0 then [-2; -1; 0; 1; 2]
  else if i_cell =? 1 then [-1; 0; 1; 2; 3]
  else if i_cell =? n_cells - 2 then [-4; -3; -2; -1; 0]
  else if i_cell =? n_cells - 1 then [-3; -2; -1; 0; 1]
  else [i_cell - 2; i_cell - 1; i_cell; i_cell + 1; i_cell - 3].

(** np.zeros(n_cells) after the assignments a[i] = v, in order. *)
Definition assigned (n_cells : Z) (idxs : list Z) (vals : list F) : list F :=
  foldl (fun row iv => <[wrap n_cells iv.1 := iv.2]> row) (np_zeros n_cells)
    (zip idxs vals).

(** The rows appended by a run of the inner loop body over the cells
    [l], started in state [s]. *)
Fixpoint rows_from (n_cells : Z) (l : list Z) (s : rng) : list (list F) :=
  match l with
  | [] => []
  | i_cell :: rest =>
      assigned n_cells (cell_indices n_cells i_cell) (row_values s)
      :: rows_from n_cells rest (row_next s)
  end.

End Generators.
End SyntheticAux.

(** ** Shapes of the arrays of visualize.py *)

Module VisualizeShapes.
Import Visualize.
Section Shapes.
Context {F : Type} `{PyFloat F}.

(** a.shape == (rows, cols) *)
Definition array_shape2 {A} (rows cols : Z) (a : list (list A)) : Prop :=
  length a = Z.to_nat rows
  /\ Forall (fun row => length row = Z.to_nat cols) a.

(** a.shape == (n, rows, cols) *)
Definition array_shape3 {A} (n rows cols : Z) (a : list (list (list A)))
    : Prop :=
  length a = Z.to_nat n /\ Forall (array_shape2 rows cols) a.

(** a.shape == (n, rows, cols, depth) *)
Definition array_shape4 {A} (n rows cols depth : Z)
    (a : list (list (list (list A)))) : Prop :=
  length a = Z.to_nat n /\ Forall (array_shape3 rows cols depth) a.

End Shapes.
End VisualizeShapes.

(** ** visualize.py: the picture of the rate maps *)

Module Plots.
Import Visualize VisualizeShapes.
Section Pictures.
Context {F : Type} `{PyFloat F}.

(** The four uint8 channels of one pixel. *)
Definition pixel : Type := list Z.

(** An array of shape [height, width, 4] and dtype uint8; [pixels] lists
    its rows. *)
Record picture : Type := {
  height : Z;
  width : Z;
  pixels : list (list pixel)
}.

Definition white : pixel := [255; 255; 255; 255].

(** np.ones([h, w, 4], dtype=np.uint8) * 255 *)
Definition np_ones_255 (h w : Z) : result picture :=
  if (0 <=? h) && (0 <=? w) then
    Ok {| height := h; width := w;
          pixels := replicate (Z.to_nat h) (replicate (Z.to_nat w) white) |}
  else Raise (ValueError "negative dimensions are not allowed").

(** The sums of the second and of the first dimensions. *)
Definition total_width (l : list picture) : Z :=
  foldr (fun q w => width q + w) 0 l.
Definition total_height (l : list picture) : Z :=
  foldr (fun q h => height q + h) 0 l.

(** Row r of the arrays of [l], side by side. *)
Definition beside (l : list picture) (r : nat) : list pixel :=
  mjoin ((fun p => default [] (pixels p !! r)) <$> l).

(** np.hstack on arrays of three dimensions: they are joined along the
    second axis and must agree on the first. *)
Definition np_hstack (l : list picture) : result picture :=
  match l with
  | [] => Raise (ValueError "need at least one array to concatenate")
  | p :: rest =>
      if forallb (fun q => height q =? height p) rest then
        Ok {| height := height p;
              width := total_width l;
              pixels := beside l <$> seq 0 (Z.to_nat (height p)) |}
      else Raise (ValueError "all the input array dimensions except for the concatenation axis must match exactly")
  end.

(** np.vstack: the arrays are joined along the first axis and must agree
    on the second. *)
Definition np_vstack (l : list picture) : result picture :=
  match l with
  | [] => Raise (ValueError "need at least one array to concatenate")
  | p :: rest =>
      if forallb (fun q => width q =? width p) rest then
        Ok {| height := total_height l;
              width := width p;
              pixels := mjoin (pixels <$> l) |}
      else Raise (ValueError "all the input array dimensions except for the concatenation axis must match exactly")
  end.

(** a // b on integers *)
Definition py_floordiv (a b : Z) : result Z :=
  if b =? 0 then Raise ZeroDivisionError else Ok (a / b).

(** l[i] for an index of range(len(l)) *)
Definition getitem {A} (l : list A) (i : Z) : result A :=
  match l !! Z.to_nat i with
  | Some a => Ok a
  | None => Raise IndexError
  end.

(** l[start:stop]: negative bounds count from the end and bounds outside
    the list are clipped. *)
Definition py_slice {A} (l : list A) (start stop : Z) : list A :=
  let n := Z.of_nat (length l) in
  let clip i := if i <? 0 then Z.max 0 (i + n) else Z.min i n in
  take (Z.to_nat (clip stop - clip start)) (drop (Z.to_nat (clip start)) l).

(** The body of the loop of concat_images. *)
Definition add_image (images : list picture) (spacer : picture) (i : Z)
    (images_with_spacers : list picture) : result (list picture) :=
  image ← getitem images i;
  Ok (if i =? Z.of_nat (length images) - 1
      then (images_with_spacers ++ [image])%list
      else (images_with_spacers ++ [image; spacer])%list).

Definition concat_images (images : list picture) (image_width spacer_size : Z)
    : result picture :=
  spacer ← np_ones_255 image_width spacer_size;
  let image_size := Z.of_nat (length images) in
  images_with_spacers ←
    for_each (add_image images spacer) (py_range 0 image_size) [];
  np_hstack images_with_spacers.

(** The body of the loop of concat_images_in_rows. *)
Definition add_row_of_images (images : list picture)
    (row_size image_width spacer_size column_size : Z) (spacer_h : picture)
    (row : Z) (row_images_with_spacers : list picture)
    : result (list picture) :=
  let row_images :=
    py_slice images (column_size * row) (column_size * row + column_size) in
  row_concated_images ← concat_images row_images image_width spacer_size;
  Ok (if row =? row_size - 1
      then (row_images_with_spacers ++ [row_concated_images])%list
      else (row_images_with_spacers ++ [row_concated_images; spacer_h])%list).

Definition concat_images_in_rows (images : list picture)
    (row_size image_width spacer_size : Z) : result picture :=
  column_size ← py_floordiv (Z.of_nat (length images)) row_size;
  spacer_h ←
    np_ones_255 spacer_size
      (image_width * column_size + (column_size - 1) * spacer_size);
  row_images_with_spacers ←
    for_each
      (add_row_of_images images row_size image_width spacer_size column_size
         spacer_h)
      (py_range 0 row_size) [];
  np_vstack row_images_with_spacers.

(** rgb(im, cmap, smooth) for the colour map and the smoothing of the
    call: matplotlib and OpenCV turn a two-dimensional array into a
    picture. *)
Variable rgb : list (list F) -> picture.

(** plot_ratemaps; [last_dim] is activations.shape[-1]. *)
Definition plot_ratemaps (activations : list (list (list F)))
    (last_dim n_plots width : Z) : result picture :=
  let images := rgb <$> py_slice activations 0 n_plots in
  row_size ← py_floordiv n_plots width;
  concat_images_in_rows images row_size last_dim 4.

(** The test batches, as in compute_ratemaps, and str on integers. *)
Variable test_batch : Z -> list (sample F).
Variable py_str : Z -> string.

(** save_ratemaps up to the call of imsave: the file name and the picture
    handed to it.  compute_ratemaps is called with Ng = 512 and
    all_activations_flag = False, so that its first array is the
    normalized activations. *)
Definition save_ratemaps (opts : options F) (save_dir run_ID : string)
    (step res : Z) (n_avg : option Z) : result (string * picture) :=
  n_avg ← default_n_avg opts n_avg;
  r ← compute_ratemaps test_batch opts res (Some n_avg) 512 false;
  match returned_activations r with
  | inl activations =>
      rm_fig ← plot_ratemaps activations res
                  (Z.of_nat (length activations)) 16;
      let imdir := save_dir ++ "/" ++ run_ID in
      Ok (imdir ++ "/" ++ py_str step ++ ".png", rm_fig)
  | inr _ => Raise (RuntimeError "all_activations_flag is False")
  end.

(** The array holds [height] rows of [width] pixels. *)
Definition well_formed (p : picture) : Prop :=
  0 <= height p /\ 0 <= width p
  /\ array_shape2 (height p) (width p) (pixels p).

(** The items of [l] with [spacer] between neighbours. *)
Fixpoint interleave {A} (spacer : A) (l : list A) : list A :=
  match l with
  | [] => []
  | x :: rest =>
      match rest with
      | [] => [x]
      | _ :: _ => x :: spacer :: interleave spacer rest
      end
  end.

(** A well-formed picture of the given shape. *)
Definition has_shape (h w : Z) (p : picture) : Prop :=
  height p = h /\ width p = w /\ well_formed p.

End Pictures.
End Plots.

(** Concrete pictures and batches. *)

Module PlotSamples.
Import Visualize Plots.

Definition red : pixel := [255; 0; 0; 255].

(** A red square of side 2, and the colour map that paints every rate map
    as that square. *)
Definition tile : picture :=
  {| height := 2; width := 2; pixels := [[red; red]; [red; red]] |}.
Definition rgb0 (_ : list (list Q)) : picture := tile.

(** A strip of one row, which does not fit beside [tile]. *)
Definition strip : picture :=
  {| height := 1; width := 2; pixels := [[red; red]] |}.

(** Two samples with 512 activations each. *)
Definition batch512 (_ : Z) : list (sample Q) :=
  [((-1 # 2)%Q, (-1 # 2)%Q, replicate 512 3%Q);
   (5%Q, 5%Q, replicate 512 7%Q)].

(** str on the one step that is saved. *)
Definition str100 (_ : Z) : string := "100".

End PlotSamples.

(** ** Concrete runs of the training loop *)

Module ExperimentSamples.
Import Experiment Samples.

(** A run resumed from a checkpoint saved at step 100000: with 25000
    steps to go it leaves the window 10000 < step < 120000 on its way. *)
Definition experiment_resumed : Experiment.experiment unit unit unit unit :=
  {| model := tt; param_groups := [{| group_lr := 1 # 1000; group_rest := tt |}];
     train_iter := tt; starting_step := 100000; updates := 0; errors := [] |}.

(** The collaborators of the loop, reduced to their effect on the state. *)
Definition next_unit (it : unit) : unit * unit := (tt, it).
Definition keep_weights (_ : list (param_group unit)) (w : unit) (_ : unit)
    (_ : Z) : unit := w.
Definition no_errors (_ : train_config) (_ : Z) (w : unit)
    : result (unit * list unit) := Ok (w, []).

End ExperimentSamples.

(** ** fc_vae.py: layers that accept their input *)

Module FcVaeShapes.
Import FcVae.
Section VAE.
Context {F : Type} `{PyFloat F}.

(** A linear layer that returns on every batch it is given. *)
Definition accepts (l : layer F) : Prop :=
  forall t, exists t', l t = Ok t'.

(** All the layers of the model return. *)
Definition layers_accept (self : VAE F) : Prop :=
  accepts (encoder_fc self)
  /\ Forall accepts (encoder_linears self)
  /\ accepts (fc_z_mu self)
  /\ accepts (fc_z_logvar self)
  /\ accepts (decoder_fc self)
  /\ Forall accepts (decoder_linears self)
  /\ accepts (fc_x_mu self).

End VAE.
End FcVaeShapes.

(** ** visualize.py: the samples of a bin *)

Module RateMapBins.
Import Visualize.
Section Bins.
Context {F : Type} `{PyFloat F}.

(** The test of the loop body, for one bin: the sample lies in the grid
    and int(x), int(y) is the bin (bx, by). *)
Definition lands (opts : options F) (res bx by_ : Z) (smp : sample F) : bool :=
  let x := bin_coordinate smp.1.1 (box_width opts) res in
  let y := bin_coordinate smp.1.2 (box_height opts) res in
  in_grid x y res && (to_int x =? bx) && (to_int y =? by_).

(** The activations of the samples of a batch that land in the bin, in
    the order of the batch. *)
Fixpoint hits_of (opts : options F) (res bx by_ : Z) (batch : list (sample F))
    : list (list F) :=
  match batch with
  | [] => []
  | smp :: rest =>
      if lands opts res bx by_ smp
      then smp.2 :: hits_of opts res bx by_ rest
      else hits_of opts res bx by_ rest
  end.

(** The same over the batches drawn at the indices [l], in order. *)
Definition hits_over (batch_at : Z -> list (sample F)) (opts : options F)
    (res bx by_ : Z) (l : list Z) : list (list F) :=
  mjoin ((fun index => hits_of opts res bx by_ (batch_at index)) <$> l).

Definition bin_hits (batch_at : Z -> list (sample F)) (opts : options F)
    (res n_avg bx by_ : Z) : list (list F) :=
  hits_over batch_at opts res bx by_ (py_range 0 n_avg).

(** counts[bx, by] after these samples: 0.0 + 1 + ... + 1. *)
Definition bin_count (hits : list (list F)) : F :=
  foldl (fun c _ => fadd c (of_int 1)) (of_int 0) hits.

(** activations[n, bx, by] after these samples: the activations of cell n
    added to 0.0 from the first sample to the last. *)
Definition bin_sum (n : nat) (hits : list (list F)) : F :=
  foldl (fun a g_row => fadd a (default (of_int 0) (g_row !! n))) (of_int 0)
    hits.

(** The entry after the normalization loop. *)
Definition bin_mean (n : nat) (hits : list (list F)) : F :=
  if flt (of_int 0) (bin_count hits)
  then fdiv (bin_sum n hits) (bin_count hits)
  else bin_sum n hits.

(** a[n, i, j, k], None outside the array. *)
Definition get4 (a : list (list (list (list F)))) (n i j k : nat)
    : option F :=
  a3 ← a !! n; get3 a3 i j k.

End Bins.
End RateMapBins.

(** ** Concrete collaborators of evaluate_curvature *)

Module MainSamples.

(** Curvature profiles as integers on a grid given by its size, figures
    as the list of what plot_curv was given, and the error as a
    difference: each value logged shows what it was computed from. *)
Definition true_profile (cfg : string) : Z * Z := (10, 5).
Definition learned_profile (_ : unit) (cfg : string) : Z * Z := (20, 7).
Definition profile_error (z_grid curv_learned curv_true : Z) (_ : string)
    : Z :=
  z_grid + (curv_learned - curv_true).
Definition drawn (z_grid curv : Z) (_ : string) (norm_val : option Z)
    (tag : string) : string * list Z :=
  (tag, [z_grid; curv; default 0 norm_val]).
Definition profile_max (curv : Z) : Z := curv.

End MainSamples.

(** ** Two runs of the generators of synthetic.py *)

Module Seeds.
Import Synthetic.
Section Worlds.
Context {F : Type} `{PyFloat F}.

(** The generator states of the two runs, and what it means for them to
    be in step: seeded alike, whatever the representation of the state. *)
Variables rng1 rng2 : Type.
Variable in_step : rng1 -> rng2 -> Prop.

(** From states in step, np.random.normal returns the same array in both
    runs and leaves the states in step; likewise np.random.poisson. *)
Definition same_normal
    (normal1 : F -> F -> nat * nat -> rng1 -> image F * rng1)
    (normal2 : F -> F -> nat * nat -> rng2 -> image F * rng2) : Prop :=
  forall loc scale size s1 s2,
    in_step s1 s2 ->
    (normal1 loc scale size s1).1 = (normal2 loc scale size s2).1
    /\ in_step (normal1 loc scale size s1).2 (normal2 loc scale size s2).2.

Definition same_poisson (poisson1 : F -> rng1 -> Z * rng1)
    (poisson2 : F -> rng2 -> Z * rng2) : Prop :=
  forall lam s1 s2,
    in_step s1 s2 ->
    (poisson1 lam s1).1 = (poisson2 lam s2).1
    /\ in_step (poisson1 lam s1).2 (poisson2 lam s2).2.

(** The two runs return the same value and end in step. *)
Definition agree {A} (x1 : A * rng1) (x2 : A * rng2) : Prop :=
  x1.1 = x2.1 /\ in_step x1.2 x2.2.

(** The same for runs that may raise: both return and agree, or both
    raise the same exception. *)
Definition agree_result {A} (r1 : result (A * rng1)) (r2 : result (A * rng2))
    : Prop :=
  match r1, r2 with
  | Ok x1, Ok x2 => agree x1 x2
  | Raise e1, Raise e2 => e1 = e2
  | _, _ => False
  end.

End Worlds.

(** A second generator over the naturals whose counter runs five ahead of
    the counter of [Samples.counting_poisson] and which draws the same
    numbers. *)
Definition ahead (s t : nat) : Prop := t = (s + 5)%nat.
Definition shifted_poisson (lam : Q) (t : nat) : Z * nat :=
  (Z.of_nat (t - 5), S t).

End Seeds.

(** * Properties *)

(** ** VAE.reparameterize and VAE.encode *)

Module FcVaeFacts.
Import FcVae Samples.
Section VAE.
Context {F : Type} `{PyFloat F}.
Variable rng : Type.
Variable rsample : distribution F -> rng -> tensor F * rng.
Abbreviation reparameterize := (FcVae.reparameterize rng rsample).

Lemma ones_like_entries (t : tensor F) :
  Forall2 (Forall2 (fun o _ => o = of_int 1)) (ones_like t) t.
Proof.
  induction t as [|row t IH]; constructor; [| exact IH].
  induction row as [|v row IHrow]; constructor; [reflexivity | exact IHrow].
Qed.

Lemma ones_like_tmap (f : F -> F) (t : tensor F) :
  ones_like (tmap f t) = ones_like t.
Proof.
  unfold ones_like, tmap. rewrite map_map. apply map_ext. intros row.
  rewrite map_map. reflexivity.
Qed.

(** C1: reparameterize dispatches on posterior_type.  For "gaussian" the
    sample is drawn from Normal(z_mu, exp(0.5 * z_logvar)); for
    "hyperspherical" it is drawn from VonMisesFisher(z_mu, z_kappa) and the
    prior is HypersphericalUniform(latent_dim - 1). *)
Theorem reparameterize_dispatch (self : VAE F) (z_mu z_p : tensor F) (s : rng) :
  (posterior_type self = "gaussian" ->
   let z_std := torch_exp (scalar_mul (of_lit 0.5) z_p) in
   let q_z := Normal z_mu z_std in
   reparameterize self (z_mu, z_p) s
   = Ok (fst (rsample q_z s), q_z,
         Normal (ones_like z_mu) (ones_like z_std), snd (rsample q_z s)))
  /\ (posterior_type self = "hyperspherical" ->
      let q_z := VonMisesFisher z_mu z_p in
      reparameterize self (z_mu, z_p) s
      = Ok (fst (rsample q_z s), q_z,
            HypersphericalUniform (latent_dim self - 1),
            snd (rsample q_z s))).
Proof.
  split; intros Hty; unfold FcVae.reparameterize; rewrite Hty; simpl;
    destruct (rsample _ s) as [z s']; reflexivity.
Qed.

(** C8: with posterior_type "gaussian" the prior returned by reparameterize
    is Normal(ones_like(z_mu), ones_like(z_std)): mean 1 and standard
    deviation 1 in every coordinate, which differs from a zero-mean prior
    as soon as the batch has a coordinate. *)
Theorem gaussian_prior_is_ones (self : VAE F) (z_mu z_logvar : tensor F)
    (s : rng) :
  posterior_type self = "gaussian" ->
  exists z q_z loc scale s',
    reparameterize self (z_mu, z_logvar) s = Ok (z, q_z, Normal loc scale, s')
    /\ Forall2 (Forall2 (fun m _ => m = of_int 1)) loc z_mu
    /\ Forall2 (Forall2 (fun sd _ => sd = of_int 1)) scale z_logvar
    /\ (of_int 1 <> of_int 0 :> F ->
        (exists row v, row ∈ z_mu /\ v ∈ row) ->
        loc <> zeros_like z_mu).
Proof.
  intros Hty. unfold FcVae.reparameterize. rewrite Hty. simpl.
  destruct (rsample _ s) as [z s'].
  eexists _, _, _, _, _. split; [reflexivity |].
  split; [apply ones_like_entries |].
  split.
  - unfold torch_exp, scalar_mul. rewrite !ones_like_tmap.
    apply ones_like_entries.
  - intros Hne (row & v & Hrow & Hv) Heq.
    induction z_mu as [|r t IH]; [inversion Hrow |].
    simpl in Heq. injection Heq as Hr Ht.
    apply elem_of_cons in Hrow as [-> | Hin]; [| exact (IH Hin Ht)].
    destruct r as [|w r]; [inversion Hv |].
    simpl in Hr. injection Hr as Hw _. exact (Hne Hw).
Qed.

End VAE.

Lemma reparameterize_dispatch_witness :
  FcVae.reparameterize nat sample_loc (vae_of "gaussian") (mu0, logvar0) 0%nat
  = Ok (mu0, Normal mu0 (torch_exp (scalar_mul (of_lit 0.5) logvar0)),
        Normal (ones_like mu0)
          (ones_like (torch_exp (scalar_mul (of_lit 0.5) logvar0))),
        1%nat)
  /\ FcVae.reparameterize nat sample_loc (vae_of "hyperspherical")
       (mu0, logvar0) 0%nat
     = Ok (mu0, VonMisesFisher mu0 logvar0, HypersphericalUniform 1, 1%nat).
Proof.
  split.
  - exact (proj1 (reparameterize_dispatch nat sample_loc (vae_of "gaussian")
                    mu0 logvar0 0%nat) eq_refl).
  - exact (proj2 (reparameterize_dispatch nat sample_loc
                    (vae_of "hyperspherical") mu0 logvar0 0%nat) eq_refl).
Defined.

Lemma gaussian_prior_is_ones_witness :
  posterior_type (vae_of "gaussian") = "gaussian"
  /\ (of_int 1 <> of_int 0 :> Q)
  /\ (exists row v, row ∈ mu0 /\ v ∈ row)
  /\ exists z q_z loc scale s',
       FcVae.reparameterize nat sample_loc (vae_of "gaussian") (mu0, logvar0)
         0%nat = Ok (z, q_z, Normal loc scale, s')
       /\ Forall2 (Forall2 (fun m _ => m = of_int 1)) loc mu0
       /\ Forall2 (Forall2 (fun sd _ => sd = of_int 1)) scale logvar0
       /\ loc <> zeros_like mu0.
Proof.
  assert (Hne : of_int 1 <> of_int 0 :> Q) by discriminate.
  assert (Hex : exists row v, row ∈ mu0 /\ v ∈ row).
  { exists [1#2; 3#4]%Q, (1#2)%Q. split; constructor. }
  split; [reflexivity |]. split; [exact Hne |]. split; [exact Hex |].
  destruct (gaussian_prior_is_ones nat sample_loc (vae_of "gaussian") mu0
              logvar0 0%nat eq_refl)
    as (z & q_z & loc & scale & s' & Hrun & Hloc & Hscale & Hdiff).
  exists z, q_z, loc, scale, s'.
  repeat split; [exact Hrun | exact Hloc | exact Hscale | exact (Hdiff Hne Hex)].
Defined.

End FcVaeFacts.

(** ** Configuration mismatches *)

Module ConfigFacts.
Import FcVae.

Lemma py_in_elem_of (name : string) (members : list string) :
  py_in name members = true <-> name ∈ members.
Proof.
  unfold py_in. rewrite existsb_exists. split.
  - intros (m & Hin & Heq). apply String.eqb_eq in Heq. subst m.
    apply list_elem_of_In. exact Hin.
  - intros Hin. exists name. split; [apply list_elem_of_In, Hin |].
    apply String.eqb_refl.
Qed.

Lemma py_in_false (name : string) (members : list string) :
  name ∉ members -> py_in name members = false.
Proof.
  intros Hnot. destruct (py_in name members) eqn:E; [| reflexivity].
  apply py_in_elem_of in E. contradiction.
Qed.

Lemma check_dataset_names_first_bad (pre post : list string) (n : string) :
  Forall (fun d => d ∈ DefaultConfig.recognized_datasets) pre ->
  n ∉ DefaultConfig.recognized_datasets ->
  DefaultConfig.check_dataset_names (pre ++ n :: post)
  = Raise (ValueError (DefaultConfig.not_recognized n)).
Proof.
  intros Hpre Hn.
  induction Hpre as [|d pre Hd _ IH];
    cbn [app DefaultConfig.check_dataset_names].
  - rewrite (py_in_false _ _ Hn). reflexivity.
  - apply py_in_elem_of in Hd. rewrite Hd. exact IH.
Qed.

Lemma eqb_of_not_elem (name a : string) (l : list string) :
  name ∉ (a :: l) -> String.eqb name a = false /\ name ∉ l.
Proof.
  intros Hn. split.
  - apply String.eqb_neq. intros ->. apply Hn. constructor.
  - intros Hin. apply Hn. constructor. exact Hin.
Qed.

Lemma encode_unrecognized {F : Type} `{PyFloat F} (self : VAE F) (x : tensor F) :
  posterior_type self ∉ ["gaussian"; "hyperspherical"; "toroidal"] ->
  is_raise (encode self x).
Proof.
  intros Hn.
  apply eqb_of_not_elem in Hn as [Hg Hn].
  apply eqb_of_not_elem in Hn as [Hh _].
  unfold encode.
  destruct (encoder_fc self x) as [h0|e]; simpl; [| exact I].
  destruct (relu_stack _ _) as [h|e]; simpl; [| exact I].
  rewrite Hg, Hh. exact I.
Qed.

Lemma train_test_model_unrecognized
    (config : Type) (posterior_type : config -> string)
    (scheduler : config -> bool) (model optimizer lr_scheduler losses : Type)
    (NeuralVAE ToroidalVAE : config -> result model)
    (Adam : model -> config -> optimizer)
    (ReduceLROnPlateau : optimizer -> lr_scheduler)
    (train_test : model -> optimizer -> option lr_scheduler -> config ->
                  result (losses * losses * model))
    (cfg : config) :
  posterior_type cfg ∉ ["gaussian"; "hyperspherical"; "toroidal"] ->
  Main.train_test_model config posterior_type scheduler model optimizer
    lr_scheduler losses NeuralVAE ToroidalVAE Adam ReduceLROnPlateau
    train_test cfg
  = Raise (UnboundLocalError "model").
Proof.
  intros Hn. unfold Main.train_test_model.
  assert (Hpair : py_in (posterior_type cfg) ["gaussian"; "hyperspherical"]
                  = false).
  { apply py_in_false. intros Hin. apply Hn.
    apply elem_of_cons in Hin as [-> | Hin]; [constructor |].
    apply elem_of_cons in Hin as [-> | Hin]; [do 2 constructor |].
    inversion Hin. }
  assert (Htor : String.eqb (posterior_type cfg) "toroidal" = false).
  { apply String.eqb_neq. intros Heq. apply Hn. rewrite Heq.
    do 3 constructor. }
  rewrite Hpair, Htor. reflexivity.
Qed.

(** C3: a dataset name outside the five recognized ones makes the
    validation loop of default_config raise ValueError with a message that
    names it, and a posterior_type outside gaussian, hyperspherical and
    toroidal ends in a raised exception both in VAE.encode and in
    train_test_model (an UnboundLocalError on the unassigned local). *)
Theorem unrecognized_names_raise :
  (forall (pre post : list string) (n : string),
     Forall (fun d => d ∈ DefaultConfig.recognized_datasets) pre ->
     n ∉ ["s1_synthetic"; "s2_synthetic"; "t2_synthetic"; "experimental";
          "grid_cells"] ->
     DefaultConfig.check_dataset_names (pre ++ n :: post)
     = Raise (ValueError ("Dataset name " ++ n ++ " not recognized.")))
  /\ (forall (F : Type) (HF : PyFloat F) (self : VAE F) (x : tensor F),
        posterior_type self ∉ ["gaussian"; "hyperspherical"; "toroidal"] ->
        is_raise (encode self x))
  /\ (forall (config : Type) (posterior_type : config -> string)
        (scheduler : config -> bool)
        (model optimizer lr_scheduler losses : Type)
        (NeuralVAE ToroidalVAE : config -> result model)
        (Adam : model -> config -> optimizer)
        (ReduceLROnPlateau : optimizer -> lr_scheduler)
        (train_test : model -> optimizer -> option lr_scheduler -> config ->
                      result (losses * losses * model))
        (cfg : config),
        posterior_type cfg ∉ ["gaussian"; "hyperspherical"; "toroidal"] ->
        Main.train_test_model config posterior_type scheduler model optimizer
          lr_scheduler losses NeuralVAE ToroidalVAE Adam ReduceLROnPlateau
          train_test cfg
        = Raise (UnboundLocalError "model")).
Proof.
  split; [| split].
  - intros pre post n Hpre Hn. exact (check_dataset_names_first_bad _ _ _ Hpre Hn).
  - intros F HF self x Hn. exact (encode_unrecognized self x Hn).
  - intros. apply train_test_model_unrecognized. assumption.
Qed.

Lemma not_elem_of_by_py_in (name : string) (members : list string) :
  py_in name members = false -> name ∉ members.
Proof.
  intros Hf Hin. apply py_in_elem_of in Hin. congruence.
Qed.

Lemma unrecognized_names_raise_witness :
  DefaultConfig.check_dataset_names ["experimental"; "mnist"; "grid_cells"]
  = Raise (ValueError "Dataset name mnist not recognized.")
  /\ is_raise (encode (Samples.vae_of "laplace") Samples.mu0)
  /\ Main.train_test_model string id (fun _ => false) unit unit unit unit
       (fun _ => Ok tt) (fun _ => Ok tt) (fun _ _ => tt) (fun _ => tt)
       (fun _ _ _ _ => Ok (tt, tt, tt)) "laplace"
     = Raise (UnboundLocalError "model").
Proof.
  destruct unrecognized_names_raise as (Hdata & Henc & Htrain).
  split; [| split].
  - apply (Hdata ["experimental"] ["grid_cells"] "mnist").
    + constructor; [| constructor].
      apply py_in_elem_of. reflexivity.
    + apply not_elem_of_by_py_in. reflexivity.
  - apply Henc. apply not_elem_of_by_py_in. reflexivity.
  - apply Htrain. apply not_elem_of_by_py_in. reflexivity.
Defined.

End ConfigFacts.

(** ** evaluate_curvature *)

Module MainFacts.
Import ConfigFacts.
Section Script.
Variable config : Type.
Variable dataset_name : config -> string.
Variables model grid curv figure scalar : Type.
Variable compute_mean_curvature_true : config -> grid * curv.
Variable compute_mean_curvature_learned : model -> config -> grid * curv.
Variable compute_error : grid -> curv -> curv -> config -> scalar.
Variable plot_curv : grid -> curv -> config -> option scalar -> string -> figure.
Variable curv_max : curv -> scalar.

Abbreviation evaluate_curvature :=
  (Main.evaluate_curvature config dataset_name model grid curv figure scalar
     compute_mean_curvature_true compute_mean_curvature_learned compute_error
     plot_curv curv_max).
Abbreviation event := (Main.event figure scalar).

(** The trace on a synthetic dataset: true curvature, learned curvature,
    error, then the figure of the learned curvature. *)
Lemma evaluate_curvature_synthetic (m : model) (cfg : config) :
  py_in (dataset_name cfg) Main.synthetic_datasets = true ->
  let '(zt, ct) := compute_mean_curvature_true cfg in
  let '(zl, cl) := compute_mean_curvature_learned m cfg in
  evaluate_curvature m cfg
  = Ok [Main.Print "Computing true curvature from synthetic data...";
        Main.ComputeTrue;
        Main.WandbLog "fig_curv_norms_true"
          (Main.Image (plot_curv zt ct cfg None "true"));
        Main.Print "Computing learned curvature...";
        Main.ComputeLearned;
        Main.ComputeError;
        Main.WandbLog "curvature_error"
          (Main.Scalar (compute_error zl cl ct cfg));
        Main.WandbLog "fig_curv_norms_learned"
          (Main.Image (plot_curv zl cl cfg (Some (curv_max ct)) "learned"))].
Proof.
  intros Hsyn. unfold Main.evaluate_curvature. rewrite Hsyn.
  destruct (compute_mean_curvature_true cfg) as [zt ct].
  destruct (compute_mean_curvature_learned m cfg) as [zl cl].
  reflexivity.
Qed.

(** The trace on any other dataset: only the learned curvature. *)
Lemma evaluate_curvature_other (m : model) (cfg : config) :
  py_in (dataset_name cfg) Main.synthetic_datasets = false ->
  let '(zl, cl) := compute_mean_curvature_learned m cfg in
  evaluate_curvature m cfg
  = Ok [Main.Print "Computing learned curvature...";
        Main.ComputeLearned;
        Main.WandbLog "fig_curv_norms_learned"
          (Main.Image (plot_curv zl cl cfg None "learned"))].
Proof.
  intros Hsyn. unfold Main.evaluate_curvature. rewrite Hsyn.
  destruct (compute_mean_curvature_learned m cfg) as [zl cl].
  reflexivity.
Qed.

Ltac in_trace :=
  repeat first [ apply list_elem_of_here | apply list_elem_of_further ].

Ltac not_in_trace H :=
  repeat (apply elem_of_cons in H as [H | H]; [discriminate H |]);
  inversion H.

(** C6: evaluate_curvature returns normally.  Exactly when the dataset
    name is s1_synthetic, s2_synthetic or t2_synthetic it computes the
    true curvature and logs, under fig_curv_norms_true, the figure drawn
    from that true curvature, and it logs, under curvature_error, the
    error computed between the learned and the true curvature on the
    grid of the learned one.  For every dataset name it computes the
    learned curvature and logs, under fig_curv_norms_learned, the figure
    drawn from it (normalized by the maximum of the true curvature on a
    synthetic dataset, and not normalized otherwise); nothing else is
    logged. *)
Theorem evaluate_curvature_logs (m : model) (cfg : config) :
  exists tr : list event,
    evaluate_curvature m cfg = Ok tr
    /\ (dataset_name cfg ∈ ["s1_synthetic"; "s2_synthetic"; "t2_synthetic"] ->
        tr = [Main.Print "Computing true curvature from synthetic data...";
              Main.ComputeTrue;
              Main.WandbLog "fig_curv_norms_true"
                (Main.Image
                   (plot_curv (compute_mean_curvature_true cfg).1
                      (compute_mean_curvature_true cfg).2 cfg None "true"));
              Main.Print "Computing learned curvature...";
              Main.ComputeLearned;
              Main.ComputeError;
              Main.WandbLog "curvature_error"
                (Main.Scalar
                   (compute_error (compute_mean_curvature_learned m cfg).1
                      (compute_mean_curvature_learned m cfg).2
                      (compute_mean_curvature_true cfg).2 cfg));
              Main.WandbLog "fig_curv_norms_learned"
                (Main.Image
                   (plot_curv (compute_mean_curvature_learned m cfg).1
                      (compute_mean_curvature_learned m cfg).2 cfg
                      (Some (curv_max (compute_mean_curvature_true cfg).2))
                      "learned"))])
    /\ (dataset_name cfg ∉ ["s1_synthetic"; "s2_synthetic"; "t2_synthetic"] ->
        tr = [Main.Print "Computing learned curvature...";
              Main.ComputeLearned;
              Main.WandbLog "fig_curv_norms_learned"
                (Main.Image
                   (plot_curv (compute_mean_curvature_learned m cfg).1
                      (compute_mean_curvature_learned m cfg).2 cfg None
                      "learned"))])
    /\ (dataset_name cfg ∈ ["s1_synthetic"; "s2_synthetic"; "t2_synthetic"]
        <-> Main.ComputeTrue ∈ tr)
    /\ (dataset_name cfg ∈ ["s1_synthetic"; "s2_synthetic"; "t2_synthetic"]
        <-> exists fig,
              Main.WandbLog "fig_curv_norms_true" (Main.Image fig) ∈ tr)
    /\ (dataset_name cfg ∈ ["s1_synthetic"; "s2_synthetic"; "t2_synthetic"]
        <-> Main.ComputeError ∈ tr)
    /\ (dataset_name cfg ∈ ["s1_synthetic"; "s2_synthetic"; "t2_synthetic"]
        <-> exists err,
              Main.WandbLog "curvature_error" (Main.Scalar err) ∈ tr)
    /\ Main.ComputeLearned ∈ tr
    /\ Main.WandbLog "fig_curv_norms_learned"
         (Main.Image
            (plot_curv (fst (compute_mean_curvature_learned m cfg))
               (snd (compute_mean_curvature_learned m cfg)) cfg
               (if py_in (dataset_name cfg) Main.synthetic_datasets
                then Some (curv_max (snd (compute_mean_curvature_true cfg)))
                else None)
               "learned")) ∈ tr.
Proof.
  destruct (py_in (dataset_name cfg) Main.synthetic_datasets) eqn:Hsyn.
  - pose proof (evaluate_curvature_synthetic m cfg Hsyn) as Hrun.
    apply py_in_elem_of in Hsyn.
    destruct (compute_mean_curvature_true cfg) as [zt ct].
    destruct (compute_mean_curvature_learned m cfg) as [zl cl].
    eexists. split; [exact Hrun |].
    split; [intros _; reflexivity |].
    split; [intros Hnot; contradiction |].
    repeat split; intros; try exact Hsyn; try (eexists; in_trace); in_trace.
  - pose proof (evaluate_curvature_other m cfg Hsyn) as Hrun.
    assert (Hnot : dataset_name cfg ∉ Main.synthetic_datasets).
    { apply not_elem_of_by_py_in. exact Hsyn. }
    destruct (compute_mean_curvature_learned m cfg) as [zl cl].
    eexists. split; [exact Hrun |].
    split; [intros Hin; contradiction |].
    split; [intros _; reflexivity |].
    split; [split; [intros Hin; contradiction | intros Hin; not_in_trace Hin] |].
    split; [split; [intros Hin; contradiction
                   | intros [fig Hin]; not_in_trace Hin] |].
    split; [split; [intros Hin; contradiction | intros Hin; not_in_trace Hin] |].
    split; [split; [intros Hin; contradiction
                   | intros [err Hin]; not_in_trace Hin] |].
    split; in_trace.
Qed.

End Script.

Lemma evaluate_curvature_logs_witness :
  Main.evaluate_curvature string id unit Z Z (string * list Z) Z
    MainSamples.true_profile MainSamples.learned_profile
    MainSamples.profile_error MainSamples.drawn MainSamples.profile_max
    tt "s2_synthetic"
  = Ok [Main.Print "Computing true curvature from synthetic data...";
        Main.ComputeTrue;
        Main.WandbLog "fig_curv_norms_true" (Main.Image ("true", [10; 5; 0]));
        Main.Print "Computing learned curvature...";
        Main.ComputeLearned;
        Main.ComputeError;
        Main.WandbLog "curvature_error" (Main.Scalar 22);
        Main.WandbLog "fig_curv_norms_learned"
          (Main.Image ("learned", [20; 7; 5]))]
  /\ Main.evaluate_curvature string id unit Z Z (string * list Z) Z
       MainSamples.true_profile MainSamples.learned_profile
       MainSamples.profile_error MainSamples.drawn MainSamples.profile_max
       tt "experimental"
     = Ok [Main.Print "Computing learned curvature...";
           Main.ComputeLearned;
           Main.WandbLog "fig_curv_norms_learned"
             (Main.Image ("learned", [20; 7; 0]))].
Proof.
  split.
  - destruct (evaluate_curvature_logs string id unit Z Z (string * list Z) Z
                MainSamples.true_profile MainSamples.learned_profile
                MainSamples.profile_error MainSamples.drawn
                MainSamples.profile_max tt "s2_synthetic")
      as (tr & Hrun & Hsyn & _).
    rewrite Hrun, Hsyn; [reflexivity |].
    apply py_in_elem_of. reflexivity.
  - destruct (evaluate_curvature_logs string id unit Z Z (string * list Z) Z
                MainSamples.true_profile MainSamples.learned_profile
                MainSamples.profile_error MainSamples.drawn
                MainSamples.profile_max tt "experimental")
      as (tr & Hrun & _ & Hother & _).
    rewrite Hrun, Hother; [reflexivity |].
    apply not_elem_of_by_py_in. reflexivity.
Defined.

End MainFacts.

(** ** Experiment.train_and_evaluate *)

Module ExperimentFacts.
Import Experiment Samples.
Section TrainLoop.
Variables weights batch data_iter group_options path_error : Type.
Variable next_batch : data_iter -> batch * data_iter.
Variable optimizer_update :
  list (param_group group_options) -> weights -> batch -> Z -> weights.
Variable after_update :
  train_config -> Z -> weights -> result (weights * list path_error).

Abbreviation experiment :=
  (Experiment.experiment weights data_iter group_options path_error).
Abbreviation train_step :=
  (Experiment.train_step weights batch data_iter group_options path_error
     next_batch optimizer_update after_update).
Abbreviation train_and_evaluate :=
  (Experiment.train_and_evaluate weights batch data_iter group_options
     path_error next_batch optimizer_update after_update).

Lemma py_range_cons (a b : Z) :
  a < b -> py_range a b = a :: py_range (a + 1) b.
Proof.
  intros Hlt. unfold py_range. rewrite seqZ_cons by lia.
  do 2 f_equal; lia.
Qed.

Lemma assign_lr_unbound (groups : list (param_group group_options)) :
  groups <> [] -> assign_lr group_options None groups
                  = Raise (UnboundLocalError "lr").
Proof.
  destruct groups as [|g rest]; [congruence | reflexivity].
Qed.

(** Outside the window 10000 < step < 120000 the body does not bind lr. *)
Lemma train_step_unbound (config : train_config) (step : Z) (self : experiment) :
  step <= 10000 \/ 120000 <= step ->
  param_groups self <> [] ->
  train_step config step (self, None) = Raise (UnboundLocalError "lr").
Proof.
  intros Hstep Hgroups. unfold Experiment.train_step.
  destruct (next_batch _) as [batch_data it].
  replace ((step <? 120000) && (10000 <? step)) with false by lia.
  rewrite (assign_lr_unbound _ Hgroups). reflexivity.
Qed.

(** C2, as the code behaves: with starting_step = 1, at least one training
    step and an optimizer that holds a parameter group, the first iteration
    reads the local lr before anything has bound it, so train_and_evaluate
    raises UnboundLocalError instead of completing its steps. *)
Theorem train_and_evaluate_lr_unbound (config : train_config)
    (self : experiment) :
  starting_step self = 1 ->
  1 <= num_steps_train config ->
  param_groups self <> [] ->
  train_and_evaluate config self = Raise (UnboundLocalError "lr").
Proof.
  intros Hstart Hsteps Hgroups. unfold Experiment.train_and_evaluate.
  rewrite Hstart, py_range_cons by lia.
  cbn [for_each]. rewrite train_step_unbound by (auto; lia).
  reflexivity.
Qed.

End TrainLoop.

Lemma train_and_evaluate_lr_unbound_witness :
  starting_step experiment0 = 1
  /\ 1 <= num_steps_train config0
  /\ param_groups experiment0 <> []
  /\ Experiment.train_and_evaluate unit unit unit unit unit
       (fun it => (tt, it)) (fun _ w _ _ => w) (fun _ _ w => Ok (w, []))
       config0 experiment0
     = Raise (UnboundLocalError "lr").
Proof.
  assert (Hsteps : 1 <= num_steps_train config0) by (vm_compute; discriminate).
  assert (Hgroups : param_groups experiment0 <> []) by discriminate.
  split; [reflexivity |]. split; [exact Hsteps |]. split; [exact Hgroups |].
  exact (train_and_evaluate_lr_unbound unit unit unit unit unit
           (fun it => (tt, it)) (fun _ w _ _ => w) (fun _ _ w => Ok (w, []))
           config0 experiment0 eq_refl Hsteps Hgroups).
Defined.

End ExperimentFacts.

(** ** get_config of rnn_isometry.py *)

Module RnnIsometryFacts.
Import RnnIsometry.

(** C4, as the code behaves: the argument list of the call that builds
    config.model has no comma between the value of x_star and the keyword
    sigma_star, so the file is rejected with a SyntaxError and get_config
    returns no dictionary. *)
Theorem get_config_syntax_error : get_config = Raise SyntaxError.
Proof. reflexivity. Qed.

(** With the comma restored the call parses, and the result holds gpu = 0
    and the sixteen model hyperparameters with their literal values. *)
Lemma get_config_with_comma :
  exists cfg, get_config_from model_tokens_with_comma = Ok cfg
    /\ gpu cfg = 0 /\ model cfg = model_entries
    /\ length (train cfg) = 10%nat /\ length (data cfg) = 6%nat
    /\ length (integration cfg) = 4%nat.
Proof. eexists. repeat split. Qed.

End RnnIsometryFacts.

(** ** int(a / b) below 2^53 *)

Module PyNumFacts.
Import PyNum.

Lemma round_half_even_cases (N D : Z) :
  0 < D ->
  round_half_even N D = N / D
  \/ (round_half_even N D = N / D + 1 /\ D <= 2 * (N mod D)).
Proof.
  intros HD. unfold round_half_even.
  destruct (2 * (N mod D) <? D) eqn:E1; [left; reflexivity |].
  apply Z.ltb_ge in E1.
  destruct (D <? 2 * (N mod D)) eqn:E2; [right; split; [reflexivity | lia] |].
  destruct (Z.even (N / D)); [left; reflexivity | right; split; [reflexivity | lia]].
Qed.

Lemma round_half_even_div (a b P : Z) :
  0 <= a -> 0 < b -> 0 < P -> b < 2 * P ->
  round_half_even (a * P) b / P = a / b.
Proof.
  intros Ha Hb HP HbP.
  pose proof (Z.div_mod a b ltac:(lia)) as Hab.
  pose proof (Z.mod_pos_bound a b Hb) as Hr0.
  pose proof (Z.div_mod (a * P) b ltac:(lia)) as HN.
  pose proof (Z.mod_pos_bound (a * P) b Hb) as Hr.
  assert (Hq0 : 0 <= a / b) by (apply Z.div_pos; lia).
  set (Q := a / b) in *. set (r0 := a mod b) in *.
  set (d := a * P / b) in *. set (r := (a * P) mod b) in *.
  assert (Hlow : Q * P <= d).
  { apply Z.div_le_lower_bound; [lia |]. nia. }
  assert (Hup : d < (Q + 1) * P).
  { apply Z.div_lt_upper_bound; [lia |]. nia. }
  symmetry. apply (Z.div_unique_pos _ _ _ (round_half_even (a * P) b - Q * P)).
  - destruct (round_half_even_cases (a * P) b Hb) as [-> | [-> Hhalf]];
      fold d; [lia |].
    fold r in Hhalf. split; [lia |].
    (* (2d+1) b <= 2N = 2 a P <= 2 (Q+1) b P - 2 P < 2 (Q+1) b P - b *)
    assert (2 * (d + 1) * b < 2 * (Q + 1) * P * b) by nia.
    nia.
  - lia.
Qed.

Lemma pow2_pos (k : Z) : 0 <= k -> 0 < 2 ^ k.
Proof. intros. apply Z.pow_pos_nonneg; lia. Qed.

Lemma pow2_split (k l : Z) : 0 <= k -> 0 <= l -> 2 ^ (k + l) = 2 ^ k * 2 ^ l.
Proof. intros. apply Z.pow_add_r; lia. Qed.

(** 2^e <= a / b < 2^(e+1), written without division. *)
Lemma quot_exponent_bounds (a b : Z) :
  0 < a -> 0 < b ->
  let e := quot_exponent a b in
  b * 2 ^ Z.max e 0 <= a * 2 ^ Z.max (- e) 0
  /\ a * 2 ^ Z.max (- (e + 1)) 0 < b * 2 ^ Z.max (e + 1) 0.
Proof.
  intros Ha Hb e.
  destruct (Z.log2_spec a Ha) as [Hal Hau].
  destruct (Z.log2_spec b Hb) as [Hbl Hbu].
  pose proof (Z.log2_nonneg a) as Hla. pose proof (Z.log2_nonneg b) as Hlb.
  unfold e, quot_exponent.
  set (la := Z.log2 a) in *. set (lb := Z.log2 b) in *.
  rewrite <- !Z.add_1_r in *.
  pose proof (pow2_pos la Hla) as HA. pose proof (pow2_pos lb Hlb) as HB.
  rewrite pow2_split in Hau, Hbu by lia. change (2 ^ 1) with 2 in *.
  destruct (b * 2 ^ Z.max (la - lb) 0 <=? a * 2 ^ Z.max (- (la - lb)) 0) eqn:E.
  - apply Z.leb_le in E. split; [exact E |].
    destruct (Z_le_gt_dec 0 (la - lb)) as [Hge | Hlt].
    + rewrite (Z.max_r (- (la - lb + 1)) 0), (Z.max_l (la - lb + 1) 0) by lia.
      change (2 ^ 0) with 1. rewrite pow2_split by lia. change (2 ^ 1) with 2.
      assert (Hp : 2 ^ la = 2 ^ lb * 2 ^ (la - lb)).
      { rewrite <- pow2_split by lia. f_equal. lia. }
      pose proof (pow2_pos (la - lb) Hge). nia.
    + rewrite (Z.max_l (- (la - lb + 1)) 0), (Z.max_r (la - lb + 1) 0) by lia.
      change (2 ^ 0) with 1.
      assert (Hp : 2 ^ lb = 2 ^ 1 * 2 ^ la * 2 ^ (- (la - lb + 1))).
      { rewrite <- !pow2_split by lia. f_equal. lia. }
      change (2 ^ 1) with 2 in Hp.
      pose proof (pow2_pos (- (la - lb + 1)) ltac:(lia)). nia.
  - apply Z.leb_gt in E.
    replace (la - lb - 1 + 1) with (la - lb) by lia.
    split; [| exact E].
    destruct (Z_le_gt_dec 1 (la - lb)) as [Hge | Hlt].
    + rewrite (Z.max_l (la - lb - 1) 0), (Z.max_r (- (la - lb - 1)) 0) by lia.
      change (2 ^ 0) with 1.
      assert (Hp : 2 ^ la = 2 ^ 1 * 2 ^ lb * 2 ^ (la - lb - 1)).
      { rewrite <- !pow2_split by lia. f_equal. lia. }
      change (2 ^ 1) with 2 in Hp.
      pose proof (pow2_pos (la - lb - 1) ltac:(lia)). nia.
    + rewrite (Z.max_r (la - lb - 1) 0), (Z.max_l (- (la - lb - 1)) 0) by lia.
      change (2 ^ 0) with 1.
      assert (Hp : 2 ^ 1 * 2 ^ lb = 2 ^ la * 2 ^ (- (la - lb - 1))).
      { rewrite <- !pow2_split by lia. f_equal. lia. }
      change (2 ^ 1) with 2 in Hp.
      pose proof (pow2_pos (- (la - lb - 1)) ltac:(lia)). nia.
Qed.

Lemma quot_exponent_le (a b : Z) :
  0 < a < 2 ^ 53 -> 0 < b -> quot_exponent a b <= 52.
Proof.
  intros [Ha Hlt] Hb.
  assert (Z.log2 a < 53) by (apply Z.log2_lt_pow2; lia).
  pose proof (Z.log2_nonneg b).
  unfold quot_exponent.
  destruct (_ <=? _); lia.
Qed.

(** Below 2^53 the rounded quotient truncates to the integer quotient. *)
Lemma int_truediv_pos_exact (a b : Z) :
  0 < a < 2 ^ 53 -> 0 < b -> int_truediv_pos a b = Ok (a / b).
Proof.
  intros Ha Hb.
  pose proof (quot_exponent_le a b Ha Hb) as He.
  destruct (quot_exponent_bounds a b ltac:(lia) Hb) as [Hlow Hup].
  unfold int_truediv_pos, round_quot.
  set (e := quot_exponent a b) in *. clearbody e.
  destruct (Z_lt_ge_dec (Z.max (e - 52) (-1074)) 0) as [Hq | Hq].
  - (* a fractional quantum: q < 0 *)
    replace (0 <=? Z.max (e - 52) (-1074)) with false by (clear - Hq; lia).
    set (q := Z.max (e - 52) (-1074)) in *.
    rewrite (Z.max_l (- q) 0), (Z.max_r q 0), Z.mul_1_r by lia.
    f_equal.
    destruct (Z_le_gt_dec (-1074) (e - 52)) as [Hnorm | Hsub].
    + (* normal range: q = e - 52 *)
      assert (Hqe : q = e - 52) by lia.
      apply round_half_even_div; [lia | lia | apply pow2_pos; lia |].
      assert (Hp : 2 ^ 53 * 2 ^ Z.max (- e) 0 = 2 * 2 ^ (- q) * 2 ^ Z.max e 0).
      { change (2 * 2 ^ (- q)) with (2 ^ 1 * 2 ^ (- q)).
        rewrite <- !pow2_split by lia. f_equal. lia. }
      pose proof (pow2_pos (Z.max e 0) ltac:(lia)).
      pose proof (pow2_pos (Z.max (- e) 0) ltac:(lia)).
      pose proof (pow2_pos (- q) ltac:(lia)).
      nia.
    + (* subnormal range: q = -1074 and the quotient is below 2^-1022 *)
      assert (Hqe : q = -1074) by lia. rewrite Hqe.
      rewrite (Z.max_l (- (e + 1)) 0), (Z.max_r (e + 1) 0), Z.mul_1_r in Hup
        by lia.
      assert (Hab : a < b).
      { pose proof (pow2_pos (- (e + 1)) ltac:(lia)). nia. }
      rewrite (Z.div_small a b) by lia.
      apply Z.div_small.
      assert (Hd : a * 2 ^ (- -1074) / b < 2 ^ 52).
      { apply Z.div_lt_upper_bound; [lia |].
        assert (Hle : 2 ^ (- -1074) <= 2 ^ 52 * 2 ^ (- (e + 1))).
        { rewrite <- pow2_split by lia. apply Z.pow_le_mono_r; lia. }
        pose proof (pow2_pos (- (e + 1)) ltac:(lia)).
        nia. }
      assert (0 <= a * 2 ^ (- -1074) / b).
      { apply Z.div_pos; [| lia]. pose proof (pow2_pos (- -1074) ltac:(lia)). nia. }
      destruct (round_half_even_cases (a * 2 ^ (- -1074)) b Hb) as [-> | [-> _]].
      * split; [lia |]. eapply Z.lt_trans; [exact Hd |].
        apply Z.pow_lt_mono_r; lia.
      * split; [lia |].
        assert (2 ^ 52 + 1 < 2 ^ (- -1074)); [| lia].
        assert (2 ^ 53 <= 2 ^ (- -1074)) by (apply Z.pow_le_mono_r; lia).
        assert (2 ^ 52 + 1 < 2 ^ 53) by reflexivity. lia.
  - (* q = 0: the quotient lies in [2^52, 2^53), so b = 1 *)
    assert (Hq0 : Z.max (e - 52) (-1074) = 0) by lia.
    rewrite Hq0. cbn [Z.leb Z.compare Z.opp Z.max Z.pow Z.pow_pos Pos.iter].
    assert (He52 : e = 52) by lia.
    rewrite He52 in Hlow. change (Z.max 52 0) with 52 in Hlow.
    change (Z.max (- (52)) 0) with 0 in Hlow. rewrite Z.pow_0_r in Hlow.
    assert (Hb1 : b = 1) by nia. subst b.
    rewrite !Z.mul_1_r, Z.div_1_r.
    unfold round_half_even. rewrite Z.mod_1_r, Z.div_1_r.
    change (2 * 0 <? 1) with true. cbv iota.
    replace (2 ^ 1024 <=? a) with false; [reflexivity |].
    symmetry. apply Z.leb_gt. eapply Z.lt_trans; [apply Ha |].
    apply Z.pow_lt_mono_r; lia.
Qed.

Example int_truediv_250 : int_truediv 10000 40 = Ok 250.
Proof. reflexivity. Qed.

Example int_truediv_truncates : int_truediv (-7) 2 = Ok (-3).
Proof. reflexivity. Qed.

Example int_truediv_by_zero : int_truediv 7 0 = Raise ZeroDivisionError.
Proof. reflexivity. Qed.

Example int_truediv_largest_float :
  int_truediv (2 ^ 1024 - 2 ^ 971) 1 = Ok (2 ^ 1024 - 2 ^ 971)
  /\ int_truediv (2 ^ 1024 - 2 ^ 970) 1 = Raise OverflowError.
Proof. split; vm_compute; reflexivity. Qed.

Lemma int_truediv_exact (a b : Z) :
  0 < a < 2 ^ 53 -> 0 < b -> int_truediv a b = Ok (a / b).
Proof.
  intros Ha Hb. unfold int_truediv.
  replace (b =? 0) with false by lia. replace (a =? 0) with false by lia.
  rewrite !Z.abs_eq by lia. rewrite (int_truediv_pos_exact a b Ha Hb).
  cbn. f_equal. rewrite !Z.sgn_pos by lia. lia.
Qed.

End PyNumFacts.

(** ** The synthetic data generators *)

Module SyntheticFacts.
Import Synthetic Samples.
Section Generators.
Context {F : Type} `{PyFloat F}.
Variable rng : Type.
Variable random_normal : F -> F -> nat * nat -> rng -> image F * rng.
Variable random_poisson : F -> rng -> Z * rng.
Variable camera : image F.
Variable resize : image F -> Z * Z -> image F.
Variable rotate : image F -> F -> image F.
Variable gaussian : image F -> F -> image F.
Variable np_sum : list F -> F.
Variable np_matmul : list (list F) -> list F -> list F.

Abbreviation images_inner := (Synthetic.images_inner rng random_normal gaussian).
Abbreviation images_outer :=
  (Synthetic.images_outer rng random_normal rotate gaussian).
Abbreviation load_images :=
  (Synthetic.load_images rng random_normal camera resize rotate gaussian).
Abbreviation load_projections :=
  (Synthetic.load_projections rng random_normal camera resize rotate gaussian
     np_sum).
Abbreviation load_points := (Synthetic.load_points rng np_matmul).

Lemma images_inner_fold (angle : F) (rot : image F) (l : list Z)
    (imgs : list (image F)) (la ls : list F) (s : rng) :
  exists X s',
    foldl (images_inner angle rot) (imgs, la, ls, s) l
    = ((imgs ++ X)%list, (la ++ replicate (length l) angle)%list,
       (ls ++ (scalar_of <$> l))%list, s')
    /\ length X = length l.
Proof.
  revert imgs la ls s.
  induction l as [|i l IH]; intros imgs la ls s.
  - exists [], s. cbn. rewrite !app_nil_r. auto.
  - cbn [foldl]. unfold Synthetic.images_inner at 2.
    destruct (random_normal _ _ _ s) as [noise s1].
    destruct (IH (imgs ++ [noisy_float32 (gaussian rot (scalar_of i)) noise])%list
                (la ++ [angle])%list (ls ++ [scalar_of i])%list s1)
      as (X & s' & Heq & Hlen).
    exists (noisy_float32 (gaussian rot (scalar_of i)) noise :: X), s'.
    split; [| cbn; lia].
    rewrite Heq. cbn [replicate length fmap list_fmap].
    rewrite <- !app_assoc. reflexivity.
Qed.

Lemma images_outer_fold (n_scalars n_angles : Z) (img : image F) (l : list Z)
    (imgs : list (image F)) (la ls : list F) (s : rng) :
  exists X s',
    foldl (images_outer n_scalars n_angles img) (imgs, la, ls, s) l
    = ((imgs ++ X)%list,
       (la ++ mjoin ((fun i => replicate (Z.to_nat n_scalars)
                                 (angle_of n_angles i)) <$> l))%list,
       (ls ++ mjoin ((fun _ => scalar_of <$> py_range 0 n_scalars) <$> l))%list,
       s')
    /\ length X = (length l * Z.to_nat n_scalars)%nat.
Proof.
  revert imgs la ls s.
  induction l as [|i l IH]; intros imgs la ls s.
  - exists [], s. cbn. rewrite !app_nil_r. auto.
  - cbn [foldl]. unfold Synthetic.images_outer at 2.
    destruct (images_inner_fold (angle_of n_angles i)
                (rotate img (angle_of n_angles i)) (py_range 0 n_scalars)
                imgs la ls s) as (X1 & s1 & Heq1 & Hlen1).
    rewrite Heq1.
    destruct (IH (imgs ++ X1)%list
                (la ++ replicate (length (py_range 0 n_scalars))
                         (angle_of n_angles i))%list
                (ls ++ (scalar_of <$> py_range 0 n_scalars))%list s1)
      as (X & s' & Heq & Hlen).
    exists (X1 ++ X)%list, s'. split.
    + rewrite Heq. csimpl. rewrite <- !app_assoc.
      unfold py_range. rewrite length_seqZ, Z.sub_0_r. reflexivity.
    + rewrite length_app, Hlen, Hlen1. unfold py_range.
      rewrite length_seqZ, Z.sub_0_r. cbn. lia.
Qed.

Lemma length_join_same {A} (n : nat) (ls : list (list A)) :
  Forall (fun l => length l = n) ls -> length (mjoin ls) = (length ls * n)%nat.
Proof.
  intros Hall. rewrite length_join, (sum_list_fmap_same n) by exact Hall.
  reflexivity.
Qed.

Lemma lookup_join_blocks {A B} (f : B -> list A) (n : nat) (l : list B)
    (j i : nat) (b : B) (x : A) :
  (forall b, length (f b) = n) ->
  l !! j = Some b -> f b !! i = Some x ->
  mjoin (f <$> l) !! (j * n + i)%nat = Some x.
Proof.
  intros Hlen Hj Hi.
  apply (join_lookup_Some_same_length' n).
  - apply Forall_fmap, Forall_forall. intros b' _. apply Hlen.
  - rewrite <- (Hlen b). eapply lookup_lt_Some, Hi.
  - exists (f b). split; [| exact Hi].
    rewrite list_lookup_fmap, Hj. reflexivity.
Qed.

Lemma lookup_py_range (n i : Z) :
  0 <= i < n -> py_range 0 n !! Z.to_nat i = Some i.
Proof.
  intros Hi. unfold py_range. rewrite lookup_seqZ_lt by lia. f_equal. lia.
Qed.

Lemma length_py_range (n : Z) : length (py_range 0 n) = Z.to_nat n.
Proof. unfold py_range. rewrite length_seqZ. f_equal. lia. Qed.

(** C5: for n_scalars >= 1 and n_angles >= 1, load_images returns
    n_scalars * n_angles images and a label table with one row per image;
    the row for indices (i_angle, i_scalar), at position
    i_angle * n_scalars + i_scalar, holds the angle 360 * i_angle / n_angles
    and the scalar 1 + 0.2 * i_scalar.  load_projections returns the same
    labels and, for every image, the sums over its last axis. *)
Theorem load_images_labels (n_scalars n_angles img_size : Z) (s : rng) :
  1 <= n_scalars -> 1 <= n_angles ->
  exists images labels s',
    load_images n_scalars n_angles img_size s = (images, labels, s')
    /\ Z.of_nat (length images) = n_scalars * n_angles
    /\ length (angles labels) = length images
    /\ length (scalars labels) = length images
    /\ (forall i_angle i_scalar,
          0 <= i_angle < n_angles -> 0 <= i_scalar < n_scalars ->
          angles labels !! Z.to_nat (i_angle * n_scalars + i_scalar)
          = Some (truediv (360 * i_angle) n_angles)
          /\ scalars labels !! Z.to_nat (i_angle * n_scalars + i_scalar)
             = Some (fadd (of_int 1) (fmul (of_lit (2 # 10)) (of_int i_scalar))))
    /\ load_projections n_scalars n_angles img_size s
       = (map (map np_sum) images, labels, s').
Proof.
  intros Hs Ha.
  unfold Synthetic.load_projections, Synthetic.load_images.
  destruct (images_outer_fold n_scalars n_angles
              (resize camera (img_size, img_size)) (py_range 0 n_angles)
              [] [] [] s) as (X & s' & Heq & Hlen).
  rewrite Heq. cbn [app].
  eexists _, _, _. split; [reflexivity |]. cbn [angles scalars].
  rewrite length_py_range in Hlen.
  assert (Hblock_a : forall b : Z,
            length (replicate (Z.to_nat n_scalars) (angle_of n_angles b))
            = Z.to_nat n_scalars) by (intros; apply length_replicate).
  assert (Hblock_s : forall b : Z,
            length (scalar_of <$> py_range 0 n_scalars) = Z.to_nat n_scalars)
    by (intros; rewrite length_fmap; apply length_py_range).
  split; [rewrite Hlen; nia |].
  split.
  { rewrite (length_join_same (Z.to_nat n_scalars)), length_fmap,
      length_py_range, Hlen; [reflexivity |].
    apply Forall_fmap, Forall_forall. intros b _. apply Hblock_a. }
  split.
  { rewrite (length_join_same (Z.to_nat n_scalars)), length_fmap,
      length_py_range, Hlen; [reflexivity |].
    apply Forall_fmap, Forall_forall. intros b _. apply (Hblock_s b). }
  split; [| reflexivity].
  intros i_angle i_scalar Hia Hisc.
  replace (Z.to_nat (i_angle * n_scalars + i_scalar))
    with (Z.to_nat i_angle * Z.to_nat n_scalars + Z.to_nat i_scalar)%nat by nia.
  split.
  - apply (lookup_join_blocks
             (fun i => replicate (Z.to_nat n_scalars) (angle_of n_angles i))
             _ _ _ _ i_angle).
    + exact Hblock_a.
    + apply lookup_py_range. exact Hia.
    + apply lookup_replicate_2. lia.
  - apply (lookup_join_blocks (fun _ : Z => scalar_of <$> py_range 0 n_scalars)
             _ _ _ _ i_angle).
    + exact Hblock_s.
    + apply lookup_py_range. exact Hia.
    + rewrite list_lookup_fmap, lookup_py_range by exact Hisc. reflexivity.
Qed.

Abbreviation store_poisson := (Synthetic.store_poisson rng random_poisson).
Abbreviation cell_row := (Synthetic.cell_row rng random_poisson).
Abbreviation place_cells_inner := (Synthetic.place_cells_inner rng random_poisson).
Abbreviation place_cells_outer := (Synthetic.place_cells_outer rng random_poisson).
Abbreviation load_place_cells := (Synthetic.load_place_cells rng random_poisson).

Lemma bind_run {S A B} (m : stateful S A) (f : A -> stateful S B) (s s' : S)
    (a : A) :
  m s = Ok (a, s') -> (m ≫= f) s = f a s'.
Proof. intros Hm. unfold mbind, stateful_bind. rewrite Hm. reflexivity. Qed.

Lemma np_zeros_ok (n : Z) : row_ok n 0 (np_zeros n).
Proof.
  split; [apply length_replicate |].
  exists []. split; [reflexivity |]. intros j x Hj Hx.
  apply lookup_replicate in Hj as [-> _]. contradiction.
Qed.

Lemma insert_ok (n : Z) (k i : nat) (v : F) (row : list F) :
  row_ok n k row -> row_ok n (S k) (<[i := v]> row).
Proof.
  intros [Hlen (idxs & Hk & Hidx)]. split; [rewrite length_insert; exact Hlen |].
  exists (i :: idxs). split; [cbn; lia |]. intros j x Hj Hx.
  destruct (decide (i = j)) as [-> | Hne]; [constructor |].
  rewrite list_lookup_insert_ne in Hj by exact Hne.
  constructor. eapply Hidx; eassumption.
Qed.

(** An index between -n and n - 1 is stored without IndexError. *)
Lemma store_poisson_ok (n : Z) (k : nat) (row : list F) (i : Z) (lam : Q)
    (s : rng) :
  row_ok n k row -> - n <= i < n ->
  exists row' s',
    store_poisson row i lam s = Ok (row', s') /\ row_ok n (S k) row'.
Proof.
  intros Hrow Hi. pose proof Hrow as [Hlen _].
  unfold Synthetic.store_poisson, setitem.
  destruct (random_poisson (of_lit lam) s) as [p s'].
  rewrite Hlen.
  assert (HN : Z.of_nat (Z.to_nat n) = n) by lia. rewrite HN.
  set (j := if i <? 0 then i + n else i).
  assert (Hj : 0 <= j < n) by (unfold j; destruct (i <? 0) eqn:E; lia).
  clearbody j.
  replace ((0 <=? j) && (j <? n)) with true by lia.
  eexists _, _. split; [reflexivity |]. apply insert_ok, Hrow.
Qed.

Ltac store_step n Hrow :=
  let row' := fresh "row" in
  let s' := fresh "s" in
  let E := fresh "E" in
  let Hrow' := fresh "Hrow" in
  match goal with
  | |- context [mbind _ (Synthetic.store_poisson _ _ ?row ?i ?lam) ?s] =>
      destruct (store_poisson_ok n _ row i lam s Hrow ltac:(lia))
        as (row' & s' & E & Hrow');
      rewrite (bind_run _ _ _ _ _ E)
  | |- context [Synthetic.store_poisson _ _ ?row ?i ?lam ?s] =>
      destruct (store_poisson_ok n _ row i lam s Hrow ltac:(lia))
        as (row' & s' & E & Hrow');
      rewrite E
  end.

Lemma cell_row_ok (n_cells i_cell : Z) (s : rng) :
  4 <= n_cells -> 0 <= i_cell < n_cells ->
  exists row s', cell_row n_cells i_cell s = Ok (row, s') /\ row_ok n_cells 5 row.
Proof.
  intros Hn Hi. unfold Synthetic.cell_row.
  pose proof (np_zeros_ok n_cells) as Hrow.
  destruct (i_cell =? 0) eqn:E0;
    [| destruct (i_cell =? 1) eqn:E1;
       [| destruct (i_cell =? n_cells - 2) eqn:E2;
          [| destruct (i_cell =? n_cells - 1) eqn:E3]]].
  all: store_step n_cells Hrow.
  all: store_step n_cells Hrow0.
  all: store_step n_cells Hrow1.
  all: store_step n_cells Hrow2.
  all: store_step n_cells Hrow3.
  all: eexists _, _; split; [reflexivity | assumption].
Qed.

Lemma py_range_bounds (n : Z) : Forall (fun i => 0 <= i < n) (py_range 0 n).
Proof.
  apply Forall_lookup. intros j i Hj. unfold py_range in Hj.
  apply lookup_seqZ in Hj. lia.
Qed.

Lemma place_cells_inner_loop (n_cells : Z) (l : list Z)
    (place_cells : list (list F)) (labels : list F) (s : rng) :
  4 <= n_cells -> Forall (fun i => 0 <= i < n_cells) l ->
  exists X Y s',
    for_range (place_cells_inner n_cells) l (place_cells, labels) s
    = Ok ((place_cells ++ X)%list, (labels ++ Y)%list, s')
    /\ length X = length l /\ length Y = length l
    /\ Forall (row_ok n_cells 5) X.
Proof.
  intros Hn Hl. revert place_cells labels s.
  induction Hl as [|i l Hi _ IH]; intros place_cells labels s.
  - exists [], [], s. rewrite !app_nil_r. repeat split. constructor.
  - cbn [for_range]. unfold Synthetic.place_cells_inner at 2.
    destruct (cell_row_ok n_cells i s Hn Hi) as (row & s1 & Erow & Hrow).
    rewrite (bind_run _ _ _ _ _ (bind_run _ _ _ _ _ Erow)).
    destruct (IH (place_cells ++ [row])%list
                (labels ++ [fmul (truediv i n_cells) (of_int 360)])%list s1)
      as (X & Y & s' & Eloop & HX & HY & Hrows).
    exists (row :: X), (fmul (truediv i n_cells) (of_int 360) :: Y), s'.
    rewrite <- !app_assoc in Eloop. cbn [app] in Eloop.
    split; [exact Eloop |]. cbn [length]. repeat split; try lia.
    constructor; assumption.
Qed.

Lemma place_cells_outer_loop (n_cells : Z) (l : list Z)
    (place_cells : list (list F)) (labels : list F) (s : rng) :
  4 <= n_cells ->
  exists X Y s',
    for_range (place_cells_outer n_cells) l (place_cells, labels) s
    = Ok ((place_cells ++ X)%list, (labels ++ Y)%list, s')
    /\ length X = (length l * Z.to_nat n_cells)%nat /\ length Y = length X
    /\ Forall (row_ok n_cells 5) X.
Proof.
  intros Hn. revert place_cells labels s.
  induction l as [|i l IH]; intros place_cells labels s.
  - exists [], [], s. rewrite !app_nil_r. repeat split. constructor.
  - cbn [for_range]. unfold Synthetic.place_cells_outer at 2.
    destruct (place_cells_inner_loop n_cells (py_range 0 n_cells) place_cells
                labels s Hn (py_range_bounds n_cells))
      as (X1 & Y1 & s1 & E1 & HX1 & HY1 & Hrows1).
    rewrite (bind_run _ _ _ _ _ E1).
    destruct (IH (place_cells ++ X1)%list (labels ++ Y1)%list s1)
      as (X & Y & s' & Eloop & HX & HY & Hrows).
    exists (X1 ++ X)%list, (Y1 ++ Y)%list, s'.
    rewrite <- !app_assoc in Eloop. split; [exact Eloop |].
    unfold py_range in HX1, HY1. rewrite length_seqZ, Z.sub_0_r in HX1, HY1.
    rewrite !length_app. cbn [length]. repeat split; try lia.
    apply Forall_app. split; assumption.
Qed.

(** The shape of the result in terms of n_firing_per_cell. *)
Lemma load_place_cells_by_firings (n_times n_cells k : Z) (s : rng) :
  PyNum.int_truediv n_times n_cells = Ok k -> 4 <= n_cells ->
  exists place_cells labels s',
    load_place_cells n_times n_cells s = Ok (place_cells, labels, s')
    /\ Z.of_nat (length place_cells) = Z.max k 0 * n_cells
    /\ length labels = length place_cells
    /\ Forall (row_ok n_cells 5) place_cells.
Proof.
  intros Hk Hn. unfold Synthetic.load_place_cells.
  rewrite (bind_run _ _ s s k) by (unfold lift; rewrite Hk; reflexivity).
  destruct (place_cells_outer_loop n_cells (py_range 0 k) [] [] s Hn)
    as (X & Y & s' & Eloop & HX & HY & Hrows).
  cbn [app] in Eloop. exists X, Y, s'. split; [exact Eloop |].
  unfold py_range in HX. rewrite length_seqZ, Z.sub_0_r in HX.
  repeat split; [| assumption | assumption]. rewrite HX. lia.
Qed.

Lemma load_place_cells_raises (n_times n_cells : Z) (e : exn) (s : rng) :
  PyNum.int_truediv n_times n_cells = Raise e ->
  load_place_cells n_times n_cells s = Raise e.
Proof.
  intros Hk. unfold Synthetic.load_place_cells, mbind, stateful_bind, lift.
  rewrite Hk. reflexivity.
Qed.

(** C9, amended: for 1 <= n_times < 2^53 and n_cells >= 4, load_place_cells
    returns floor(n_times / n_cells) * n_cells rows, fewer than n_times
    when n_cells does not divide n_times; every row has n_cells entries of
    which at most 5 are nonzero, and there is one angle per row. *)
Theorem load_place_cells_shape (n_times n_cells : Z) (s : rng) :
  1 <= n_times < 2 ^ 53 -> 4 <= n_cells ->
  exists place_cells labels s',
    load_place_cells n_times n_cells s = Ok (place_cells, labels, s')
    /\ Z.of_nat (length place_cells) = n_times / n_cells * n_cells
    /\ (n_times mod n_cells <> 0 -> Z.of_nat (length place_cells) < n_times)
    /\ Forall (fun row => Z.of_nat (length row) = n_cells
                          /\ at_most_nonzero 5 row) place_cells
    /\ length labels = length place_cells.
Proof.
  intros Ht Hn.
  assert (Hk : PyNum.int_truediv n_times n_cells = Ok (n_times / n_cells))
    by (apply PyNumFacts.int_truediv_exact; lia).
  destruct (load_place_cells_by_firings n_times n_cells _ s Hk Hn)
    as (place_cells & labels & s' & Hrun & Hrows & Hlabels & Hshape).
  assert (Hq : 0 <= n_times / n_cells) by (apply Z.div_pos; lia).
  exists place_cells, labels, s'. split; [exact Hrun |].
  rewrite Z.max_l in Hrows by exact Hq.
  split; [exact Hrows |]. split; [| split; [| exact Hlabels]].
  - intros Hrem. rewrite Hrows.
    pose proof (Z.div_mod n_times n_cells ltac:(lia)).
    pose proof (Z.mod_pos_bound n_times n_cells ltac:(lia)). lia.
  - eapply Forall_impl; [exact Hshape |].
    intros row [Hlen Hsparse]. split; [rewrite Hlen; lia | exact Hsparse].
Qed.

End Generators.

Lemma load_images_labels_witness :
  1 <= 2 /\ 1 <= 3
  /\ exists images labels s',
       Synthetic.load_images nat counting_normal camera0 keep_image scale_image
         scale_image 2 3 2 0%nat = (images, labels, s')
       /\ Z.of_nat (length images) = 2 * 3
       /\ length (angles labels) = length images
       /\ length (scalars labels) = length images
       /\ (forall i_angle i_scalar,
             0 <= i_angle < 3 -> 0 <= i_scalar < 2 ->
             angles labels !! Z.to_nat (i_angle * 2 + i_scalar)
             = Some (truediv (360 * i_angle) 3)
             /\ scalars labels !! Z.to_nat (i_angle * 2 + i_scalar)
                = Some (fadd (of_int 1)
                          (fmul (of_lit (2 # 10)) (of_int i_scalar))))
       /\ Synthetic.load_projections nat counting_normal camera0 keep_image
            scale_image scale_image sum_row 2 3 2 0%nat
          = (map (map sum_row) images, labels, s').
Proof.
  split; [lia |]. split; [lia |].
  apply (load_images_labels nat counting_normal camera0 keep_image scale_image
           scale_image sum_row 2 3 2 0%nat); lia.
Defined.

(** Two runs of the generators, each with its own generator state. *)
Section Seeds.
Import Seeds.
Context {F : Type} `{PyFloat F}.
Variables rng1 rng2 : Type.
Variable in_step : rng1 -> rng2 -> Prop.
Variable normal1 : F -> F -> nat * nat -> rng1 -> image F * rng1.
Variable normal2 : F -> F -> nat * nat -> rng2 -> image F * rng2.
Variable poisson1 : F -> rng1 -> Z * rng1.
Variable poisson2 : F -> rng2 -> Z * rng2.
Variable camera : image F.
Variable resize : image F -> Z * Z -> image F.
Variable rotate : image F -> F -> image F.
Variable gaussian : image F -> F -> image F.
Variable np_sum : list F -> F.
Variable np_matmul : list (list F) -> list F -> list F.

Hypothesis normal_in_step : same_normal rng1 rng2 in_step normal1 normal2.
Hypothesis poisson_in_step : same_poisson rng1 rng2 in_step poisson1 poisson2.

Abbreviation agree := (Seeds.agree rng1 rng2 in_step).
Abbreviation agree_result := (Seeds.agree_result rng1 rng2 in_step).

Lemma foldl_agree {A B} (f1 : A * rng1 -> B -> A * rng1)
    (f2 : A * rng2 -> B -> A * rng2) (l : list B) :
  (forall a1 a2 b, agree a1 a2 -> agree (f1 a1 b) (f2 a2 b)) ->
  forall a1 a2, agree a1 a2 -> agree (foldl f1 a1 l) (foldl f2 a2 l).
Proof.
  intros Hstep. induction l as [|b l IH]; intros a1 a2 Ha; [exact Ha |].
  cbn [foldl]. apply IH, Hstep, Ha.
Qed.

Lemma images_inner_agree (angle : F) (rot_image : image F)
    (a1 : images_acc rng1) (a2 : images_acc rng2) (i_scalar : Z) :
  agree a1 a2 ->
  agree (images_inner rng1 normal1 gaussian angle rot_image a1 i_scalar)
    (images_inner rng2 normal2 gaussian angle rot_image a2 i_scalar).
Proof.
  destruct a1 as [[[images1 angles1] scalars1] s1].
  destruct a2 as [[[images2 angles2] scalars2] s2].
  intros [Heq Hs]. cbn [fst snd] in Heq, Hs. injection Heq as -> -> ->.
  unfold images_inner.
  destruct (normal_in_step (of_lit 0) (of_lit (5 # 100))
              (shape (gaussian rot_image (scalar_of i_scalar))) s1 s2 Hs)
    as [Hnoise Hnext].
  destruct (normal1 _ _ _ s1) as [noise1 t1].
  destruct (normal2 _ _ _ s2) as [noise2 t2].
  cbn [fst snd] in Hnoise, Hnext. subst noise2.
  split; [reflexivity | exact Hnext].
Qed.

Lemma load_images_agree (n_scalars n_angles img_size : Z) (s1 : rng1)
    (s2 : rng2) :
  in_step s1 s2 ->
  agree
    (Synthetic.load_images rng1 normal1 camera resize rotate gaussian
       n_scalars n_angles img_size s1)
    (Synthetic.load_images rng2 normal2 camera resize rotate gaussian
       n_scalars n_angles img_size s2).
Proof.
  intros Hs. unfold Synthetic.load_images.
  pose proof (foldl_agree
                (images_outer rng1 normal1 rotate gaussian n_scalars n_angles
                   (resize camera (img_size, img_size)))
                (images_outer rng2 normal2 rotate gaussian n_scalars n_angles
                   (resize camera (img_size, img_size)))
                (py_range 0 n_angles)) as Hloop.
  specialize (Hloop ltac:(intros a1 a2 i_angle Ha; unfold images_outer;
                          apply foldl_agree;
                          [intros; apply images_inner_agree; assumption
                          | exact Ha])).
  specialize (Hloop ([], [], [], s1) ([], [], [], s2)
                (conj eq_refl Hs)).
  destruct (foldl _ _ _) as [[[images1 angles1] scalars1] t1].
  destruct (foldl _ _ _) as [[[images2 angles2] scalars2] t2].
  destruct Hloop as [Heq Ht]. cbn [fst snd] in Heq, Ht.
  injection Heq as -> -> ->. split; [reflexivity | exact Ht].
Qed.

Lemma bind_agree {A B} (m1 : stateful rng1 A) (m2 : stateful rng2 A)
    (f1 : A -> stateful rng1 B) (f2 : A -> stateful rng2 B) (s1 : rng1)
    (s2 : rng2) :
  agree_result (m1 s1) (m2 s2) ->
  (forall a t1 t2, in_step t1 t2 -> agree_result (f1 a t1) (f2 a t2)) ->
  agree_result ((m1 ≫= f1) s1) ((m2 ≫= f2) s2).
Proof.
  intros Hm Hf. unfold mbind, stateful_bind.
  destruct (m1 s1) as [[a1 t1] | e1], (m2 s2) as [[a2 t2] | e2];
    try contradiction.
  - destruct Hm as [Ha Ht]. cbn [fst snd] in Ha, Ht. subst a2.
    apply Hf, Ht.
  - exact Hm.
Qed.

Lemma store_poisson_agree (row : list F) (i : Z) (lam : Q) (s1 : rng1)
    (s2 : rng2) :
  in_step s1 s2 ->
  agree_result (Synthetic.store_poisson rng1 poisson1 row i lam s1)
    (Synthetic.store_poisson rng2 poisson2 row i lam s2).
Proof.
  intros Hs. unfold Synthetic.store_poisson.
  destruct (poisson_in_step (of_lit lam) s1 s2 Hs) as [Hk Hnext].
  destruct (poisson1 _ s1) as [k1 t1]. destruct (poisson2 _ s2) as [k2 t2].
  cbn [fst snd] in Hk, Hnext. subst k2.
  destruct (setitem row i (of_int k1)) as [c | e]; cbn.
  - split; [reflexivity | exact Hnext].
  - reflexivity.
Qed.

Lemma cell_row_agree (n_cells i_cell : Z) (s1 : rng1) (s2 : rng2) :
  in_step s1 s2 ->
  agree_result (Synthetic.cell_row rng1 poisson1 n_cells i_cell s1)
    (Synthetic.cell_row rng2 poisson2 n_cells i_cell s2).
Proof.
  intros Hs. unfold Synthetic.cell_row.
  destruct (i_cell =? 0);
    [| destruct (i_cell =? 1);
       [| destruct (i_cell =? n_cells - 2);
          [| destruct (i_cell =? n_cells - 1)]]].
  all: repeat (apply bind_agree;
               [apply store_poisson_agree; assumption
               | clear s1 s2 Hs; intros ? s1 s2 Hs]).
  all: apply store_poisson_agree; assumption.
Qed.

Lemma for_range_agree {A} (body1 : Z -> A -> stateful rng1 A)
    (body2 : Z -> A -> stateful rng2 A) (l : list Z) :
  (forall i a t1 t2,
     in_step t1 t2 -> agree_result (body1 i a t1) (body2 i a t2)) ->
  forall a s1 s2,
    in_step s1 s2 ->
    agree_result (for_range body1 l a s1) (for_range body2 l a s2).
Proof.
  intros Hbody. induction l as [|i l IH]; intros a s1 s2 Hs.
  - cbn. split; [reflexivity | exact Hs].
  - cbn [for_range]. apply bind_agree; [apply Hbody, Hs |].
    intros a' t1 t2 Ht. apply IH, Ht.
Qed.

Lemma load_place_cells_agree (n_times n_cells : Z) (s1 : rng1) (s2 : rng2) :
  in_step s1 s2 ->
  agree_result
    (Synthetic.load_place_cells rng1 poisson1 n_times n_cells s1)
    (Synthetic.load_place_cells rng2 poisson2 n_times n_cells s2).
Proof.
  intros Hs. unfold Synthetic.load_place_cells. apply bind_agree.
  - unfold lift. destruct (PyNum.int_truediv n_times n_cells) as [k | e].
    + split; [reflexivity | exact Hs].
    + reflexivity.
  - intros k t1 t2 Ht. apply for_range_agree; [| exact Ht].
    intros round acc u1 u2 Hu. unfold Synthetic.place_cells_outer.
    apply for_range_agree; [| exact Hu].
    intros i_cell [place_cells labels] v1 v2 Hv.
    unfold Synthetic.place_cells_inner. apply bind_agree.
    + apply cell_row_agree, Hv.
    + intros row w1 w2 Hw. split; [reflexivity | exact Hw].
Qed.


End Seeds.

Lemma seeded_normal :
  Seeds.same_normal nat nat eq counting_normal counting_normal.
Proof. intros loc scale size s1 s2 <-. split; reflexivity. Qed.

Lemma seeded_poisson :
  Seeds.same_poisson nat nat eq counting_poisson counting_poisson.
Proof. intros lam s1 s2 <-. split; reflexivity. Qed.

Lemma ahead_normal :
  Seeds.same_normal nat nat Seeds.ahead counting_normal counting_normal.
Proof.
  intros loc scale size s1 s2 Hs. split; [reflexivity |].
  unfold Seeds.ahead in *. cbn. lia.
Qed.

Lemma ahead_poisson :
  Seeds.same_poisson nat nat Seeds.ahead counting_poisson
    Seeds.shifted_poisson.
Proof.
  intros lam s1 s2 Hs. unfold Seeds.ahead in *. subst s2. split.
  - cbn. f_equal. lia.
  - cbn. lia.
Qed.


Lemma load_place_cells_shape_witness :
  1 <= 10 < 2 ^ 53 /\ 4 <= 4
  /\ exists place_cells labels s',
       Synthetic.load_place_cells nat counting_poisson 10 4 0%nat
       = Ok (place_cells, labels, s')
       /\ Z.of_nat (length place_cells) = 10 / 4 * 4
       /\ (10 mod 4 <> 0 -> Z.of_nat (length place_cells) < 10)
       /\ Forall (fun row => Z.of_nat (length row) = 4
                             /\ at_most_nonzero 5 row) place_cells
       /\ length labels = length place_cells.
Proof.
  assert (Ht : 1 <= 10 < 2 ^ 53) by (split; [lia | reflexivity]).
  split; [exact Ht |]. split; [lia |].
  apply (load_place_cells_shape nat counting_poisson 10 4 0%nat Ht). lia.
Defined.

(** At n_times = 2^53 + 3 and n_cells = 4 the quotient 2^51 + 0.75 is a tie
    between two binary64 numbers and rounds to 2^51 + 1, so int(...) is one
    more than the integer quotient 2^51. *)
Lemma int_truediv_above_floor :
  PyNum.int_truediv (2 ^ 53 + 3) 4 = Ok (2 ^ 51 + 1)
  /\ (2 ^ 53 + 3) / 4 = 2 ^ 51.
Proof. split; vm_compute; reflexivity. Qed.

(** C9 as stated fails at n_times = 2^53 + 3, n_cells = 4: the matrix has
    2^53 + 4 rows, not floor(n_times / n_cells) * n_cells = 2^53. *)
Lemma load_place_cells_rows_counterexample :
  ~ (exists place_cells labels s',
       Synthetic.load_place_cells nat counting_poisson (2 ^ 53 + 3) 4 0%nat
       = Ok (place_cells, labels, s')
       /\ Z.of_nat (length place_cells) = (2 ^ 53 + 3) / 4 * 4).
Proof.
  intros (place_cells & labels & s' & Hrun & Hrows).
  destruct int_truediv_above_floor as [Hk Hfloor].
  destruct (load_place_cells_by_firings nat counting_poisson _ _ _ 0%nat Hk
              ltac:(lia))
    as (place_cells' & labels' & s'' & Hrun' & Hrows' & _).
  rewrite Hrun' in Hrun. injection Hrun as -> _ _.
  rewrite Hrows', Hfloor in Hrows.
  apply (f_equal (fun z => z - 2 ^ 51 * 4)) in Hrows.
  vm_compute in Hrows. discriminate Hrows.
Qed.

(** When the quotient exceeds the largest float, the first line of
    load_place_cells raises OverflowError. *)
Lemma load_place_cells_overflow :
  Synthetic.load_place_cells nat counting_poisson (2 ^ 1100) 4 0%nat
  = Raise OverflowError.
Proof.
  apply load_place_cells_raises. vm_compute. reflexivity.
Qed.

End SyntheticFacts.

(** ** compute_ratemaps and compute_ratemaps_single_agent *)

Module VisualizeFacts.
Import Visualize Samples.
Section Ratemaps.
Context {F : Type} `{PyFloat F}.
Abbreviation plane := (list (list F)).

Variable test_batch : Z -> list (sample F).
Variable test_batch_single_agent : Z -> list (sample F).
Abbreviation compute_ratemaps := (Visualize.compute_ratemaps test_batch).
Abbreviation compute_ratemaps_single_agent :=
  (Visualize.compute_ratemaps_single_agent test_batch_single_agent).

(** Two facts about binary64 comparisons and int(): 0.0 > 0 is false, and
    a number with 0 <= x < res truncates to an index of the grid. *)
Hypothesis flt_zero_zero : flt (of_int 0) (of_int 0) = false.
Hypothesis to_int_in_grid :
  forall (x : F) (res : Z),
    fle (of_int 0) x = true -> flt x (of_int res) = true ->
    0 <= to_int x < res.

Lemma get2_update2 (f : F -> F) (ix iy i j : nat) (a : plane) :
  get2 (update2 f ix iy a) i j
  = if decide (ix = i /\ iy = j) then f <$> get2 a i j else get2 a i j.
Proof.
  unfold get2, update2.
  destruct (decide (ix = i)) as [-> | Hi].
  - rewrite list_lookup_alter_eq. destruct (a !! i) as [row|]; cbn.
    + destruct (decide (iy = j)) as [-> | Hj].
      * rewrite list_lookup_alter_eq. rewrite decide_True by auto. reflexivity.
      * rewrite list_lookup_alter_ne by exact Hj.
        rewrite decide_False by tauto. reflexivity.
    + destruct (decide _); reflexivity.
  - rewrite list_lookup_alter_ne by exact Hi.
    rewrite decide_False by tauto. reflexivity.
Qed.

Lemma update2_shape (f : F -> F) (ix iy : nat) (res : Z) (a : plane) :
  plane_shape res a -> plane_shape res (update2 f ix iy a).
Proof.
  intros [Hlen Hrows]. unfold update2. split.
  - rewrite length_alter. exact Hlen.
  - apply Forall_alter; [exact Hrows |]. intros row _ Hrow.
    rewrite length_alter. exact Hrow.
Qed.

Lemma py_index_ok (n i : Z) : 0 <= i < n -> py_index n i = Ok (Z.to_nat i).
Proof.
  intros Hi. unfold py_index.
  replace ((0 <=? i) && (i <? n)) with true by lia. reflexivity.
Qed.

Lemma np_zeros2_shape (res : Z) : plane_shape res (np_zeros2 res res).
Proof.
  unfold np_zeros2. split; [apply length_replicate |].
  apply Forall_replicate. apply length_replicate.
Qed.

Lemma get2_zeros (res : Z) (i j : nat) :
  (i < Z.to_nat res)%nat -> (j < Z.to_nat res)%nat ->
  get2 (np_zeros2 res res) i j = Some (of_int 0).
Proof.
  intros Hi Hj. unfold get2, np_zeros2.
  rewrite lookup_replicate_2 by exact Hi. cbn.
  apply lookup_replicate_2. exact Hj.
Qed.

Lemma add_row_length (g_row : list F) (ix iy : nat) (acts : list plane) :
  length g_row = length acts -> length (add_row g_row ix iy acts) = length acts.
Proof. intros Hlen. unfold add_row. rewrite length_zip_with. lia. Qed.

Lemma add_row_shape (res : Z) (g_row : list F) (ix iy : nat)
    (acts : list plane) :
  Forall (plane_shape res) acts ->
  Forall (plane_shape res) (add_row g_row ix iy acts).
Proof.
  intros Hacts. apply Forall_lookup. intros n a Hn. unfold add_row in Hn.
  apply lookup_zip_with_Some in Hn as (gn & a0 & -> & _ & Ha0).
  apply update2_shape. eapply Forall_lookup_1; eassumption.
Qed.

Lemma get3_add_row_ne (g_row : list F) (ix iy bx by_ n : nat)
    (acts : list plane) :
  length g_row = length acts -> ~ (ix = bx /\ iy = by_) ->
  get3 (add_row g_row ix iy acts) n bx by_ = get3 acts n bx by_.
Proof.
  intros Hlen Hne. unfold get3, add_row. rewrite lookup_zip_with.
  destruct (acts !! n) as [a|] eqn:Ha.
  - destruct (g_row !! n) as [gn|] eqn:Hg.
    + cbn. rewrite get2_update2, decide_False by exact Hne. reflexivity.
    + apply lookup_ge_None in Hg. apply lookup_lt_Some in Ha. lia.
  - destruct (g_row !! n); reflexivity.
Qed.

Lemma in_grid_true (x y : F) (res : Z) :
  in_grid x y res = true ->
  0 <= to_int x < res /\ 0 <= to_int y < res.
Proof.
  unfold in_grid. intros Hg.
  apply andb_prop in Hg as [Hg Hy2]. apply andb_prop in Hg as [Hg Hy1].
  apply andb_prop in Hg as [Hx1 Hx2]. split; apply to_int_in_grid; assumption.
Qed.

(** One sample: the call returns, shapes are kept, and a bin other than
    the one the sample falls in keeps its zeros. *)
Lemma bin_sample_inv (opts : options F) (res Ng : Z) (flag : bool)
    (index : Z) (b : bins F) (px py : F) (g_row : list F) :
  bins_shape res Ng b -> Z.of_nat (length g_row) = Ng ->
  exists b',
    bin_sample opts res flag index b (px, py, g_row) = Ok b'
    /\ bins_shape res Ng b'
    /\ forall bx by_,
         0 <= bx -> 0 <= by_ ->
         ~ (in_grid (bin_coordinate px (box_width opts) res)
              (bin_coordinate py (box_height opts) res) res = true
            /\ to_int (bin_coordinate px (box_width opts) res) = bx
            /\ to_int (bin_coordinate py (box_height opts) res) = by_) ->
         bin_zero Ng (Z.to_nat bx) (Z.to_nat by_) (counts b) (activations b) ->
         bin_zero Ng (Z.to_nat bx) (Z.to_nat by_) (counts b') (activations b').
Proof.
  intros (Hcnt & Hlen & Hacts) Hg. unfold bin_sample.
  set (x := bin_coordinate px (box_width opts) res).
  set (y := bin_coordinate py (box_height opts) res).
  destruct (in_grid x y res) eqn:Hgrid.
  - destruct (in_grid_true x y res Hgrid) as [Hx Hy].
    assert (Hgl : length g_row = length (activations b)) by lia.
    rewrite (py_index_ok res (to_int x) Hx), (py_index_ok res (to_int y) Hy).
    cbn [mbind result_bind]. eexists. split; [reflexivity |].
    unfold bins_shape. cbn [counts activations]. split.
    + split; [apply update2_shape, Hcnt |].
      split; [rewrite add_row_length by exact Hgl; exact Hlen
             | apply add_row_shape, Hacts].
    + intros bx by_ Hbx Hby Hnot [Hc Ha].
      assert (Hne : ~ (Z.to_nat (to_int x) = Z.to_nat bx
                       /\ Z.to_nat (to_int y) = Z.to_nat by_)).
      { intros [E1 E2]. apply Hnot. repeat split; lia. }
      split.
      * rewrite get2_update2, decide_False by exact Hne. exact Hc.
      * intros n Hn. rewrite (get3_add_row_ne _ _ _ _ _ _ _ Hgl Hne).
        apply Ha, Hn.
  - exists b. split; [reflexivity |].
    split; [exact (conj Hcnt (conj Hlen Hacts)) |].
    intros bx by_ _ _ _ Hz. exact Hz.
Qed.

Lemma fits_true (opts : options F) (Ng : Z) (batch : list (sample F)) :
  fits opts Ng batch = true ->
  Forall (fun smp : sample F => Z.of_nat (length smp.2) = Ng) batch.
Proof.
  unfold fits. intros Hf. apply andb_prop in Hf as [_ Hall].
  apply Forall_forall. intros smp Hin.
  rewrite forallb_forall in Hall. apply Z.eqb_eq, Hall.
  apply list_elem_of_In, Hin.
Qed.

(** A whole batch: the loop returns, and every bin that the batch misses
    keeps its zeros. *)
Lemma bin_samples_inv (opts : options F) (res Ng : Z) (flag : bool)
    (index : Z) (batch : list (sample F)) (b : bins F) :
  Forall (fun smp : sample F => Z.of_nat (length smp.2) = Ng) batch ->
  bins_shape res Ng b ->
  exists b',
    bin_samples opts res flag index b batch = Ok b'
    /\ bins_shape res Ng b'
    /\ forall bx by_,
         0 <= bx -> 0 <= by_ -> misses opts res batch bx by_ ->
         bin_zero Ng (Z.to_nat bx) (Z.to_nat by_) (counts b) (activations b) ->
         bin_zero Ng (Z.to_nat bx) (Z.to_nat by_) (counts b') (activations b').
Proof.
  intros Hfit. revert b.
  induction Hfit as [|[[px py] g_row] batch Hg _ IH]; intros b Hshape.
  - exists b. split; [reflexivity |]. split; [exact Hshape | auto].
  - cbn [bin_samples].
    destruct (bin_sample_inv opts res Ng flag index b px py g_row Hshape Hg)
      as (b1 & E1 & Hshape1 & Hkeep1).
    rewrite E1. cbn [mbind result_bind].
    destruct (IH b1 Hshape1) as (b' & E' & Hshape' & Hkeep').
    exists b'. split; [exact E' |]. split; [exact Hshape' |].
    intros bx by_ Hbx Hby Hmiss Hzero.
    apply Hkeep'; [exact Hbx | exact Hby | |].
    + intros px' py' g' Hin. apply (Hmiss px' py' g'). constructor. exact Hin.
    + apply Hkeep1; [exact Hbx | exact Hby | | exact Hzero].
      apply (Hmiss px py g_row). constructor.
Qed.

(** The loop over the batches. *)
Lemma bin_batches_inv (batch_at : Z -> list (sample F)) (opts : options F)
    (res Ng : Z) (flag : bool) (l : list Z) (b : bins F) :
  Forall (fun index => fits opts Ng (batch_at index) = true) l ->
  bins_shape res Ng b ->
  exists b',
    for_each (bin_batches batch_at opts res Ng flag) l b = Ok b'
    /\ bins_shape res Ng b'
    /\ forall bx by_,
         0 <= bx -> 0 <= by_ ->
         Forall (fun index => misses opts res (batch_at index) bx by_) l ->
         bin_zero Ng (Z.to_nat bx) (Z.to_nat by_) (counts b) (activations b) ->
         bin_zero Ng (Z.to_nat bx) (Z.to_nat by_) (counts b') (activations b').
Proof.
  intros Hfit. revert b.
  induction Hfit as [|index l Hf _ IH]; intros b Hshape.
  - exists b. split; [reflexivity |]. split; [exact Hshape | auto].
  - cbn [for_each]. unfold bin_batches at 2. rewrite Hf.
    destruct (bin_samples_inv opts res Ng flag index (batch_at index) b
                (fits_true _ _ _ Hf) Hshape)
      as (b1 & E1 & Hshape1 & Hkeep1).
    rewrite E1. cbn [mbind result_bind].
    destruct (IH b1 Hshape1) as (b' & E' & Hshape' & Hkeep').
    exists b'. split; [exact E' |]. split; [exact Hshape' |].
    intros bx by_ Hbx Hby Hmiss Hzero.
    apply Forall_cons in Hmiss as [Hm Hmiss].
    apply Hkeep'; [exact Hbx | exact Hby | exact Hmiss |].
    apply Hkeep1; assumption.
Qed.

Lemma for_each_inv {S : Type} (P : S -> Prop) (body : Z -> S -> result S)
    (l : list Z) (s : S) :
  (forall i s, i ∈ l -> P s -> exists s', body i s = Ok s' /\ P s') ->
  P s -> exists s', for_each body l s = Ok s' /\ P s'.
Proof.
  revert s. induction l as [|i l IH]; intros s Hbody Hs.
  - exists s. split; [reflexivity | exact Hs].
  - cbn [for_each].
    destruct (Hbody i s ltac:(constructor) Hs) as (s1 & E1 & Hs1).
    rewrite E1. cbn [mbind result_bind]. apply IH; [| exact Hs1].
    intros j s2 Hj. apply Hbody. constructor. exact Hj.
Qed.

Lemma elem_of_py_range (n i : Z) : i ∈ py_range 0 n -> 0 <= i < n.
Proof.
  intros Hin. apply list_elem_of_lookup in Hin as [k Hk].
  unfold py_range in Hk. apply lookup_seqZ in Hk. lia.
Qed.

(** One step of the normalization on a count array of shape [res, res]. *)
Lemma normalize_bin_guarded (cnt : plane) (res x y : Z) :
  plane_shape res cnt -> 0 <= x < res -> 0 <= y < res ->
  guarded_division cnt x y.
Proof.
  intros [Hlen Hrows] Hx Hy.
  destruct (lookup_lt_is_Some_2 cnt (Z.to_nat x) ltac:(lia)) as [row Hrow].
  assert (Hrlen : length row = Z.to_nat res).
  { eapply (Forall_lookup_1 _ _ _ _ Hrows). exact Hrow. }
  destruct (lookup_lt_is_Some_2 row (Z.to_nat y) ltac:(lia)) as [c Hc].
  exists c. split; [| split].
  - unfold get2. rewrite Hrow. exact Hc.
  - intros acts. unfold normalize_bin.
    rewrite Hlen, (py_index_ok _ x) by lia. cbn [mbind result_bind].
    rewrite Hrow. cbn [mbind result_bind].
    rewrite Hrlen, (py_index_ok _ y) by lia. cbn [mbind result_bind].
    rewrite Hc. cbn [mbind result_bind].
    destruct (flt (of_int 0) c); reflexivity.
  - intros Hpos ->. rewrite flt_zero_zero in Hpos. discriminate.
Qed.

Lemma get3_map_update2 (f : F -> F) (ix iy n i j : nat) (acts : list plane) :
  get3 (map (update2 f ix iy) acts) n i j
  = if decide (ix = i /\ iy = j) then f <$> get3 acts n i j
    else get3 acts n i j.
Proof.
  unfold get3. change (map (update2 f ix iy) acts) with (update2 f ix iy <$> acts).
  rewrite list_lookup_fmap. destruct (acts !! n) as [a|]; cbn.
  - apply get2_update2.
  - destruct (decide _); reflexivity.
Qed.

Lemma normalize_bin_inv (cnt : plane) (res Ng x y : Z) (bx by_ : nat)
    (acts : list plane) :
  plane_shape res cnt -> 0 <= x < res -> 0 <= y < res ->
  get2 cnt bx by_ = Some (of_int 0) ->
  acts_shape res Ng acts
  /\ (forall n, (n < Z.to_nat Ng)%nat -> get3 acts n bx by_ = Some (of_int 0)) ->
  exists acts',
    normalize_bin cnt x y acts = Ok acts'
    /\ acts_shape res Ng acts'
    /\ (forall n, (n < Z.to_nat Ng)%nat ->
         get3 acts' n bx by_ = Some (of_int 0)).
Proof.
  intros Hcnt Hx Hy Hzero [[Hlen Hshape] Hacts].
  destruct (normalize_bin_guarded cnt res x y Hcnt Hx Hy) as (c & Hc & Hstep & _).
  rewrite Hstep. eexists. split; [reflexivity |].
  destruct (flt (of_int 0) c) eqn:Hpos; [| repeat split; assumption].
  split; [split |].
  - rewrite length_map. exact Hlen.
  - apply Forall_map. eapply Forall_impl; [exact Hshape |].
    intros a Ha. apply update2_shape. exact Ha.
  - intros n Hn. rewrite get3_map_update2.
    destruct (decide (Z.to_nat x = bx /\ Z.to_nat y = by_)) as [[<- <-] | _];
      [| apply Hacts, Hn].
    rewrite Hzero in Hc. injection Hc as <-.
    rewrite flt_zero_zero in Hpos. discriminate.
Qed.

Lemma normalize_inv (cnt : plane) (res Ng : Z) (bx by_ : nat)
    (acts : list plane) :
  plane_shape res cnt ->
  get2 cnt bx by_ = Some (of_int 0) ->
  acts_shape res Ng acts
  /\ (forall n, (n < Z.to_nat Ng)%nat -> get3 acts n bx by_ = Some (of_int 0)) ->
  exists acts',
    normalize cnt res acts = Ok acts'
    /\ acts_shape res Ng acts'
    /\ (forall n, (n < Z.to_nat Ng)%nat ->
         get3 acts' n bx by_ = Some (of_int 0)).
Proof.
  intros Hcnt Hzero Hacts. unfold normalize.
  apply (for_each_inv
           (fun acts => acts_shape res Ng acts
              /\ (forall n, (n < Z.to_nat Ng)%nat ->
                   get3 acts n bx by_ = Some (of_int 0))));
    [| exact Hacts].
  intros x acts1 Hx%elem_of_py_range Hacts1.
  apply (for_each_inv
           (fun acts => acts_shape res Ng acts
              /\ (forall n, (n < Z.to_nat Ng)%nat ->
                   get3 acts n bx by_ = Some (of_int 0))));
    [| exact Hacts1].
  intros y acts2 Hy%elem_of_py_range Hacts2.
  apply (normalize_bin_inv cnt res Ng x y bx by_ acts2); assumption.
Qed.

Lemma normalize_total (cnt : plane) (res Ng : Z) (acts : list plane) :
  plane_shape res cnt -> acts_shape res Ng acts ->
  exists acts', normalize cnt res acts = Ok acts' /\ acts_shape res Ng acts'.
Proof.
  intros Hcnt Hacts. unfold normalize.
  apply (for_each_inv (acts_shape res Ng)); [| exact Hacts].
  intros x acts1 Hx%elem_of_py_range Hacts1.
  apply (for_each_inv (acts_shape res Ng)); [| exact Hacts1].
  intros y acts2 Hy%elem_of_py_range [Hlen Hshape].
  destruct (normalize_bin_guarded cnt res x y Hcnt Hx Hy) as (c & _ & Hstep & _).
  rewrite Hstep. eexists. split; [reflexivity |].
  destruct (flt (of_int 0) c); [| split; assumption].
  split; [rewrite length_map; exact Hlen |].
  apply Forall_map. eapply Forall_impl; [exact Hshape |].
  intros a Ha. apply update2_shape. exact Ha.
Qed.

Lemma check_dims_ok (a b c d : Z) :
  0 <= a -> 0 <= b -> 0 <= c -> 0 <= d -> check_dims [a; b; c; d] = Ok tt.
Proof.
  intros Ha Hb Hc Hd. unfold check_dims. cbn [forallb].
  replace (0 <=? a) with true by lia. replace (0 <=? b) with true by lia.
  replace (0 <=? c) with true by lia. replace (0 <=? d) with true by lia.
  reflexivity.
Qed.

Lemma zeros_shape (res Ng : Z) (rest : list (list plane)) :
  bins_shape res Ng
    {| counts := np_zeros2 res res; activations := np_zeros3 Ng res res;
       all_activations := rest |}.
Proof.
  split; [apply np_zeros2_shape |]. cbn [activations]. unfold np_zeros3. split.
  - apply length_replicate.
  - apply Forall_replicate, np_zeros2_shape.
Qed.

Lemma zeros_bin_zero (res Ng : Z) (bx by_ : nat) :
  (bx < Z.to_nat res)%nat -> (by_ < Z.to_nat res)%nat ->
  bin_zero Ng bx by_ (np_zeros2 res res) (np_zeros3 Ng res res).
Proof.
  intros Hbx Hby. split; [apply get2_zeros; assumption |].
  intros n Hn. unfold get3, np_zeros3.
  rewrite lookup_replicate_2 by exact Hn. cbn. apply get2_zeros; assumption.
Qed.

Lemma unvisited_misses (batch_at : Z -> list (sample F)) (opts : options F)
    (res n_avg bx by_ : Z) :
  ~ visited batch_at opts res n_avg bx by_ ->
  Forall (fun index => misses opts res (batch_at index) bx by_)
    (py_range 0 n_avg).
Proof.
  intros Hnot. apply Forall_forall. intros index Hin%elem_of_py_range.
  intros px py g_row Hsmp (Hgrid & Hx & Hy). apply Hnot.
  exists index, px, py, g_row. repeat split; assumption || lia.
Qed.

(** An entry of the reshaped activations. *)
Lemma reshape_rows_lookup (res : Z) (acts : list plane) (n bx by_ : nat) (v : F) :
  Forall (plane_shape res) acts -> (by_ < Z.to_nat res)%nat ->
  get3 acts n bx by_ = Some v ->
  get2 (reshape_rows acts) n (bx * Z.to_nat res + by_) = Some v.
Proof.
  intros Hshape Hby Hget. unfold get3 in Hget. unfold get2, reshape_rows.
  change (map (fun a => mjoin a) acts) with ((fun a : plane => mjoin a) <$> acts).
  rewrite list_lookup_fmap.
  destruct (acts !! n) as [a|] eqn:Ha; [| discriminate]. cbn in Hget |- *.
  destruct (Forall_lookup_1 _ _ _ _ Hshape Ha) as [_ Hrows].
  apply (join_lookup_Some_same_length' (Z.to_nat res)); [exact Hrows | exact Hby |].
  unfold get2 in Hget. destruct (a !! bx) as [row|]; [| discriminate].
  exists row. split; [reflexivity | exact Hget].
Qed.

(** The two loops of either function on well-shaped batches. *)
Lemma ratemaps_core (batch_at : Z -> list (sample F)) (opts : options F)
    (res n_avg Ng : Z) (flag with_all : bool) :
  0 <= n_avg -> 0 <= batch_size opts * sequence_length opts ->
  0 <= Ng -> 0 <= res ->
  (forall index, 0 <= index < n_avg -> fits opts Ng (batch_at index) = true) ->
  exists b acts,
    accumulate batch_at opts res n_avg Ng flag with_all = Ok b
    /\ normalize (counts b) res (activations b) = Ok acts
    /\ plane_shape res (counts b)
    /\ forall r, rate_map r = reshape_rows acts ->
         unvisited_zero batch_at opts res n_avg Ng r.
Proof.
  intros Havg Hbs HNg Hres Hfits. unfold accumulate.
  rewrite check_dims_ok by assumption. cbn [mbind result_bind].
  assert (Hall : Forall (fun index => fits opts Ng (batch_at index) = true)
                   (py_range 0 n_avg)).
  { apply Forall_forall. intros index Hin%elem_of_py_range. auto. }
  destruct (bin_batches_inv batch_at opts res Ng flag (py_range 0 n_avg) _ Hall
              (zeros_shape res Ng
                 (if with_all then np_zeros4 Ng res res n_avg else [])))
    as (b & Eb & (Hcnt & Hlen & Hshape) & Hkeep).
  destruct (normalize_total (counts b) res Ng (activations b) Hcnt
              (conj Hlen Hshape)) as (acts & Eacts & Hacts).
  exists b, acts. split; [exact Eb |]. split; [exact Eacts |].
  split; [exact Hcnt |].
  intros r Hr bx by_ Hbx Hby Hnot n Hn. rewrite Hr.
  assert (Hzero : bin_zero Ng (Z.to_nat bx) (Z.to_nat by_) (counts b)
                    (activations b)).
  { apply Hkeep; [lia | lia | apply unvisited_misses, Hnot |].
    cbn [counts activations]. apply zeros_bin_zero; lia. }
  destruct Hzero as [Hc Ha].
  destruct (normalize_inv (counts b) res Ng (Z.to_nat bx) (Z.to_nat by_)
              (activations b) Hcnt Hc (conj (conj Hlen Hshape) Ha))
    as (acts' & Eacts' & [_ Hshape'] & Hzero').
  rewrite Eacts in Eacts'. injection Eacts' as <-.
  replace (Z.to_nat (bx * res + by_))
    with (Z.to_nat bx * Z.to_nat res + Z.to_nat by_)%nat by nia.
  apply (reshape_rows_lookup res); [exact Hshape' | lia | apply Hzero', Hn].
Qed.

(** C10: on batches of the expected shape both functions return; every
    step of the normalization divides activations[:, x, y] by counts[x, y]
    only under the guard counts[x, y] > 0, where the divisor is not zero;
    and a bin that no trajectory sample falls in is exactly 0 for every
    cell in the returned rate map. *)
Theorem ratemaps_guarded_and_unvisited_zero (opts : options F)
    (res : Z) (n_avg0 : option Z) (n_avg Ng : Z) (all_activations_flag : bool) :
  default_n_avg opts n_avg0 = Ok n_avg ->
  0 <= n_avg -> 0 <= batch_size opts * sequence_length opts ->
  0 <= Ng -> 0 <= res ->
  (forall index, 0 <= index < n_avg ->
     fits opts Ng (test_batch index) = true) ->
  (forall index, 0 <= index < n_avg ->
     fits opts Ng (test_batch_single_agent index) = true) ->
  (exists b r,
     accumulate test_batch opts res n_avg Ng all_activations_flag true = Ok b
     /\ compute_ratemaps opts res n_avg0 Ng all_activations_flag = Ok r
     /\ (forall x y, 0 <= x < res -> 0 <= y < res ->
          guarded_division (counts b) x y)
     /\ unvisited_zero test_batch opts res n_avg Ng r)
  /\ (exists b r,
        accumulate test_batch_single_agent opts res n_avg Ng false false = Ok b
        /\ compute_ratemaps_single_agent opts res n_avg0 Ng = Ok r
        /\ (forall x y, 0 <= x < res -> 0 <= y < res ->
             guarded_division (counts b) x y)
        /\ unvisited_zero test_batch_single_agent opts res n_avg Ng r).
Proof.
  intros Hdefault Havg Hbs HNg Hres Hfits Hfits1. split.
  - destruct (ratemaps_core test_batch opts res n_avg Ng all_activations_flag
                true Havg Hbs HNg Hres Hfits)
      as (b & acts & Eb & Eacts & Hcnt & Hzero).
    exists b. eexists. split; [exact Eb |]. split.
    + unfold Visualize.compute_ratemaps. rewrite Hdefault.
      cbn [mbind result_bind]. rewrite Eb. cbn [mbind result_bind].
      rewrite Eacts. reflexivity.
    + split; [| apply Hzero; reflexivity].
      intros x y Hx Hy. exact (normalize_bin_guarded _ res x y Hcnt Hx Hy).
  - destruct (ratemaps_core test_batch_single_agent opts res n_avg Ng false
                false Havg Hbs HNg Hres Hfits1)
      as (b & acts & Eb & Eacts & Hcnt & Hzero).
    exists b. eexists. split; [exact Eb |]. split.
    + unfold Visualize.compute_ratemaps_single_agent. rewrite Hdefault.
      cbn [mbind result_bind]. rewrite Eb. cbn [mbind result_bind].
      rewrite Eacts. reflexivity.
    + split; [| apply Hzero; reflexivity].
      intros x y Hx Hy. exact (normalize_bin_guarded _ res x y Hcnt Hx Hy).
Qed.

End Ratemaps.

(** The two facts about comparisons and int() hold for exact rationals. *)
Lemma Q_flt_zero_zero : flt (of_int 0) (of_int 0) = false :> bool.
Proof. reflexivity. Qed.

Lemma Q_to_int_in_grid (x : Q) (res : Z) :
  fle (of_int 0) x = true -> flt x (of_int res) = true -> 0 <= to_int x < res.
Proof.
  intros Hle Hlt.
  change (Qle_bool 0 x = true) in Hle.
  change (negb (Qle_bool (inject_Z res) x) = true) in Hlt.
  change (to_int x) with (if Qle_bool 0 x then Qfloor x else - Qfloor (- x)).
  rewrite Hle. apply Qle_bool_iff in Hle.
  apply negb_true_iff in Hlt. split.
  - change 0 with (Qfloor 0). apply Qfloor_resp_le. exact Hle.
  - destruct (Z_lt_ge_dec (Qfloor x) res) as [Hok | Hge]; [exact Hok |].
    exfalso. assert (Hc : Qle_bool (inject_Z res) x = true); [| congruence].
    apply Qle_bool_iff. apply Qle_trans with (inject_Z (Qfloor x)).
    + rewrite <- Zle_Qle. lia.
    + apply Qfloor_le.
Qed.

Lemma ratemaps_guarded_and_unvisited_zero_witness :
  default_n_avg options0 (Some 1) = Ok 1
  /\ 0 <= batch_size options0 * sequence_length options0
  /\ (forall index, 0 <= index < 1 -> fits options0 1 (batch0 index) = true)
  /\ (exists b r,
        accumulate batch0 options0 2 1 1 true true = Ok b
        /\ Visualize.compute_ratemaps batch0 options0 2 (Some 1) 1 true = Ok r
        /\ (forall x y, 0 <= x < 2 -> 0 <= y < 2 ->
             guarded_division (counts b) x y)
        /\ unvisited_zero batch0 options0 2 1 1 r)
  /\ (exists b r,
        accumulate batch0 options0 2 1 1 false false = Ok b
        /\ Visualize.compute_ratemaps_single_agent batch0 options0 2 (Some 1) 1
           = Ok r
        /\ (forall x y, 0 <= x < 2 -> 0 <= y < 2 ->
             guarded_division (counts b) x y)
        /\ unvisited_zero batch0 options0 2 1 1 r).
Proof.
  assert (Hsize : 0 <= batch_size options0 * sequence_length options0)
    by (cbn; lia).
  assert (Hfits : forall index, 0 <= index < 1 ->
                    fits options0 1 (batch0 index) = true)
    by (intros index _; reflexivity).
  split; [reflexivity |]. split; [exact Hsize |]. split; [exact Hfits |].
  apply (ratemaps_guarded_and_unvisited_zero batch0 batch0 Q_flt_zero_zero
           Q_to_int_in_grid options0 2 (Some 1) 1 1 true eq_refl);
    [lia | exact Hsize | lia | lia | exact Hfits | exact Hfits].
Defined.

End VisualizeFacts.

(** ** More on the synthetic data generators *)

Module SyntheticMoreFacts.
Import Synthetic SyntheticAux Samples.
Section Generators.
Context {F : Type} `{PyFloat F}.
Variable rng : Type.
Variable random_normal : F -> F -> nat * nat -> rng -> image F * rng.
Variable random_poisson : F -> rng -> Z * rng.
Variable camera : image F.
Variable resize : image F -> Z * Z -> image F.
Variable rotate : image F -> F -> image F.
Variable gaussian : image F -> F -> image F.
Variable np_matmul : list (list F) -> list F -> list F.

Abbreviation load_images :=
  (Synthetic.load_images rng random_normal camera resize rotate gaussian).
Abbreviation load_points := (Synthetic.load_points rng np_matmul).
Abbreviation load_place_cells := (Synthetic.load_place_cells rng random_poisson).
Abbreviation rot_point := (SyntheticAux.rot_point np_matmul).

Lemma points_inner_fold (angle : F) (rot : list F) (l : list Z)
    (pts : list (list F)) (la : list F) (ls : list Z) :
  foldl (points_inner angle rot) (pts, la, ls) l
  = ((pts ++ ((fun i => map (fmul (of_int (1 + i))) rot) <$> l))%list,
     (la ++ replicate (length l) angle)%list,
     (ls ++ ((fun i => 1 + i) <$> l))%list).
Proof.
  revert pts la ls. induction l as [|i l IH]; intros pts la ls.
  - cbn. rewrite !app_nil_r. reflexivity.
  - cbn [foldl]. unfold points_inner at 2. rewrite IH.
    cbn [fmap list_fmap length replicate]. rewrite <- !app_assoc. reflexivity.
Qed.

Lemma points_outer_fold (n_scalars n_angles : Z) (l : list Z)
    (pts : list (list F)) (la : list F) (ls : list Z) :
  foldl (points_outer np_matmul n_scalars n_angles) (pts, la, ls) l
  = ((pts ++ mjoin ((fun a => (fun i => map (fmul (of_int (1 + i)))
                                       (rot_point n_angles a))
                              <$> py_range 0 n_scalars) <$> l))%list,
     (la ++ mjoin ((fun a => replicate (Z.to_nat n_scalars)
                               (point_angle n_angles a)) <$> l))%list,
     (ls ++ mjoin ((fun _ => (fun i => 1 + i) <$> py_range 0 n_scalars)
                     <$> l))%list).
Proof.
  revert pts la ls. induction l as [|a l IH]; intros pts la ls.
  - cbn. rewrite !app_nil_r. reflexivity.
  - cbn [foldl]. unfold points_outer at 2. rewrite points_inner_fold, IH.
    csimpl. rewrite <- !app_assoc.
    rewrite SyntheticFacts.length_py_range. reflexivity.
Qed.

(** load_points returns one point per pair of indices, in the order of the
    loops: at position i_angle * n_scalars + i_scalar the angle is
    2 * pi * i_angle / n_angles, the scalar is the integer 1 + i_scalar and
    the point is that scalar times the rotated point of the angle. *)
Theorem load_points_rows (n_scalars n_angles : Z) (s : rng) :
  exists points labels,
    load_points n_scalars n_angles s = (points, labels, s)
    /\ length points = (Z.to_nat n_angles * Z.to_nat n_scalars)%nat
    /\ length (angles labels) = length points
    /\ length (scalars labels) = length points
    /\ forall i_angle i_scalar,
         0 <= i_angle < n_angles -> 0 <= i_scalar < n_scalars ->
         points !! Z.to_nat (i_angle * n_scalars + i_scalar)
         = Some (map (fmul (of_int (1 + i_scalar))) (rot_point n_angles i_angle))
         /\ angles labels !! Z.to_nat (i_angle * n_scalars + i_scalar)
            = Some (point_angle n_angles i_angle)
         /\ scalars labels !! Z.to_nat (i_angle * n_scalars + i_scalar)
            = Some (1 + i_scalar).
Proof.
  unfold Synthetic.load_points. rewrite points_outer_fold. cbn [app].
  eexists _, _. split; [reflexivity |]. cbn [angles scalars].
  assert (Hp : forall a : Z,
            length ((fun i => map (fmul (of_int (1 + i))) (rot_point n_angles a))
                      <$> py_range 0 n_scalars) = Z.to_nat n_scalars)
    by (intros; rewrite length_fmap; apply SyntheticFacts.length_py_range).
  assert (Ha : forall a : Z,
            length (replicate (Z.to_nat n_scalars) (point_angle n_angles a))
            = Z.to_nat n_scalars) by (intros; apply length_replicate).
  assert (Hs : forall a : Z,
            length ((fun i => 1 + i) <$> py_range 0 n_scalars)
            = Z.to_nat n_scalars)
    by (intros; rewrite length_fmap; apply SyntheticFacts.length_py_range).
  assert (Hlen : forall {A} (f : Z -> list A),
            (forall a, length (f a) = Z.to_nat n_scalars) ->
            length (mjoin (f <$> py_range 0 n_angles))
            = (Z.to_nat n_angles * Z.to_nat n_scalars)%nat).
  { intros A f Hf.
    rewrite (SyntheticFacts.length_join_same (Z.to_nat n_scalars)),
      length_fmap, SyntheticFacts.length_py_range; [reflexivity |].
    apply Forall_fmap, Forall_forall. intros b _. apply Hf. }
  split; [apply Hlen, Hp |].
  split; [rewrite (Hlen _ _ Ha), (Hlen _ _ Hp); reflexivity |].
  split; [rewrite (Hlen _ _ (fun a => Hs a)), (Hlen _ _ Hp); reflexivity |].
  intros i_angle i_scalar Hia Hisc.
  replace (Z.to_nat (i_angle * n_scalars + i_scalar))
    with (Z.to_nat i_angle * Z.to_nat n_scalars + Z.to_nat i_scalar)%nat by nia.
  split; [| split].
  - apply (SyntheticFacts.lookup_join_blocks _ _ _ _ _ i_angle);
      [exact Hp | apply SyntheticFacts.lookup_py_range, Hia |].
    rewrite list_lookup_fmap, SyntheticFacts.lookup_py_range by exact Hisc.
    reflexivity.
  - apply (SyntheticFacts.lookup_join_blocks _ _ _ _ _ i_angle);
      [exact Ha | apply SyntheticFacts.lookup_py_range, Hia |].
    apply lookup_replicate_2. lia.
  - apply (SyntheticFacts.lookup_join_blocks
             (fun _ : Z => (fun i => 1 + i) <$> py_range 0 n_scalars)
             _ _ _ _ i_angle);
      [exact Hs | apply SyntheticFacts.lookup_py_range, Hia |].
    rewrite list_lookup_fmap, SyntheticFacts.lookup_py_range by exact Hisc.
    reflexivity.
Qed.

Abbreviation store_poisson := (Synthetic.store_poisson rng random_poisson).
Abbreviation cell_row := (Synthetic.cell_row rng random_poisson).
Abbreviation place_cells_inner :=
  (Synthetic.place_cells_inner rng random_poisson).
Abbreviation place_cells_outer :=
  (Synthetic.place_cells_outer rng random_poisson).
Abbreviation poisson_next := (SyntheticAux.poisson_next rng random_poisson).
Abbreviation poisson_value := (SyntheticAux.poisson_value rng random_poisson).
Abbreviation row_next := (SyntheticAux.row_next rng random_poisson).

Lemma store_poisson_eq (row : list F) (i : Z) (lam : Q) (s : rng) :
  - Z.of_nat (length row) <= i < Z.of_nat (length row) ->
  store_poisson row i lam s
  = Ok (<[wrap (Z.of_nat (length row)) i := of_int (poisson_value lam s)]> row,
        poisson_next lam s).
Proof.
  intros Hi. unfold Synthetic.store_poisson, setitem, wrap,
    SyntheticAux.poisson_value, SyntheticAux.poisson_next.
  destruct (random_poisson (of_lit lam) s) as [p s'].
  set (n := Z.of_nat (length row)) in *.
  set (j := if i <? 0 then i + n else i).
  assert (Hj : 0 <= j < n) by (unfold j; destruct (i <? 0) eqn:E; lia).
  clearbody j n.
  replace ((0 <=? j) && (j <? n)) with true by lia. reflexivity.
Qed.

Lemma store_poisson_out (row : list F) (i : Z) (lam : Q) (s : rng) :
  ~ (- Z.of_nat (length row) <= i < Z.of_nat (length row)) ->
  store_poisson row i lam s = Raise IndexError.
Proof.
  intros Hi. unfold Synthetic.store_poisson, setitem.
  destruct (random_poisson (of_lit lam) s) as [p s'].
  set (n := Z.of_nat (length row)) in *.
  set (j := if i <? 0 then i + n else i).
  assert (Hj : ~ (0 <= j < n)) by (unfold j; destruct (i <? 0) eqn:E; lia).
  clearbody j n.
  replace ((0 <=? j) && (j <? n)) with false by lia. reflexivity.
Qed.

Lemma py_range_empty (n : Z) : n <= 0 -> py_range 0 n = [].
Proof. intros Hn. unfold py_range. apply seqZ_nil. lia. Qed.

Lemma foldl_fixed {A B} (f : A -> B -> A) (a : A) (l : list B) :
  (forall b, f a b = a) -> foldl f a l = a.
Proof.
  intros Hf. induction l as [|b l IH]; [reflexivity |].
  cbn [foldl]. rewrite Hf. exact IH.
Qed.

(** With no angle or no scalar to loop over, load_images and load_points
    return empty arrays and empty label columns, and load_images draws no
    noise: the generator is left in the state it was found in. *)
Theorem generators_without_indices (n_scalars n_angles img_size : Z) (s : rng) :
  n_angles <= 0 \/ n_scalars <= 0 ->
  load_images n_scalars n_angles img_size s
  = ([], {| angles := []; scalars := [] |}, s)
  /\ load_points n_scalars n_angles s
     = ([], {| angles := []; scalars := [] |}, s).
Proof.
  intros [Ha | Hs]; unfold Synthetic.load_images, Synthetic.load_points.
  - rewrite (py_range_empty n_angles Ha). split; reflexivity.
  - rewrite !foldl_fixed; [split; reflexivity | |].
    + intros a. unfold points_outer. rewrite (py_range_empty n_scalars Hs).
      reflexivity.
    + intros a. unfold images_outer. rewrite (py_range_empty n_scalars Hs).
      reflexivity.
Qed.

Abbreviation row_values := (SyntheticAux.row_values rng random_poisson).

Lemma store_step (n : Z) (row : list F) (i : Z) (lam : Q) (s : rng) :
  length row = Z.to_nat n -> - n <= i < n ->
  store_poisson row i lam s
  = Ok (<[wrap n i := of_int (poisson_value lam s)]> row, poisson_next lam s).
Proof.
  intros Hlen Hi. rewrite store_poisson_eq by lia.
  replace (Z.of_nat (length row)) with n by lia. reflexivity.
Qed.

Ltac store_next n :=
  match goal with
  | |- context [mbind _ (Synthetic.store_poisson _ _ ?row ?i ?lam) ?s] =>
      rewrite (SyntheticFacts.bind_run _ _ _ _ _
                 (store_step n row i lam s
                    ltac:(rewrite ?length_insert; apply length_replicate)
                    ltac:(lia)))
  | |- context [Synthetic.store_poisson _ _ ?row ?i ?lam ?s] =>
      rewrite (store_step n row i lam s
                 ltac:(rewrite ?length_insert; apply length_replicate)
                 ltac:(lia))
  end.

(** The row built for one cell: the five draws of the row, stored at the
    five indices of the cell, and the state after the five draws. *)
Lemma cell_row_assigned (n_cells i_cell : Z) (s : rng) :
  4 <= n_cells -> 0 <= i_cell < n_cells ->
  cell_row n_cells i_cell s
  = Ok (assigned n_cells (cell_indices n_cells i_cell) (row_values s),
        row_next s).
Proof.
  intros Hn Hi. unfold Synthetic.cell_row, cell_indices, np_zeros.
  destruct (i_cell =? 0) eqn:E0;
    [| destruct (i_cell =? 1) eqn:E1;
       [| destruct (i_cell =? n_cells - 2) eqn:E2;
          [| destruct (i_cell =? n_cells - 1) eqn:E3]]].
  all: do 5 store_next n_cells.
  all: reflexivity.
Qed.

Lemma bind_raise {S A B} (m : stateful S A) (f : A -> stateful S B) (s : S)
    (e : exn) :
  m s = Raise e -> (m ≫= f) s = Raise e.
Proof. intros Hm. unfold mbind, stateful_bind. rewrite Hm. reflexivity. Qed.

Lemma py_range_first (n : Z) : 1 <= n -> py_range 0 n = 0 :: py_range 1 n.
Proof.
  intros Hn. unfold py_range. rewrite seqZ_cons by lia. do 2 f_equal; lia.
Qed.

Ltac crank :=
  cbn [for_range];
  unfold Synthetic.place_cells_inner, Synthetic.cell_row,
    Synthetic.store_poisson, setitem, np_zeros, mbind, stateful_bind, mret,
    stateful_ret, result_bind;
  repeat (cbv -[of_lit of_int];
          match goal with
          | |- context [random_poisson ?l ?s] => destruct (random_poisson l s)
          end).

(** A first round over fewer than four cells runs into a position that the
    row does not have. *)
Lemma first_round_index_error (n_cells : Z) (s : rng) :
  1 <= n_cells <= 3 ->
  for_range (place_cells_inner n_cells) (py_range 0 n_cells) ([], []) s
  = Raise IndexError.
Proof.
  intros Hn.
  assert (Hcases : n_cells = 1 \/ n_cells = 2 \/ n_cells = 3) by lia.
  destruct Hcases as [-> | [-> | ->]].
  - change (py_range 0 1) with [0]. crank. reflexivity.
  - change (py_range 0 2) with [0; 1]. crank. reflexivity.
  - change (py_range 0 3) with [0; 1; 2]. crank. reflexivity.
Qed.

(** load_place_cells on too few cells: n_cells = 0 raises
    ZeroDivisionError at the first line, and for n_cells = 1, 2 or 3 with
    at least one round to run (n_cells <= n_times < 2^53) an assignment to
    cell_firings raises IndexError.  With one or two cells it is the row
    of cell 0 that cannot be built; with three cells the row of cell 0 is
    built and the row of cell 1 is the one that fails. *)
Theorem load_place_cells_too_few_cells :
  (forall n_times s, load_place_cells n_times 0 s = Raise ZeroDivisionError)
  /\ (forall n_times n_cells s,
        1 <= n_cells <= 3 -> n_cells <= n_times < 2 ^ 53 ->
        load_place_cells n_times n_cells s = Raise IndexError)
  /\ (forall s,
        cell_row 1 0 s = Raise IndexError
        /\ cell_row 2 0 s = Raise IndexError
        /\ (exists row s', cell_row 3 0 s = Ok (row, s'))
        /\ cell_row 3 1 s = Raise IndexError).
Proof.
  split; [| split].
  - intros n_times s. reflexivity.
  - intros n_times n_cells s Hn Ht. unfold Synthetic.load_place_cells.
    rewrite (SyntheticFacts.bind_run _ _ s s (n_times / n_cells)).
    + assert (Hk : 1 <= n_times / n_cells)
        by (apply Z.div_le_lower_bound; lia).
      rewrite (py_range_first _ Hk). cbn [for_range].
      apply bind_raise. unfold Synthetic.place_cells_outer.
      apply first_round_index_error, Hn.
    + unfold lift. rewrite PyNumFacts.int_truediv_exact by lia. reflexivity.
  - intros s. split; [| split; [| split]].
    + crank. reflexivity.
    + crank. reflexivity.
    + crank. eexists _, _. reflexivity.
    + crank. reflexivity.
Qed.

(** With fewer times than cells (0 <= n_times < n_cells, n_times < 2^53)
    n_firing_per_cell is 0: the result is an empty matrix with an empty
    label column, and no Poisson number is drawn. *)
Theorem load_place_cells_no_round (n_times n_cells : Z) (s : rng) :
  0 <= n_times < n_cells -> n_times < 2 ^ 53 ->
  load_place_cells n_times n_cells s = Ok ([], [], s).
Proof.
  intros Ht Hbound. unfold Synthetic.load_place_cells.
  rewrite (SyntheticFacts.bind_run _ _ s s 0); [reflexivity |].
  unfold lift. destruct (Z.eq_dec n_times 0) as [-> | Hne].
  - unfold PyNum.int_truediv. replace (n_cells =? 0) with false by lia.
    reflexivity.
  - rewrite PyNumFacts.int_truediv_exact by lia.
    rewrite Z.div_small by lia. reflexivity.
Qed.

Abbreviation rows_from := (SyntheticAux.rows_from rng random_poisson).

Lemma for_range_app {S A} (body : Z -> A -> stateful S A) (l1 l2 : list Z)
    (a : A) (s : S) :
  for_range body (l1 ++ l2)%list a s
  = (a' ← for_range body l1 a; for_range body l2 a') s.
Proof.
  revert a s. induction l1 as [|i l1 IH]; intros a s; [reflexivity |].
  cbn [app for_range]. unfold mbind, stateful_bind.
  destruct (body i a s) as [[a1 s1] | e]; [apply IH | reflexivity].
Qed.

Lemma iter_row_next (k : nat) (s : rng) :
  Nat.iter k row_next (row_next s) = Nat.iter (S k) row_next s.
Proof. symmetry. apply Nat.iter_succ_r. Qed.

(** The inner loop over any cells in range: rows, labels and final state. *)
Lemma place_cells_inner_run (n_cells : Z) (l : list Z)
    (place_cells : list (list F)) (labels : list F) (s : rng) :
  4 <= n_cells -> Forall (fun i => 0 <= i < n_cells) l ->
  for_range (place_cells_inner n_cells) l (place_cells, labels) s
  = Ok ((place_cells ++ rows_from n_cells l s)%list,
        (labels ++ (cell_angle n_cells <$> l))%list,
        Nat.iter (length l) row_next s).
Proof.
  intros Hn Hl. revert place_cells labels s.
  induction Hl as [|i l Hi _ IH]; intros place_cells labels s.
  - cbn. rewrite !app_nil_r. reflexivity.
  - cbn [for_range]. unfold Synthetic.place_cells_inner at 2.
    rewrite (SyntheticFacts.bind_run _ _ _ _ _
               (SyntheticFacts.bind_run _ _ _ _ _
                  (cell_row_assigned n_cells i s Hn Hi))).
    rewrite IH, <- !app_assoc, iter_row_next. reflexivity.
Qed.

(** The outer loop is the inner loop over the concatenated rounds. *)
Lemma place_cells_outer_flat (n_cells : Z) (l : list Z)
    (acc : list (list F) * list F) (s : rng) :
  for_range (place_cells_outer n_cells) l acc s
  = for_range (place_cells_inner n_cells)
      (mjoin ((fun _ => py_range 0 n_cells) <$> l)) acc s.
Proof.
  revert acc s. induction l as [|i l IH]; intros acc s; [reflexivity |].
  cbn [for_range fmap list_fmap mjoin list_join]. rewrite for_range_app.
  unfold mbind, stateful_bind, Synthetic.place_cells_outer at 1.
  destruct (for_range (place_cells_inner n_cells) (py_range 0 n_cells) acc s)
    as [[a1 s1] | e]; [apply IH | reflexivity].
Qed.

Lemma lookup_rows_from (n_cells : Z) (l : list Z) (s : rng) (k : nat)
    (i : Z) :
  l !! k = Some i ->
  rows_from n_cells l s !! k
  = Some (assigned n_cells (cell_indices n_cells i)
            (row_values (Nat.iter k row_next s))).
Proof.
  revert s k. induction l as [|i0 l IH]; intros s k Hk; [discriminate |].
  destruct k as [|k].
  - injection Hk as ->. reflexivity.
  - cbn [SyntheticAux.rows_from lookup list_lookup].
    rewrite (IH (row_next s) k Hk), iter_row_next. reflexivity.
Qed.

Lemma rounds_length (n_cells k : Z) :
  length (mjoin ((fun _ : Z => py_range 0 n_cells) <$> py_range 0 k))
  = (Z.to_nat k * Z.to_nat n_cells)%nat.
Proof.
  rewrite (SyntheticFacts.length_join_same (Z.to_nat n_cells)),
    length_fmap, SyntheticFacts.length_py_range; [reflexivity |].
  apply Forall_fmap, Forall_forall. intros b _.
  apply SyntheticFacts.length_py_range.
Qed.

Lemma rounds_lookup (n_cells k round i_cell : Z) :
  0 <= round < k -> 0 <= i_cell < n_cells ->
  mjoin ((fun _ : Z => py_range 0 n_cells) <$> py_range 0 k)
    !! Z.to_nat (round * n_cells + i_cell) = Some i_cell.
Proof.
  intros Hr Hi.
  replace (Z.to_nat (round * n_cells + i_cell))
    with (Z.to_nat round * Z.to_nat n_cells + Z.to_nat i_cell)%nat by nia.
  apply (SyntheticFacts.lookup_join_blocks
           (fun _ : Z => py_range 0 n_cells) _ _ _ _ round).
  - intros _. apply SyntheticFacts.length_py_range.
  - apply SyntheticFacts.lookup_py_range, Hr.
  - apply SyntheticFacts.lookup_py_range, Hi.
Qed.

Lemma rounds_bounds (n_cells k : Z) :
  Forall (fun i => 0 <= i < n_cells)
    (mjoin ((fun _ : Z => py_range 0 n_cells) <$> py_range 0 k)).
Proof.
  apply Forall_join, Forall_fmap, Forall_forall. intros b _.
  apply SyntheticFacts.py_range_bounds.
Qed.

(** The whole run in closed form. *)
Lemma load_place_cells_run (n_times n_cells : Z) (s : rng) :
  1 <= n_times < 2 ^ 53 -> 4 <= n_cells ->
  let cells := mjoin ((fun _ : Z => py_range 0 n_cells)
                        <$> py_range 0 (n_times / n_cells)) in
  load_place_cells n_times n_cells s
  = Ok (rows_from n_cells cells s, cell_angle n_cells <$> cells,
        Nat.iter (length cells) row_next s).
Proof.
  intros Ht Hn cells. unfold Synthetic.load_place_cells.
  rewrite (SyntheticFacts.bind_run _ _ s s (n_times / n_cells))
    by (unfold lift; rewrite PyNumFacts.int_truediv_exact by lia;
        reflexivity).
  rewrite place_cells_outer_flat.
  apply (place_cells_inner_run n_cells _ [] [] s Hn), rounds_bounds.
Qed.

(** For 1 <= n_times < 2^53 and n_cells >= 4, load_place_cells draws
    exactly five Poisson numbers per row, with rates 1, 2, 4, 2, 1 in that
    order, and nothing else from the generator.  Row round * n_cells +
    i_cell is np.zeros(n_cells) with the five numbers drawn for it stored
    at the five indices of cell i_cell, and its label is
    i_cell / n_cells * 360. *)
Theorem load_place_cells_rows (n_times n_cells : Z) (s : rng) :
  1 <= n_times < 2 ^ 53 -> 4 <= n_cells ->
  exists place_cells labels,
    load_place_cells n_times n_cells s
    = Ok (place_cells, labels,
          Nat.iter (Z.to_nat (n_times / n_cells * n_cells)) row_next s)
    /\ forall round i_cell,
         0 <= round < n_times / n_cells -> 0 <= i_cell < n_cells ->
         let k := Z.to_nat (round * n_cells + i_cell) in
         place_cells !! k
         = Some (assigned n_cells (cell_indices n_cells i_cell)
                   (row_values (Nat.iter k row_next s)))
         /\ labels !! k = Some (cell_angle n_cells i_cell).
Proof.
  intros Ht Hn. eexists _, _.
  rewrite (load_place_cells_run n_times n_cells s Ht Hn). cbv zeta.
  rewrite rounds_length.
  assert (Hq : 0 <= n_times / n_cells) by (apply Z.div_pos; lia).
  replace (Z.to_nat (n_times / n_cells) * Z.to_nat n_cells)%nat
    with (Z.to_nat (n_times / n_cells * n_cells)) by nia.
  split; [reflexivity |]. intros round i_cell Hr Hi.
  pose proof (rounds_lookup n_cells _ round i_cell Hr Hi) as Hk.
  split; [apply lookup_rows_from, Hk |].
  rewrite list_lookup_fmap, Hk. reflexivity.
Qed.

Ltac lookup_written :=
  repeat (rewrite list_lookup_insert_ne by lia);
  first [ apply list_lookup_insert_eq;
          rewrite ?length_insert, length_replicate; lia
        | apply lookup_replicate_2; lia ].

(** The row of a cell away from both ends, entry by entry. *)
Lemma interior_assigned (n_cells i_cell : Z) (v1 v2 v3 v4 v5 : F) :
  6 <= n_cells -> 2 <= i_cell <= n_cells - 3 ->
  let row := assigned n_cells (cell_indices n_cells i_cell)
               [v1; v2; v3; v4; v5] in
  row !! Z.to_nat (i_cell - 2) = Some v1
  /\ row !! Z.to_nat (i_cell - 1) = Some v2
  /\ row !! Z.to_nat i_cell = Some v3
  /\ row !! Z.to_nat (i_cell + 1) = Some v4
  /\ row !! Z.to_nat ((i_cell - 3) mod n_cells) = Some v5
  /\ forall j : Z,
       0 <= j < n_cells ->
       j <> (i_cell - 3) mod n_cells -> ~ (i_cell - 2 <= j <= i_cell + 1) ->
       row !! Z.to_nat j = Some (of_int 0).
Proof.
  intros Hn Hi.
  assert (Hmod : (i_cell - 3) mod n_cells
                 = if i_cell - 3 <? 0 then i_cell - 3 + n_cells
                   else i_cell - 3).
  { destruct (i_cell - 3 <? 0) eqn:E.
    - symmetry. apply (Z.mod_unique _ _ (-1)); lia.
    - apply Z.mod_small. lia. }
  unfold cell_indices, assigned, np_zeros, wrap.
  replace (i_cell =? 0) with false by lia.
  replace (i_cell =? 1) with false by lia.
  replace (i_cell =? n_cells - 2) with false by lia.
  replace (i_cell =? n_cells - 1) with false by lia.
  cbn [zip zip_with foldl fst snd]. rewrite <- Hmod.
  replace (i_cell - 2 <? 0) with false by lia.
  replace (i_cell - 1 <? 0) with false by lia.
  replace (i_cell <? 0) with false by lia.
  replace (i_cell + 1 <? 0) with false by lia.
  assert (Hp : 0 <= (i_cell - 3) mod n_cells < n_cells)
    by (apply Z.mod_pos_bound; lia).
  assert (Hfar : (i_cell - 3) mod n_cells < i_cell - 2
                 \/ i_cell + 2 < (i_cell - 3) mod n_cells)
    by (rewrite Hmod; destruct (i_cell - 3 <? 0) eqn:E; lia).
  set (p := (i_cell - 3) mod n_cells) in *. clearbody p.
  cbv zeta. repeat split; try lookup_written.
  intros j Hj Hjp Hjw. lookup_written.
Qed.

(** For n_cells >= 6 and a cell away from both ends
    (2 <= i_cell <= n_cells - 3) the row is not symmetric around the cell:
    the draws of rates 1, 2, 4, 2 sit at i_cell - 2, i_cell - 1, i_cell and
    i_cell + 1, the last draw of rate 1 sits at i_cell - 3 (the last cell
    when i_cell = 2), and every other entry, i_cell + 2 among them, is
    0.0. *)
Theorem load_place_cells_interior_row (n_times n_cells round i_cell : Z)
    (s : rng) :
  1 <= n_times < 2 ^ 53 -> 6 <= n_cells ->
  0 <= round < n_times / n_cells -> 2 <= i_cell <= n_cells - 3 ->
  exists place_cells labels s' row,
    load_place_cells n_times n_cells s = Ok (place_cells, labels, s')
    /\ place_cells !! Z.to_nat (round * n_cells + i_cell) = Some row
    /\ let drawn :=
         row_values (Nat.iter (Z.to_nat (round * n_cells + i_cell))
                       row_next s) in
       row !! Z.to_nat (i_cell - 2) = drawn !! 0%nat
       /\ row !! Z.to_nat (i_cell - 1) = drawn !! 1%nat
       /\ row !! Z.to_nat i_cell = drawn !! 2%nat
       /\ row !! Z.to_nat (i_cell + 1) = drawn !! 3%nat
       /\ row !! Z.to_nat ((i_cell - 3) mod n_cells) = drawn !! 4%nat
       /\ row !! Z.to_nat (i_cell + 2) = Some (of_int 0)
       /\ forall j : Z,
            0 <= j < n_cells ->
            j <> (i_cell - 3) mod n_cells ->
            ~ (i_cell - 2 <= j <= i_cell + 1) ->
            row !! Z.to_nat j = Some (of_int 0).
Proof.
  intros Ht Hn Hr Hi. eexists _, _, _, _.
  rewrite (load_place_cells_run n_times n_cells s Ht ltac:(lia)). cbv zeta.
  split; [reflexivity |].
  split; [apply lookup_rows_from, rounds_lookup; [exact Hr | lia] |].
  set (st := Nat.iter _ row_next s). unfold SyntheticAux.row_values.
  cbv zeta.
  match goal with
  | |- context [assigned _ _ [?v1; ?v2; ?v3; ?v4; ?v5]] =>
      destruct (interior_assigned n_cells i_cell v1 v2 v3 v4 v5 Hn Hi)
        as (H1 & H2 & H3 & H4 & H5 & Hrest)
  end.
  repeat (split; [assumption |]). split; [| exact Hrest].
  apply Hrest; [lia | | lia].
  destruct (Z.ltb_spec (i_cell - 3) 0).
  - rewrite <- (Z.mod_unique (i_cell - 3) n_cells (-1) (i_cell - 3 + n_cells))
      by lia. lia.
  - rewrite Z.mod_small by lia. lia.
Qed.

End Generators.

(** The labels of load_images are those of any other run with the same
    n_scalars and n_angles: they do not depend on the generator and its
    state, on the picture, on the image operations or on img_size, and
    neither does the number of images. *)
Theorem load_images_labels_fixed {F : Type} `{PyFloat F}
    (rng1 rng2 : Type)
    (normal1 : F -> F -> nat * nat -> rng1 -> image F * rng1)
    (normal2 : F -> F -> nat * nat -> rng2 -> image F * rng2)
    (camera1 camera2 : image F)
    (resize1 resize2 : image F -> Z * Z -> image F)
    (rotate1 rotate2 gaussian1 gaussian2 : image F -> F -> image F)
    (n_scalars n_angles size1 size2 : Z) (s1 : rng1) (s2 : rng2) :
  let run1 := Synthetic.load_images rng1 normal1 camera1 resize1 rotate1
                gaussian1 n_scalars n_angles size1 s1 in
  let run2 := Synthetic.load_images rng2 normal2 camera2 resize2 rotate2
                gaussian2 n_scalars n_angles size2 s2 in
  run1.1.2 = run2.1.2 /\ length run1.1.1 = length run2.1.1.
Proof.
  cbv zeta. unfold Synthetic.load_images.
  destruct (SyntheticFacts.images_outer_fold rng1 normal1 rotate1 gaussian1
              n_scalars n_angles (resize1 camera1 (size1, size1))
              (py_range 0 n_angles) [] [] [] s1) as (X1 & t1 & E1 & L1).
  destruct (SyntheticFacts.images_outer_fold rng2 normal2 rotate2 gaussian2
              n_scalars n_angles (resize2 camera2 (size2, size2))
              (py_range 0 n_angles) [] [] [] s2) as (X2 & t2 & E2 & L2).
  rewrite E1, E2. cbn [fst snd app]. split; [reflexivity | congruence].
Qed.

Lemma generators_without_indices_witness :
  (3 <= 0 \/ 0 <= 0)
  /\ Synthetic.load_images nat counting_normal camera0 keep_image scale_image
       scale_image 0 3 2 0%nat
     = ([], {| angles := []; scalars := [] |}, 0%nat)
  /\ Synthetic.load_points nat apply_rows 0 3 0%nat
     = ([], {| angles := []; scalars := [] |}, 0%nat).
Proof.
  assert (Hn : 3 <= 0 \/ 0 <= 0) by (right; lia).
  split; [exact Hn |].
  exact (generators_without_indices nat counting_normal camera0 keep_image
           scale_image scale_image apply_rows 0 3 2 0%nat Hn).
Defined.

Lemma load_place_cells_too_few_cells_witness :
  Synthetic.load_place_cells nat counting_poisson 5 0 0%nat
  = Raise ZeroDivisionError
  /\ Synthetic.load_place_cells nat counting_poisson 5 3 0%nat
     = Raise IndexError
  /\ (exists row s',
        Synthetic.cell_row nat counting_poisson 3 0 0%nat = Ok (row, s'))
  /\ Synthetic.cell_row nat counting_poisson 3 1 5%nat = Raise IndexError.
Proof.
  destruct (load_place_cells_too_few_cells nat counting_poisson)
    as (H0 & H3 & Hrows).
  split; [apply H0 |].
  split; [apply H3; [lia |]; split; [lia | reflexivity] |].
  split; [exact (proj1 (proj2 (proj2 (Hrows 0%nat)))) |].
  exact (proj2 (proj2 (proj2 (Hrows 5%nat)))).
Defined.

Lemma load_place_cells_no_round_witness :
  0 <= 3 < 4 /\ 3 < 2 ^ 53
  /\ Synthetic.load_place_cells nat counting_poisson 3 4 0%nat
     = Ok ([], [], 0%nat).
Proof.
  assert (Ht : 0 <= 3 < 4) by lia.
  assert (Hb : 3 < 2 ^ 53) by reflexivity.
  split; [exact Ht |]. split; [exact Hb |].
  exact (load_place_cells_no_round nat counting_poisson 3 4 0%nat Ht Hb).
Defined.

Lemma load_place_cells_rows_witness :
  1 <= 10 < 2 ^ 53 /\ 4 <= 4
  /\ exists place_cells labels,
       Synthetic.load_place_cells nat counting_poisson 10 4 0%nat
       = Ok (place_cells, labels,
             Nat.iter (Z.to_nat (10 / 4 * 4))
               (row_next nat counting_poisson) 0%nat)
       /\ forall round i_cell,
            0 <= round < 10 / 4 -> 0 <= i_cell < 4 ->
            let k := Z.to_nat (round * 4 + i_cell) in
            place_cells !! k
            = Some (assigned 4 (cell_indices 4 i_cell)
                      (row_values nat counting_poisson
                         (Nat.iter k (row_next nat counting_poisson) 0%nat)))
            /\ labels !! k = Some (cell_angle 4 i_cell).
Proof.
  assert (Ht : 1 <= 10 < 2 ^ 53) by (split; [lia | reflexivity]).
  assert (Hn : 4 <= 4) by lia.
  split; [exact Ht |]. split; [exact Hn |].
  exact (load_place_cells_rows nat counting_poisson 10 4 0%nat Ht Hn).
Defined.

Lemma load_place_cells_interior_row_witness :
  1 <= 20 < 2 ^ 53 /\ 6 <= 7 /\ 0 <= 1 < 20 / 7 /\ 2 <= 2 <= 7 - 3
  /\ exists place_cells labels s' row,
       Synthetic.load_place_cells nat counting_poisson 20 7 0%nat
       = Ok (place_cells, labels, s')
       /\ place_cells !! Z.to_nat (1 * 7 + 2) = Some row
       /\ let drawn :=
            row_values nat counting_poisson
              (Nat.iter (Z.to_nat (1 * 7 + 2))
                 (row_next nat counting_poisson) 0%nat) in
          row !! Z.to_nat (2 - 2) = drawn !! 0%nat
          /\ row !! Z.to_nat (2 - 1) = drawn !! 1%nat
          /\ row !! Z.to_nat 2 = drawn !! 2%nat
          /\ row !! Z.to_nat (2 + 1) = drawn !! 3%nat
          /\ row !! Z.to_nat ((2 - 3) mod 7) = drawn !! 4%nat
          /\ row !! Z.to_nat (2 + 2) = Some (of_int 0)
          /\ forall j : Z,
               0 <= j < 7 -> j <> (2 - 3) mod 7 -> ~ (2 - 2 <= j <= 2 + 1) ->
               row !! Z.to_nat j = Some (of_int 0).
Proof.
  assert (Ht : 1 <= 20 < 2 ^ 53) by (split; [lia | reflexivity]).
  assert (Hn : 6 <= 7) by lia.
  assert (Hr : 0 <= 1 < 20 / 7) by (split; [lia | reflexivity]).
  assert (Hi : 2 <= 2 <= 7 - 3) by lia.
  split; [exact Ht |]. split; [exact Hn |]. split; [exact Hr |].
  split; [exact Hi |].
  exact (load_place_cells_interior_row nat counting_poisson 20 7 1 2 0%nat
           Ht Hn Hr Hi).
Defined.

End SyntheticMoreFacts.

(** ** More on compute_ratemaps and compute_ratemaps_single_agent *)

Module VisualizeMoreFacts.
Import Visualize VisualizeShapes Samples.
Section Ratemaps.
Context {F : Type} `{PyFloat F}.
Abbreviation plane := (list (list F)).

(** The two arrays that the normalization reads. *)
Abbreviation core := (fun b : bins F => (counts b, activations b)).

(** The three arrays returned after the activations. *)
Abbreviation arrays := (fun r : ratemaps F => (rate_map r, g r, pos r)).

Lemma bin_sample_core (opts : options F) (res : Z) (f1 f2 : bool)
    (index : Z) (b1 b2 : bins F) (smp : sample F) :
  core b1 = core b2 ->
  core <$> bin_sample opts res f1 index b1 smp
  = core <$> bin_sample opts res f2 index b2 smp.
Proof.
  intros Hcore. injection Hcore as Hc Ha.
  destruct smp as [[px py] g_row]. unfold bin_sample.
  destruct (in_grid _ _ res); [| cbn; congruence].
  destruct (py_index res (to_int (bin_coordinate px (box_width opts) res)))
    as [ix | e]; [| reflexivity].
  destruct (py_index res (to_int (bin_coordinate py (box_height opts) res)))
    as [iy | e]; [| reflexivity].
  cbn. rewrite Hc, Ha. reflexivity.
Qed.

Lemma bin_samples_core (opts : options F) (res : Z) (f1 f2 : bool)
    (index : Z) (batch : list (sample F)) (b1 b2 : bins F) :
  core b1 = core b2 ->
  core <$> bin_samples opts res f1 index b1 batch
  = core <$> bin_samples opts res f2 index b2 batch.
Proof.
  revert b1 b2. induction batch as [|smp batch IH]; intros b1 b2 Hcore.
  - cbn. congruence.
  - cbn [bin_samples].
    pose proof (bin_sample_core opts res f1 f2 index b1 b2 smp Hcore) as Hs.
    destruct (bin_sample opts res f1 index b1 smp) as [b1' | e1],
             (bin_sample opts res f2 index b2 smp) as [b2' | e2];
      try discriminate.
    + cbn [mbind result_bind]. apply IH. cbn in Hs. congruence.
    + exact Hs.
Qed.

Lemma bin_batches_core (batch_at : Z -> list (sample F)) (opts : options F)
    (res Ng : Z) (f1 f2 : bool) (l : list Z) (b1 b2 : bins F) :
  core b1 = core b2 ->
  core <$> for_each (bin_batches batch_at opts res Ng f1) l b1
  = core <$> for_each (bin_batches batch_at opts res Ng f2) l b2.
Proof.
  revert b1 b2. induction l as [|index l IH]; intros b1 b2 Hcore.
  - cbn. congruence.
  - cbn [for_each]. unfold bin_batches at 2 4.
    destruct (fits opts Ng (batch_at index)); [| reflexivity].
    pose proof (bin_samples_core opts res f1 f2 index (batch_at index) b1 b2
                  Hcore) as Hs.
    destruct (bin_samples opts res f1 index b1 (batch_at index)) as [b1' | e1],
             (bin_samples opts res f2 index b2 (batch_at index)) as [b2' | e2];
      try discriminate.
    + cbn [mbind result_bind]. apply IH. cbn in Hs. congruence.
    + exact Hs.
Qed.

(** Neither the flag nor the allocation of all_activations changes the
    counts and the summed activations. *)
Lemma accumulate_core (batch_at : Z -> list (sample F)) (opts : options F)
    (res n_avg Ng : Z) (f1 f2 w1 w2 : bool) :
  core <$> accumulate batch_at opts res n_avg Ng f1 w1
  = core <$> accumulate batch_at opts res n_avg Ng f2 w2.
Proof.
  unfold accumulate.
  destruct (check_dims _) as [[] | e]; [| reflexivity].
  cbn [mbind result_bind]. apply bin_batches_core. reflexivity.
Qed.

(** all_activations_flag only selects which array comes first in the
    result of compute_ratemaps: rate_map, g and pos are the same with the
    flag on and off, the call raises with the flag on exactly when it
    raises with the flag off (and then the same exception), and with the
    flag off the first array is the one that rate_map is the reshape of. *)
Theorem compute_ratemaps_flag (test_batch : Z -> list (sample F))
    (opts : options F) (res : Z) (n_avg : option Z) (Ng : Z) :
  arrays <$> Visualize.compute_ratemaps test_batch opts res n_avg Ng true
  = arrays <$> Visualize.compute_ratemaps test_batch opts res n_avg Ng false
  /\ forall r,
       Visualize.compute_ratemaps test_batch opts res n_avg Ng false = Ok r ->
       exists acts,
         returned_activations r = inl acts /\ rate_map r = reshape_rows acts.
Proof.
  unfold Visualize.compute_ratemaps. split.
  - destruct (default_n_avg opts n_avg) as [n | e]; [| reflexivity].
    cbn [mbind result_bind].
    pose proof (accumulate_core test_batch opts res n Ng true false true true)
      as Hacc.
    destruct (accumulate test_batch opts res n Ng true true) as [b1 | e1],
             (accumulate test_batch opts res n Ng false true) as [b2 | e2];
      try discriminate; [| cbn in Hacc |- *; congruence].
    cbn in Hacc. injection Hacc as Hc Ha. cbn [mbind result_bind].
    rewrite Hc, Ha.
    destruct (normalize (counts b2) res (activations b2)); reflexivity.
  - intros r Hr.
    destruct (default_n_avg opts n_avg) as [n | e]; [| discriminate].
    cbn [mbind result_bind] in Hr.
    destruct (accumulate test_batch opts res n Ng false true) as [b | e];
      [| discriminate].
    cbn [mbind result_bind] in Hr.
    destruct (normalize (counts b) res (activations b)) as [acts | e];
      [| discriminate].
    injection Hr as <-. exists acts. split; reflexivity.
Qed.

(** compute_ratemaps_single_agent is compute_ratemaps with the flag off:
    fed the same batches, the two return the same four arrays or raise
    the same exception. *)
Theorem single_agent_agrees (batch_at : Z -> list (sample F))
    (opts : options F) (res : Z) (n_avg : option Z) (Ng : Z) :
  Visualize.compute_ratemaps_single_agent batch_at opts res n_avg Ng
  = Visualize.compute_ratemaps batch_at opts res n_avg Ng false.
Proof.
  unfold Visualize.compute_ratemaps_single_agent, Visualize.compute_ratemaps.
  destruct (default_n_avg opts n_avg) as [n | e]; [| reflexivity].
  cbn [mbind result_bind].
  pose proof (accumulate_core batch_at opts res n Ng false false false true)
    as Hacc.
  destruct (accumulate batch_at opts res n Ng false false) as [b1 | e1],
           (accumulate batch_at opts res n Ng false true) as [b2 | e2];
    try discriminate.
  - cbn in Hacc. injection Hacc as Hc Ha. cbn [mbind result_bind].
    rewrite Hc, Ha. reflexivity.
  - cbn in Hacc. cbn [mbind result_bind]. congruence.
Qed.

Hypothesis to_int_in_grid :
  forall (x : F) (res : Z),
    fle (of_int 0) x = true -> flt x (of_int res) = true ->
    0 <= to_int x < res.

Lemma alter_shape2 (f : F -> F) (i j : nat) (rows cols : Z) (a : plane) :
  array_shape2 rows cols a -> array_shape2 rows cols (update2 f i j a).
Proof.
  intros [Hlen Hrows]. unfold update2. split.
  - rewrite length_alter. exact Hlen.
  - apply Forall_alter; [exact Hrows |]. intros row _ Hrow.
    rewrite length_alter. exact Hrow.
Qed.

Lemma add_row4_shape (Ng res n_avg : Z) (g_row : list F) (ix iy index : nat)
    (all : list (list plane)) :
  length g_row = Z.to_nat Ng -> array_shape4 Ng res res n_avg all ->
  array_shape4 Ng res res n_avg (add_row4 g_row ix iy index all).
Proof.
  intros Hg [Hlen Hall]. unfold add_row4. split.
  - rewrite length_zip_with. lia.
  - apply (Forall_zip_with_snd _ (array_shape3 res res n_avg));
      [| exact Hall].
    apply Forall_true. intros gn a3 [Hlen3 Hrows3]. split.
    + rewrite length_alter. exact Hlen3.
    + apply Forall_alter; [exact Hrows3 |]. intros p _ Hp.
      apply alter_shape2, Hp.
Qed.

(** The fourth array keeps its shape when it is allocated. *)
Abbreviation all_ok := (fun (Ng res n_avg : Z) (flag : bool) (b : bins F) =>
  flag = true -> array_shape4 Ng res res n_avg (all_activations b)).

Lemma bin_sample_all (opts : options F) (res Ng n_avg : Z) (flag : bool)
    (index : Z) (b b' : bins F) (smp : sample F) :
  Z.of_nat (length smp.2) = Ng ->
  bin_sample opts res flag index b smp = Ok b' ->
  all_ok Ng res n_avg flag b -> all_ok Ng res n_avg flag b'.
Proof.
  destruct smp as [[px py] g_row]. cbn [snd]. intros Hg.
  unfold bin_sample. destruct (in_grid _ _ res).
  - destruct (py_index res (to_int (bin_coordinate px (box_width opts) res)))
      as [ix | e]; [| discriminate].
    destruct (py_index res (to_int (bin_coordinate py (box_height opts) res)))
      as [iy | e]; [| discriminate].
    cbn [mbind result_bind]. intros [= <-] Hok Hflag.
    cbn [all_activations]. rewrite Hflag.
    apply add_row4_shape; [lia | apply Hok, Hflag].
  - intros [= <-] Hok Hflag. apply Hok, Hflag.
Qed.

Lemma bin_samples_all (opts : options F) (res Ng n_avg : Z) (flag : bool)
    (index : Z) (batch : list (sample F)) (b b' : bins F) :
  Forall (fun smp : sample F => Z.of_nat (length smp.2) = Ng) batch ->
  bin_samples opts res flag index b batch = Ok b' ->
  all_ok Ng res n_avg flag b -> all_ok Ng res n_avg flag b'.
Proof.
  intros Hfit. revert b. induction Hfit as [|smp batch Hg _ IH]; intros b.
  - cbn. intros [= <-]. auto.
  - cbn [bin_samples].
    destruct (bin_sample opts res flag index b smp) as [b1 | e] eqn:E1;
      [| discriminate].
    cbn [mbind result_bind]. intros Hb Hok.
    apply (IH b1 Hb).
    exact (bin_sample_all opts res Ng n_avg flag index b b1 smp Hg E1 Hok).
Qed.

Lemma bin_batches_all (batch_at : Z -> list (sample F)) (opts : options F)
    (res Ng n_avg : Z) (flag : bool) (l : list Z) (b b' : bins F) :
  Forall (fun index => fits opts Ng (batch_at index) = true) l ->
  for_each (bin_batches batch_at opts res Ng flag) l b = Ok b' ->
  all_ok Ng res n_avg flag b -> all_ok Ng res n_avg flag b'.
Proof.
  intros Hfit. revert b. induction Hfit as [|index l Hf _ IH]; intros b.
  - cbn. intros [= <-]. auto.
  - cbn [for_each]. unfold bin_batches at 2. rewrite Hf.
    destruct (bin_samples opts res flag index b (batch_at index))
      as [b1 | e] eqn:E1; [| discriminate].
    cbn [mbind result_bind]. intros Hb Hok. apply (IH b1 Hb).
    exact (bin_samples_all opts res Ng n_avg flag index (batch_at index) b b1
             (VisualizeFacts.fits_true _ _ _ Hf) E1 Hok).
Qed.

Lemma zeros4_shape (Ng res n_avg : Z) :
  array_shape4 Ng res res n_avg (np_zeros4 Ng res res n_avg).
Proof.
  unfold np_zeros4, np_zeros3, np_zeros2.
  split; [apply length_replicate |]. apply Forall_replicate.
  split; [apply length_replicate |]. apply Forall_replicate.
  split; [apply length_replicate |]. apply Forall_replicate.
  apply length_replicate.
Qed.

Lemma fits_length (opts : options F) (Ng : Z) (batch : list (sample F)) :
  fits opts Ng batch = true ->
  Z.of_nat (length batch) = batch_size opts * sequence_length opts.
Proof.
  unfold fits. intros Hf. apply andb_prop in Hf as [Hlen _]. lia.
Qed.

Lemma stacked_rows {A} (proj : sample F -> A) (batch_at : Z -> list (sample F))
    (opts : options F) (n_avg Ng : Z) :
  0 <= n_avg -> 0 <= batch_size opts * sequence_length opts ->
  (forall index, 0 <= index < n_avg ->
     fits opts Ng (batch_at index) = true) ->
  let rows := mjoin ((fun index => proj <$> batch_at index)
                       <$> py_range 0 n_avg) in
  length rows
  = Z.to_nat (n_avg * (batch_size opts * sequence_length opts))
  /\ forall index i smp,
       0 <= index < n_avg ->
       batch_at index !! i = Some smp ->
       rows !! (Z.to_nat (index * (batch_size opts * sequence_length opts))
                + i)%nat
       = Some (proj smp).
Proof.
  intros Havg Hbs Hfits rows. set (m := batch_size opts * sequence_length opts).
  assert (Hall : Forall (fun l : list A => length l = Z.to_nat m)
                   ((fun index => proj <$> batch_at index)
                      <$> py_range 0 n_avg)).
  { apply Forall_fmap, Forall_forall.
    intros index Hin%VisualizeFacts.elem_of_py_range. cbn.
    rewrite length_fmap.
    pose proof (fits_length opts Ng _ (Hfits index Hin)). fold m in H0. lia. }
  split.
  - unfold rows.
    rewrite (SyntheticFacts.length_join_same _ _ Hall), length_fmap,
      SyntheticFacts.length_py_range. nia.
  - intros index i smp Hindex Hsmp.
    replace (Z.to_nat (index * m)) with (Z.to_nat index * Z.to_nat m)%nat
      by nia.
    apply (join_lookup_Some_same_length' (Z.to_nat m)); [exact Hall | |].
    + apply lookup_lt_Some in Hsmp.
      pose proof (fits_length opts Ng _ (Hfits index Hindex)). fold m in H0.
      lia.
    + exists (proj <$> batch_at index). split.
      * rewrite list_lookup_fmap,
          (SyntheticFacts.lookup_py_range _ _ Hindex). reflexivity.
      * rewrite list_lookup_fmap, Hsmp. reflexivity.
Qed.

Lemma normalize_shape (cnt : plane) (res Ng : Z) (acts : list plane) :
  plane_shape res cnt -> acts_shape res Ng acts ->
  exists acts', normalize cnt res acts = Ok acts' /\ acts_shape res Ng acts'.
Proof.
  intros [Hlen Hrows] Hacts. unfold normalize.
  apply (VisualizeFacts.for_each_inv (acts_shape res Ng)); [| exact Hacts].
  intros x acts1 Hx%VisualizeFacts.elem_of_py_range Hacts1.
  apply (VisualizeFacts.for_each_inv (acts_shape res Ng)); [| exact Hacts1].
  intros y acts2 Hy%VisualizeFacts.elem_of_py_range [Hlen2 Hshape2].
  destruct (lookup_lt_is_Some_2 cnt (Z.to_nat x) ltac:(lia)) as [row Hrow].
  assert (Hrlen : length row = Z.to_nat res).
  { eapply (Forall_lookup_1 _ _ _ _ Hrows). exact Hrow. }
  destruct (lookup_lt_is_Some_2 row (Z.to_nat y) ltac:(lia)) as [c Hc].
  unfold normalize_bin.
  rewrite Hlen, (VisualizeFacts.py_index_ok _ x) by lia.
  cbn [mbind result_bind]. rewrite Hrow. cbn [mbind result_bind].
  rewrite Hrlen, (VisualizeFacts.py_index_ok _ y) by lia.
  cbn [mbind result_bind]. rewrite Hc. cbn [mbind result_bind].
  destruct (flt (of_int 0) c); eexists; (split; [reflexivity |]).
  - split; [rewrite length_map; exact Hlen2 |].
    apply Forall_map. eapply Forall_impl; [exact Hshape2 |].
    intros a Ha. apply VisualizeFacts.update2_shape. exact Ha.
  - split; assumption.
Qed.

Lemma reshape_rows_shape (res Ng : Z) (acts : list plane) :
  0 <= res ->
  array_shape3 Ng res res acts ->
  array_shape2 Ng (res * res) (reshape_rows acts).
Proof.
  intros Hres [Hlen Hall]. unfold reshape_rows. split.
  - rewrite length_map. exact Hlen.
  - apply Forall_map. eapply Forall_impl; [exact Hall |].
    intros a [Ha Hrows]. cbn.
    rewrite (SyntheticFacts.length_join_same _ _ Hrows), Ha. nia.
Qed.

(** On batches of the expected shape compute_ratemaps returns arrays of
    these shapes: the activations [Ng, res, res] (with the flag on:
    all_activations, [Ng, res, res, n_avg]), rate_map [Ng, res * res], g
    [n_avg * batch_size * sequence_length, Ng] and pos with as many rows
    as g; row index * batch_size * sequence_length + i of g and pos holds
    the activations and the position of sample i of batch index. *)
Theorem compute_ratemaps_shapes (test_batch : Z -> list (sample F))
    (opts : options F) (res : Z) (n_avg0 : option Z) (n_avg Ng : Z)
    (all_activations_flag : bool) :
  default_n_avg opts n_avg0 = Ok n_avg ->
  0 <= n_avg -> 0 <= batch_size opts * sequence_length opts ->
  0 <= Ng -> 0 <= res ->
  (forall index, 0 <= index < n_avg ->
     fits opts Ng (test_batch index) = true) ->
  exists r,
    Visualize.compute_ratemaps test_batch opts res n_avg0 Ng
      all_activations_flag = Ok r
    /\ match returned_activations r with
       | inl acts =>
           all_activations_flag = false /\ array_shape3 Ng res res acts
       | inr all =>
           all_activations_flag = true /\ array_shape4 Ng res res n_avg all
       end
    /\ array_shape2 Ng (res * res) (rate_map r)
    /\ array_shape2 (n_avg * (batch_size opts * sequence_length opts)) Ng
         (g r)
    /\ length (pos r)
       = Z.to_nat (n_avg * (batch_size opts * sequence_length opts))
    /\ forall index i px py g_row,
         0 <= index < n_avg ->
         test_batch index !! i = Some (px, py, g_row) ->
         let k := (Z.to_nat (index * (batch_size opts * sequence_length opts))
                   + i)%nat in
         g r !! k = Some g_row /\ pos r !! k = Some (px, py).
Proof.
  intros Hdefault Havg Hbs HNg Hres Hfits.
  unfold Visualize.compute_ratemaps. rewrite Hdefault.
  cbn [mbind result_bind]. unfold accumulate.
  rewrite VisualizeFacts.check_dims_ok by assumption.
  cbn [mbind result_bind].
  assert (Hall : Forall (fun index => fits opts Ng (test_batch index) = true)
                   (py_range 0 n_avg)).
  { apply Forall_forall.
    intros index Hin%VisualizeFacts.elem_of_py_range. auto. }
  destruct (VisualizeFacts.bin_batches_inv to_int_in_grid test_batch opts res
              Ng all_activations_flag (py_range 0 n_avg) _ Hall
              (VisualizeFacts.zeros_shape res Ng (np_zeros4 Ng res res n_avg)))
    as (b & Eb & (Hcnt & Hlen & Hshape) & _).
  rewrite Eb. cbn [mbind result_bind].
  destruct (normalize_shape (counts b) res Ng (activations b)
              Hcnt (conj Hlen Hshape)) as (acts & Eacts & Hacts).
  rewrite Eacts. cbn [mbind result_bind]. eexists. split; [reflexivity |].
  cbn [returned_activations rate_map g pos].
  destruct (stacked_rows (fun smp : sample F => smp.2) test_batch opts n_avg Ng
              Havg Hbs Hfits) as [Hglen Hgrow].
  destruct (stacked_rows (fun smp : sample F => smp.1) test_batch opts n_avg Ng
              Havg Hbs Hfits) as [Hplen Hprow].
  split; [| split; [| split; [| split]]].
  - destruct all_activations_flag eqn:Hflag.
    + split; [reflexivity |].
      apply (bin_batches_all test_batch opts res Ng n_avg true
               (py_range 0 n_avg) _ b Hall Eb); [| reflexivity].
      intros _. apply zeros4_shape.
    + split; [reflexivity | exact Hacts].
  - apply reshape_rows_shape; assumption.
  - split; [exact Hglen |]. unfold stack_g.
    apply Forall_join, Forall_fmap, Forall_forall.
    intros index Hin%VisualizeFacts.elem_of_py_range. cbn.
    apply Forall_fmap. eapply Forall_impl;
      [exact (VisualizeFacts.fits_true _ _ _ (Hfits index Hin)) |].
    intros smp Hsmp. cbn in Hsmp |- *. lia.
  - exact Hplen.
  - intros index i px py g_row Hindex Hsmp. cbv zeta. split.
    + exact (Hgrow index i _ Hindex Hsmp).
    + exact (Hprow index i _ Hindex Hsmp).
Qed.

End Ratemaps.

Lemma compute_ratemaps_shapes_witness :
  default_n_avg options0 (Some 1) = Ok 1
  /\ 0 <= batch_size options0 * sequence_length options0
  /\ (forall index, 0 <= index < 1 -> fits options0 1 (batch0 index) = true)
  /\ exists r,
       Visualize.compute_ratemaps batch0 options0 2 (Some 1) 1 true = Ok r
       /\ match returned_activations r with
          | inl acts => true = false /\ array_shape3 1 2 2 acts
          | inr all => true = true /\ array_shape4 1 2 2 1 all
          end
       /\ array_shape2 1 (2 * 2) (rate_map r)
       /\ array_shape2
            (1 * (batch_size options0 * sequence_length options0)) 1 (g r)
       /\ length (pos r)
          = Z.to_nat (1 * (batch_size options0 * sequence_length options0))
       /\ forall index i px py g_row,
            0 <= index < 1 ->
            batch0 index !! i = Some (px, py, g_row) ->
            let k := (Z.to_nat (index * (batch_size options0
                                         * sequence_length options0))
                      + i)%nat in
            g r !! k = Some g_row /\ pos r !! k = Some (px, py).
Proof.
  assert (Hsize : 0 <= batch_size options0 * sequence_length options0)
    by (cbn; lia).
  assert (Hfits : forall index, 0 <= index < 1 ->
                    fits options0 1 (batch0 index) = true)
    by (intros index _; reflexivity).
  split; [reflexivity |]. split; [exact Hsize |]. split; [exact Hfits |].
  apply (compute_ratemaps_shapes VisualizeFacts.Q_to_int_in_grid batch0
           options0 2 (Some 1) 1 1 true eq_refl);
    [lia | exact Hsize | lia | lia | exact Hfits].
Defined.

End VisualizeMoreFacts.

(** ** concat_images, concat_images_in_rows and plot_ratemaps *)

Module PlotsFacts.
Import Visualize VisualizeShapes Plots Samples PlotSamples.
Section Pictures.
Context {F : Type} `{PyFloat F}.
Variable rgb : list (list F) -> picture.
Variable test_batch : Z -> list (sample F).
Variable py_str : Z -> string.
Abbreviation plot_ratemaps := (Plots.plot_ratemaps rgb).
Abbreviation save_ratemaps := (Plots.save_ratemaps rgb test_batch py_str).

Lemma np_ones_255_shape (h w : Z) :
  0 <= h -> 0 <= w ->
  exists p, np_ones_255 h w = Ok p /\ has_shape h w p.
Proof.
  intros Hh Hw. unfold np_ones_255.
  replace ((0 <=? h) && (0 <=? w)) with true by lia.
  eexists. split; [reflexivity |]. split; [reflexivity |].
  split; [reflexivity |]. unfold well_formed. cbn [height width pixels].
  split; [exact Hh |]. split; [exact Hw |]. split; [apply length_replicate |].
  apply Forall_replicate, length_replicate.
Qed.

(** The loops of both functions: one item per index, and the spacer
    after every item except the last. *)
Lemma interleave_loop {A} (item : Z -> result A) (f : Z -> A) (spacer : A)
    (n : Z) (m : nat) (k : Z) (acc : list A) :
  k + Z.of_nat m = n ->
  (forall i, k <= i < n -> item i = Ok (f i)) ->
  for_each (fun i acc =>
              x ← item i;
              Ok (if i =? n - 1 then (acc ++ [x])%list
                  else (acc ++ [x; spacer])%list))
    (seqZ k (Z.of_nat m)) acc
  = Ok (acc ++ interleave spacer (f <$> seqZ k (Z.of_nat m)))%list.
Proof.
  revert k acc. induction m as [|m IH]; intros k acc Hk Hitem.
  - cbn. rewrite app_nil_r. reflexivity.
  - rewrite seqZ_cons by lia. cbn [for_each fmap list_fmap].
    rewrite (Hitem k) by lia. cbn [mbind result_bind].
    replace (Z.pred (Z.of_nat (S m))) with (Z.of_nat m) by lia.
    destruct m as [|m'].
    + replace (k =? n - 1) with true by lia. cbn. reflexivity.
    + replace (k =? n - 1) with false by lia.
      rewrite (IH (Z.succ k)) by (try lia; intros i Hi; apply Hitem; lia).
      rewrite <- app_assoc. cbn [app]. f_equal. f_equal.
      rewrite (seqZ_cons (Z.succ k)) by lia. reflexivity.
Qed.

Lemma getitem_range {A} (l : list A) (i : Z) (d : A) :
  0 <= i < Z.of_nat (length l) ->
  getitem l i = Ok (default d (l !! Z.to_nat i)).
Proof.
  intros Hi. unfold getitem.
  destruct (lookup_lt_is_Some_2 l (Z.to_nat i) ltac:(lia)) as [a ->].
  reflexivity.
Qed.

Lemma fmap_lookup_range {A} (l : list A) (d : A) :
  (fun i => default d (l !! Z.to_nat i)) <$> py_range 0 (Z.of_nat (length l))
  = l.
Proof.
  apply list_eq. intros k. rewrite list_lookup_fmap. unfold py_range.
  destruct (l !! k) as [a|] eqn:Hk.
  - rewrite lookup_seqZ_lt
      by (apply lookup_lt_Some in Hk; lia).
    cbn. replace (Z.to_nat (0 + Z.of_nat k)) with k by lia.
    rewrite Hk. reflexivity.
  - rewrite lookup_seqZ_ge; [reflexivity |].
    apply lookup_ge_None in Hk. lia.
Qed.

(** concat_images without its loop. *)
Lemma concat_images_interleave (images : list picture)
    (image_width spacer_size : Z) :
  concat_images images image_width spacer_size
  = spacer ← np_ones_255 image_width spacer_size;
    np_hstack (interleave spacer images).
Proof.
  unfold concat_images.
  destruct (np_ones_255 image_width spacer_size) as [spacer | e];
    [| reflexivity].
  cbn [mbind result_bind]. unfold add_image, py_range.
  rewrite Z.sub_0_r.
  rewrite (interleave_loop (getitem images)
             (fun i => default spacer (images !! Z.to_nat i)) spacer
             (Z.of_nat (length images)) (length images) 0 [])
    by (try lia; intros i Hi; apply getitem_range; lia).
  cbn [app mbind result_bind].
  pose proof (fmap_lookup_range images spacer) as Hl.
  unfold py_range in Hl. rewrite Z.sub_0_r in Hl. rewrite Hl. reflexivity.
Qed.

Lemma interleave_cons2 {A} (spacer x y : A) (l : list A) :
  interleave spacer (x :: y :: l) = x :: spacer :: interleave spacer (y :: l).
Proof. reflexivity. Qed.

Lemma interleave_ind {A} (P : list A -> Prop) :
  P [] -> (forall x, P [x]) ->
  (forall x y l, P (y :: l) -> P (x :: y :: l)) ->
  forall l, P l.
Proof.
  intros Hnil Hone Hcons l. induction l as [|x [|y l] IH]; auto.
Qed.

Lemma Forall_interleave {A} (P : A -> Prop) (spacer : A) (l : list A) :
  P spacer -> Forall P l -> Forall P (interleave spacer l).
Proof.
  intros Hs. induction l as [| x | x y l IH] using interleave_ind;
    intros Hl; [constructor | exact Hl |].
  rewrite interleave_cons2. apply Forall_cons in Hl as [Hx Hl].
  constructor; [exact Hx |]. constructor; [exact Hs |]. apply IH, Hl.
Qed.

Lemma interleave_not_nil {A} (spacer : A) (l : list A) :
  l <> [] -> interleave spacer l <> [].
Proof. destruct l as [|x [|y l]]; [congruence | discriminate..]. Qed.

Lemma fmap_interleave {A B} (f : A -> B) (spacer : A) (l : list A) :
  f <$> interleave spacer l = interleave (f spacer) (f <$> l).
Proof.
  induction l as [| x | x y l IH] using interleave_ind; [reflexivity.. |].
  rewrite interleave_cons2. cbn [fmap list_fmap] in IH |- *.
  rewrite interleave_cons2, IH. reflexivity.
Qed.

Lemma total_width_cons (q : picture) (l : list picture) :
  total_width (q :: l) = width q + total_width l.
Proof. reflexivity. Qed.

Lemma total_height_cons (q : picture) (l : list picture) :
  total_height (q :: l) = height q + total_height l.
Proof. reflexivity. Qed.

Lemma total_width_interleave (spacer : picture) (l : list picture) :
  l <> [] ->
  total_width (interleave spacer l)
  = total_width l + (Z.of_nat (length l) - 1) * width spacer.
Proof.
  induction l as [| x | x y l IH] using interleave_ind; intros Hne;
    [congruence | cbn; lia |].
  rewrite interleave_cons2, !total_width_cons, IH by discriminate.
  rewrite total_width_cons. cbn [length]. lia.
Qed.

Lemma total_height_interleave (spacer : picture) (l : list picture) :
  l <> [] ->
  total_height (interleave spacer l)
  = total_height l + (Z.of_nat (length l) - 1) * height spacer.
Proof.
  induction l as [| x | x y l IH] using interleave_ind; intros Hne;
    [congruence | cbn; lia |].
  rewrite interleave_cons2, !total_height_cons, IH by discriminate.
  rewrite total_height_cons. cbn [length]. lia.
Qed.

Lemma total_width_same (w : Z) (l : list picture) :
  Forall (fun q => width q = w) l ->
  total_width l = Z.of_nat (length l) * w.
Proof.
  induction 1 as [|q l Hq _ IH]; [reflexivity |].
  rewrite total_width_cons, IH, Hq. cbn [length]. lia.
Qed.

Lemma total_height_same (h : Z) (l : list picture) :
  Forall (fun q => height q = h) l ->
  total_height l = Z.of_nat (length l) * h.
Proof.
  induction 1 as [|q l Hq _ IH]; [reflexivity |].
  rewrite total_height_cons, IH, Hq. cbn [length]. lia.
Qed.

Lemma total_width_nonneg (l : list picture) :
  Forall well_formed l -> 0 <= total_width l.
Proof.
  induction 1 as [|q l (_ & Hq & _) _ IH]; [reflexivity |].
  rewrite total_width_cons. lia.
Qed.

Lemma total_height_nonneg (l : list picture) :
  Forall well_formed l -> 0 <= total_height l.
Proof.
  induction 1 as [|q l (Hq & _) _ IH]; [reflexivity |].
  rewrite total_height_cons. lia.
Qed.

Lemma beside_length (l : list picture) (h : Z) (r : nat) :
  Forall (fun q => height q = h /\ well_formed q) l ->
  (r < Z.to_nat h)%nat ->
  length (beside l r) = Z.to_nat (total_width l).
Proof.
  intros Hl Hr. induction Hl as [|q l [Hh Hq] Hl IH]; [reflexivity |].
  change (beside (q :: l) r)
    with (default [] (pixels q !! r) ++ beside l r)%list.
  rewrite length_app, IH, total_width_cons.
  pose proof (total_width_nonneg l
                (Forall_impl _ _ _ Hl (fun _ Hq => proj2 Hq))) as Hw.
  destruct Hq as (_ & Hwq & Hlen & Hrows).
  destruct (lookup_lt_is_Some_2 (pixels q) r ltac:(lia)) as [row Hrow].
  rewrite Hrow. cbn [default from_option id].
  rewrite (Forall_lookup_1 _ _ _ _ Hrows Hrow). lia.
Qed.

Lemma forallb_true_Forall {A} (f : A -> bool) (l : list A) :
  Forall (fun a => f a = true) l -> forallb f l = true.
Proof.
  induction 1 as [|a l Ha _ IH]; [reflexivity |].
  cbn [forallb]. rewrite Ha, IH. reflexivity.
Qed.

(** np.hstack of arrays of one height. *)
Lemma np_hstack_shape (l : list picture) (h : Z) :
  l <> [] -> Forall (fun q => height q = h /\ well_formed q) l ->
  np_hstack l
  = Ok {| height := h; width := total_width l;
          pixels := beside l <$> seq 0 (Z.to_nat h) |}
  /\ has_shape h (total_width l)
       {| height := h; width := total_width l;
          pixels := beside l <$> seq 0 (Z.to_nat h) |}.
Proof.
  intros Hne Hl. destruct l as [|p rest]; [congruence |].
  pose proof Hl as Hl'. apply Forall_cons in Hl' as [[Hp Hwf] Hrest].
  unfold np_hstack. rewrite forallb_true_Forall.
  - rewrite Hp. split; [reflexivity |].
    split; [reflexivity |]. split; [reflexivity |].
    unfold well_formed. cbn [height width pixels].
    split; [destruct Hwf; lia |].
    split.
    { apply total_width_nonneg. eapply Forall_impl; [exact Hl |].
      intros q Hq. apply Hq. }
    split; [rewrite length_fmap, length_seq; reflexivity |].
    apply Forall_fmap, Forall_forall. intros r Hr%elem_of_seq.
    apply (beside_length _ h); [exact Hl | lia].
  - eapply Forall_impl; [exact Hrest |]. intros q [Hq _]. cbn. lia.
Qed.

Lemma length_join_pixels (l : list picture) :
  Forall well_formed l ->
  length (mjoin (pixels <$> l)) = Z.to_nat (total_height l).
Proof.
  induction 1 as [|q l Hq Hl IH]; [reflexivity |].
  rewrite fmap_cons.
  change (mjoin (pixels q :: (pixels <$> l)))
    with (pixels q ++ mjoin (pixels <$> l))%list.
  rewrite length_app, IH, total_height_cons.
  pose proof (total_height_nonneg l Hl) as Hh.
  destruct Hq as (Hhq & _ & Hlen & _). lia.
Qed.

(** np.vstack of arrays of one width. *)
Lemma np_vstack_shape (l : list picture) (w : Z) :
  l <> [] -> Forall (fun q => width q = w /\ well_formed q) l ->
  np_vstack l
  = Ok {| height := total_height l; width := w;
          pixels := mjoin (pixels <$> l) |}
  /\ has_shape (total_height l) w
       {| height := total_height l; width := w;
          pixels := mjoin (pixels <$> l) |}.
Proof.
  intros Hne Hl. destruct l as [|p rest]; [congruence |].
  pose proof Hl as Hl'. apply Forall_cons in Hl' as [[Hp Hwf] Hrest].
  unfold np_vstack. rewrite forallb_true_Forall.
  - rewrite Hp. split; [reflexivity |].
    split; [reflexivity |]. split; [reflexivity |].
    unfold well_formed. cbn [height width pixels].
    assert (Hwfs : Forall well_formed (p :: rest)).
    { eapply Forall_impl; [exact Hl |]. intros q Hq. apply Hq. }
    split; [apply total_height_nonneg, Hwfs |].
    split; [destruct Hwf as (_ & Hw & _); lia |].
    split.
    + apply length_join_pixels, Hwfs.
    + apply Forall_join, Forall_fmap. eapply Forall_impl; [exact Hl |].
      intros q (Hq & _ & _ & _ & Hrows). cbn. rewrite <- Hq. exact Hrows.
  - eapply Forall_impl; [exact Hrest |]. intros q [Hq _]. cbn. lia.
Qed.

Lemma np_ones_255_value (h w : Z) :
  0 <= h -> 0 <= w ->
  np_ones_255 h w
  = Ok {| height := h; width := w;
          pixels := replicate (Z.to_nat h) (replicate (Z.to_nat w) white) |}.
Proof.
  intros Hh Hw. unfold np_ones_255.
  replace ((0 <=? h) && (0 <=? w)) with true by lia. reflexivity.
Qed.

(** The value of concat_images on images of the height of the spacer. *)
Lemma concat_images_value (images : list picture)
    (image_width spacer_size : Z) :
  images <> [] ->
  Forall (fun q => height q = image_width /\ well_formed q) images ->
  0 <= spacer_size ->
  exists p,
    concat_images images image_width spacer_size = Ok p
    /\ has_shape image_width
         (total_width images
          + (Z.of_nat (length images) - 1) * spacer_size) p
    /\ forall r : nat,
         (r < Z.to_nat image_width)%nat ->
         pixels p !! r
         = Some (mjoin (interleave (replicate (Z.to_nat spacer_size) white)
                          ((fun q => default [] (pixels q !! r))
                             <$> images))).
Proof.
  intros Hne Himages Hs.
  assert (Hw : 0 <= image_width).
  { destruct images as [|q rest]; [congruence |].
    apply Forall_cons in Himages as [[Hq (Hh & _)] _]. lia. }
  rewrite concat_images_interleave, (np_ones_255_value _ _ Hw Hs).
  cbn [mbind result_bind].
  destruct (np_ones_255_shape image_width spacer_size Hw Hs)
    as (spacer & Espacer & Hsh & Hsw & Hswf).
  rewrite (np_ones_255_value _ _ Hw Hs) in Espacer.
  injection Espacer as Espacer. rewrite Espacer.
  destruct (np_hstack_shape (interleave spacer images) image_width
              (interleave_not_nil spacer images Hne)
              (Forall_interleave _ spacer images (conj Hsh Hswf) Himages))
    as [Eh Hshape].
  rewrite (total_width_interleave spacer images Hne), Hsw in Hshape, Eh.
  eexists. split; [exact Eh |].
  split; [exact Hshape |]. intros r Hr. cbn [pixels].
  rewrite list_lookup_fmap, lookup_seq_lt by exact Hr. cbn [fmap option_fmap option_map].
  unfold beside. rewrite fmap_interleave. do 3 f_equal.
  rewrite <- Espacer. cbn [pixels].
  rewrite lookup_replicate_2 by exact Hr. reflexivity.
Qed.

(** concat_images on images as high as the spacer (image_width rows)
    returns a picture of image_width rows whose width is the sum of the
    widths plus one spacer between neighbours; every row is the rows of
    the images from left to right with spacer_size white pixels between
    them. *)
Theorem concat_images_shape (images : list picture)
    (image_width spacer_size : Z) :
  images <> [] ->
  Forall (fun q => height q = image_width /\ well_formed q) images ->
  0 <= spacer_size ->
  exists p,
    concat_images images image_width spacer_size = Ok p
    /\ has_shape image_width
         (total_width images
          + (Z.of_nat (length images) - 1) * spacer_size) p
    /\ forall r : nat,
         (r < Z.to_nat image_width)%nat ->
         pixels p !! r
         = Some (mjoin (interleave (replicate (Z.to_nat spacer_size) white)
                          ((fun q => default [] (pixels q !! r))
                             <$> images))).
Proof. apply concat_images_value. Qed.

Lemma elem_of_interleave {A} (spacer x : A) (l : list A) :
  x ∈ l -> x ∈ interleave spacer l.
Proof.
  induction l as [| y | y z l IH] using interleave_ind; intros Hx;
    [exact Hx | exact Hx |].
  rewrite interleave_cons2. apply elem_of_cons in Hx as [-> | Hx].
  - constructor.
  - do 2 constructor. apply IH, Hx.
Qed.

Lemma forallb_false_elem {A} (f : A -> bool) (l : list A) (x : A) :
  x ∈ l -> f x = false -> forallb f l = false.
Proof.
  intros Hx Hf. destruct (forallb f l) eqn:E; [| reflexivity].
  rewrite forallb_forall in E. rewrite E in Hf; [discriminate |].
  apply list_elem_of_In, Hx.
Qed.

(** concat_images raises ValueError on an empty list, and on two or more
    images as soon as one of them is not image_width pixels high: the
    spacer between them has image_width rows, so image_width is the
    height that the images must have. *)
Theorem concat_images_errors :
  (forall image_width spacer_size,
     exists msg,
       concat_images [] image_width spacer_size = Raise (ValueError msg))
  /\ (forall images image_width spacer_size,
        (2 <= length images)%nat ->
        Exists (fun q => height q <> image_width) images ->
        exists msg,
          concat_images images image_width spacer_size
          = Raise (ValueError msg)).
Proof.
  split.
  - intros image_width spacer_size. rewrite concat_images_interleave.
    unfold np_ones_255.
    destruct ((0 <=? image_width) && (0 <=? spacer_size));
      eexists; reflexivity.
  - intros images image_width spacer_size Hlen Hbad.
    rewrite concat_images_interleave. unfold np_ones_255.
    destruct ((0 <=? image_width) && (0 <=? spacer_size));
      [| eexists; reflexivity].
    cbn [mbind result_bind].
    destruct images as [|p [|q rest]]; [cbn in Hlen; lia.. |].
    rewrite interleave_cons2. unfold np_hstack.
    set (spacer := {| height := image_width |}).
    replace (forallb _ _) with false; [eexists; reflexivity |].
    symmetry. destruct (Z.eq_dec (height p) image_width) as [Hp | Hp].
    + apply Exists_cons in Hbad as [Hbad | Hbad]; [contradiction |].
      apply Exists_exists in Hbad as (x & Hx & Hhx).
      apply (forallb_false_elem _ _ x); [| lia].
      constructor. apply elem_of_interleave, Hx.
    + apply (forallb_false_elem _ _ spacer); [constructor |].
      cbn [spacer height]. lia.
Qed.

Lemma py_slice_inside {A} (l : list A) (a b : Z) :
  0 <= a <= b -> b <= Z.of_nat (length l) ->
  py_slice l a b = take (Z.to_nat (b - a)) (drop (Z.to_nat a) l).
Proof.
  intros Ha Hb. unfold py_slice.
  replace (a <? 0) with false by lia. replace (b <? 0) with false by lia.
  rewrite !Z.min_l by lia. reflexivity.
Qed.

Lemma for_each_ext {S} (body1 body2 : Z -> S -> result S) (l : list Z)
    (s : S) :
  (forall i s, i ∈ l -> body1 i s = body2 i s) ->
  for_each body1 l s = for_each body2 l s.
Proof.
  revert s. induction l as [|i l IH]; intros s Hext; [reflexivity |].
  cbn [for_each]. rewrite (Hext i s) by constructor.
  destruct (body2 i s) as [s' | e]; [| reflexivity].
  cbn [mbind result_bind]. apply IH. intros j s2 Hj. apply Hext.
  constructor. exact Hj.
Qed.

Lemma concat_images_nil (image_width spacer_size : Z) :
  exists msg,
    concat_images [] image_width spacer_size = Raise (ValueError msg).
Proof.
  rewrite concat_images_interleave. unfold np_ones_255.
  destruct ((0 <=? image_width) && (0 <=? spacer_size)); eexists; reflexivity.
Qed.

(** A row of concat_images_in_rows. *)
Abbreviation row_images images column_size row :=
  (py_slice images (column_size * row) (column_size * row + column_size)).

(** concat_images_in_rows without its loop, when every row succeeds. *)
Lemma concat_images_in_rows_interleave (images : list picture)
    (row_size image_width spacer_size : Z) (f : Z -> picture) :
  1 <= row_size ->
  (forall row, 0 <= row < row_size ->
     concat_images
       (row_images images (Z.of_nat (length images) / row_size) row)
       image_width spacer_size = Ok (f row)) ->
  concat_images_in_rows images row_size image_width spacer_size
  = spacer_h ←
      np_ones_255 spacer_size
        (image_width * (Z.of_nat (length images) / row_size)
         + (Z.of_nat (length images) / row_size - 1) * spacer_size);
    np_vstack (interleave spacer_h (f <$> py_range 0 row_size)).
Proof.
  intros Hrows Hf. unfold concat_images_in_rows, py_floordiv.
  replace (row_size =? 0) with false by lia. cbn [mbind result_bind].
  destruct (np_ones_255 _ _) as [spacer_h | e]; [| reflexivity].
  cbn [mbind result_bind]. unfold py_range. rewrite Z.sub_0_r.
  pose proof (interleave_loop
                (fun row => concat_images
                   (row_images images (Z.of_nat (length images) / row_size)
                      row)
                   image_width spacer_size)
                f spacer_h row_size (Z.to_nat row_size) 0 [] ltac:(lia)
                ltac:(intros row Hrow; apply Hf; lia)) as E.
  replace (Z.of_nat (Z.to_nat row_size)) with row_size in E by lia.
  cbn [app] in E.
  match goal with
  | |- context [for_each ?b ?l ?a] =>
      replace (for_each b l a)
        with (Ok (interleave spacer_h (f <$> seqZ 0 row_size)))
        by (symmetry; exact E)
  end.
  reflexivity.
Qed.

Lemma row_images_inside (images : list picture) (row_size row : Z) :
  1 <= row_size -> 0 <= row < row_size ->
  let c := Z.of_nat (length images) / row_size in
  row_images images c row
  = take (Z.to_nat c) (drop (Z.to_nat (c * row)) images).
Proof.
  intros Hrows Hrow c.
  assert (Hc : 0 <= c) by (apply Z.div_pos; lia).
  assert (Hle : c * row_size <= Z.of_nat (length images))
    by (rewrite Z.mul_comm; apply Z.mul_div_le; lia).
  rewrite py_slice_inside by nia. do 2 f_equal. lia.
Qed.

(** The value of concat_images_in_rows on square images. *)
Lemma concat_images_in_rows_value (images : list picture)
    (row_size image_width spacer_size : Z) :
  1 <= row_size <= Z.of_nat (length images) ->
  Forall (has_shape image_width image_width) images ->
  0 <= spacer_size ->
  let column_size := Z.of_nat (length images) / row_size in
  exists p,
    concat_images_in_rows images row_size image_width spacer_size = Ok p
    /\ has_shape
         (row_size * image_width + (row_size - 1) * spacer_size)
         (column_size * image_width + (column_size - 1) * spacer_size) p.
Proof.
  intros Hrows Himages Hs c.
  assert (Hc : 1 <= c) by (apply Z.div_le_lower_bound; lia).
  assert (Ec : c = Z.of_nat (length images) / row_size) by reflexivity.
  clearbody c.
  assert (Hw : 0 <= image_width).
  { destruct images as [|q rest]; [cbn in Hrows; lia |].
    apply Forall_cons in Himages as [(Hq & _ & Hh & _) _]. lia. }
  set (W := c * image_width + (c - 1) * spacer_size).
  assert (Hrow : forall row, 0 <= row < row_size ->
            exists p,
              concat_images (row_images images c row) image_width spacer_size
              = Ok p /\ has_shape image_width W p).
  { intros row Hr. rewrite Ec.
    rewrite (row_images_inside images row_size row) by lia. rewrite <- Ec.
    set (slice := take (Z.to_nat c) (drop (Z.to_nat (c * row)) images)).
    assert (Hslice : Forall (has_shape image_width image_width) slice)
      by (apply Forall_take, Forall_drop, Himages).
    assert (Hlen : length slice = Z.to_nat c).
    { unfold slice. rewrite length_take, length_drop.
      assert (c * row_size <= Z.of_nat (length images))
        by (rewrite Ec, Z.mul_comm; apply Z.mul_div_le; lia).
      nia. }
    destruct (concat_images_value slice image_width spacer_size)
      as (p & Ep & Hp & _).
    - intros ->. cbn in Hlen. lia.
    - eapply Forall_impl; [exact Hslice |]. intros q (Hq & _ & Hwf).
      split; assumption.
    - exact Hs.
    - exists p. split; [exact Ep |].
      rewrite (total_width_same image_width), Hlen in Hp; [| ].
      + replace (Z.of_nat (Z.to_nat c) * image_width
                 + (Z.of_nat (Z.to_nat c) - 1) * spacer_size)
          with W in Hp by (unfold W; lia).
        exact Hp.
      + eapply Forall_impl; [exact Hslice |]. intros q (_ & Hq & _).
        exact Hq. }
  set (spacer_h := {| height := spacer_size; width := W;
                      pixels := replicate (Z.to_nat spacer_size)
                                  (replicate (Z.to_nat W) white) |}).
  set (f := fun row =>
              match concat_images (row_images images c row) image_width
                      spacer_size with
              | Ok p => p
              | Raise _ => spacer_h
              end).
  assert (Hf : forall row, 0 <= row < row_size ->
            concat_images (row_images images c row) image_width spacer_size
            = Ok (f row) /\ has_shape image_width W (f row)).
  { intros row Hr. destruct (Hrow row Hr) as (p & Ep & Hp). unfold f.
    rewrite Ep. split; [reflexivity | exact Hp]. }
  rewrite (concat_images_in_rows_interleave images row_size image_width
             spacer_size f)
    by (try lia; intros row Hr; rewrite <- Ec; apply Hf, Hr).
  rewrite <- Ec. replace (image_width * c + (c - 1) * spacer_size) with W
    by (unfold W; lia).
  assert (HW : 0 <= W) by (unfold W; nia).
  rewrite (np_ones_255_value _ _ Hs HW). cbn [mbind result_bind].
  fold spacer_h.
  destruct (np_ones_255_shape spacer_size W Hs HW)
    as (sp & Esp & Hsph & Hspw & Hspwf).
  rewrite (np_ones_255_value _ _ Hs HW) in Esp. injection Esp as Esp.
  fold spacer_h in Esp. subst sp.
  set (rows := f <$> py_range 0 row_size).
  assert (Hall : Forall (has_shape image_width W) rows).
  { apply Forall_fmap, Forall_forall.
    intros row Hin%VisualizeFacts.elem_of_py_range. apply Hf, Hin. }
  assert (Hlen : length rows = Z.to_nat row_size)
    by (unfold rows; rewrite length_fmap;
        apply SyntheticFacts.length_py_range).
  assert (Hne : rows <> []) by (intros E; rewrite E in Hlen; cbn in Hlen; lia).
  destruct (np_vstack_shape (interleave spacer_h rows) W
              (interleave_not_nil spacer_h rows Hne)) as [Ev Hshape].
  { apply Forall_interleave; [split; assumption |].
    eapply Forall_impl; [exact Hall |]. intros q (_ & Hq & Hwf).
    split; assumption. }
  rewrite (total_height_interleave spacer_h rows Hne),
    (total_height_same image_width), Hlen, Hsph in Hshape, Ev.
  - replace (Z.of_nat (Z.to_nat row_size) * image_width
             + (Z.of_nat (Z.to_nat row_size) - 1) * spacer_size)
      with (row_size * image_width + (row_size - 1) * spacer_size)
      in Hshape, Ev by lia.
    eexists. split; [exact Ev | exact Hshape].
  - eapply Forall_impl; [exact Hall |]. intros q (Hq & _). exact Hq.
  - eapply Forall_impl; [exact Hall |]. intros q (Hq & _). exact Hq.
Qed.

(** With 1 <= row_size <= len(images), square images of side
    image_width and spacer_size >= 0, concat_images_in_rows returns a
    picture of row_size rows of len(images) // row_size images each:
    row_size * image_width + (row_size - 1) * spacer_size pixels high and
    column_size * image_width + (column_size - 1) * spacer_size wide. *)
Theorem concat_images_in_rows_shape (images : list picture)
    (row_size image_width spacer_size : Z) :
  1 <= row_size <= Z.of_nat (length images) ->
  Forall (has_shape image_width image_width) images ->
  0 <= spacer_size ->
  let column_size := Z.of_nat (length images) / row_size in
  exists p,
    concat_images_in_rows images row_size image_width spacer_size = Ok p
    /\ has_shape
         (row_size * image_width + (row_size - 1) * spacer_size)
         (column_size * image_width + (column_size - 1) * spacer_size) p.
Proof. apply concat_images_in_rows_value. Qed.

(** Only the first row_size * (len(images) // row_size) images are used:
    the images after them change neither the picture nor the exception
    raised. *)
Theorem concat_images_in_rows_prefix (images : list picture)
    (row_size image_width spacer_size : Z) :
  1 <= row_size ->
  concat_images_in_rows images row_size image_width spacer_size
  = concat_images_in_rows
      (take (Z.to_nat (row_size * (Z.of_nat (length images) / row_size)))
         images)
      row_size image_width spacer_size.
Proof.
  intros Hrows.
  set (c := Z.of_nat (length images) / row_size).
  assert (Ec : c = Z.of_nat (length images) / row_size) by reflexivity.
  clearbody c.
  assert (Hc : 0 <= c) by (rewrite Ec; apply Z.div_pos; lia).
  assert (Hle : row_size * c <= Z.of_nat (length images))
    by (rewrite Ec; apply Z.mul_div_le; lia).
  set (used := take (Z.to_nat (row_size * c)) images).
  assert (Hlen : Z.of_nat (length used) = row_size * c)
    by (unfold used; rewrite length_take; lia).
  assert (Ec' : Z.of_nat (length used) / row_size = c)
    by (rewrite Hlen, Z.mul_comm; apply Z.div_mul; lia).
  unfold concat_images_in_rows, py_floordiv.
  replace (row_size =? 0) with false by lia. cbn [mbind result_bind].
  rewrite Ec', <- Ec.
  destruct (np_ones_255 _ _) as [spacer_h | e]; [| reflexivity].
  cbn [mbind result_bind].
  rewrite (for_each_ext
             (add_row_of_images images row_size image_width spacer_size c
                spacer_h)
             (add_row_of_images used row_size image_width spacer_size c
                spacer_h)); [reflexivity |].
  intros row acc Hrow%VisualizeFacts.elem_of_py_range.
  unfold add_row_of_images.
  rewrite (py_slice_inside images), (py_slice_inside used) by nia.
  replace (take (Z.to_nat (c * row + c - c * row))
             (drop (Z.to_nat (c * row)) used))
    with (take (Z.to_nat (c * row + c - c * row))
            (drop (Z.to_nat (c * row)) images)); [reflexivity |].
  unfold used. rewrite skipn_firstn_comm, take_take. f_equal. nia.
Qed.

(** concat_images_in_rows raises ZeroDivisionError for row_size = 0 and
    ValueError when there are fewer images than rows. *)
Theorem concat_images_in_rows_errors :
  (forall images image_width spacer_size,
     concat_images_in_rows images 0 image_width spacer_size
     = Raise ZeroDivisionError)
  /\ (forall images row_size image_width spacer_size,
        Z.of_nat (length images) < row_size ->
        exists msg,
          concat_images_in_rows images row_size image_width spacer_size
          = Raise (ValueError msg)).
Proof.
  split; [reflexivity |].
  intros images row_size image_width spacer_size Hfew.
  unfold concat_images_in_rows, py_floordiv.
  replace (row_size =? 0) with false by lia. cbn [mbind result_bind].
  rewrite Z.div_small by lia.
  unfold np_ones_255 at 1.
  destruct ((0 <=? spacer_size)
            && (0 <=? image_width * 0 + (0 - 1) * spacer_size));
    [| eexists; reflexivity].
  cbn [mbind result_bind].
  rewrite (ExperimentFacts.py_range_cons 0 row_size) by lia.
  cbn [for_each].
  destruct (concat_images_nil image_width spacer_size) as [msg Hmsg].
  exists msg.
  match goal with
  | |- context [add_row_of_images ?i ?r ?w ?s ?c ?sp 0 []] =>
      assert (E : add_row_of_images i r w s c sp 0 []
                  = Raise (ValueError msg))
  end.
  { unfold add_row_of_images.
    rewrite (py_slice_inside images) by lia.
    change (Z.to_nat (0 * 0 + 0 - 0 * 0)) with 0%nat. rewrite take_0.
    rewrite Hmsg. reflexivity. }
  rewrite E. reflexivity.
Qed.

Lemma py_slice_head {A} (l : list A) (n : Z) :
  0 <= n ->
  py_slice l 0 n = take (Z.to_nat n) l.
Proof.
  intros Hn. unfold py_slice. replace (n <? 0) with false by lia.
  change (0 <? 0) with false. cbv beta iota. rewrite (Z.min_l 0) by lia.
  rewrite Z.sub_0_r. change (Z.to_nat 0) with 0%nat. rewrite drop_0.
  destruct (Z.le_ge_cases n (Z.of_nat (length l))) as [Hle | Hge].
  - rewrite Z.min_l by lia. reflexivity.
  - rewrite Z.min_r by lia. rewrite Nat2Z.id, !take_ge by lia. reflexivity.
Qed.

(** The value of plot_ratemaps on square rate maps. *)
Lemma plot_ratemaps_value (activations : list (list (list F)))
    (Ng res n_plots width : Z) :
  (forall im, array_shape2 res res im -> has_shape res res (rgb im)) ->
  array_shape3 Ng res res activations ->
  1 <= width <= n_plots -> n_plots / width <= Ng ->
  let row_size := n_plots / width in
  let column_size := Z.min n_plots Ng / row_size in
  exists p,
    plot_ratemaps activations res n_plots width = Ok p
    /\ has_shape (row_size * res + (row_size - 1) * 4)
         (column_size * res + (column_size - 1) * 4) p.
Proof.
  intros Hrgb [Hlen Hacts] Hwidth Hrows row_size column_size.
  unfold Plots.plot_ratemaps, py_floordiv.
  replace (width =? 0) with false by lia. cbn [mbind result_bind].
  assert (H1 : 1 <= row_size)
    by (apply Z.div_le_lower_bound; lia).
  assert (Hrn : row_size <= n_plots)
    by (apply Z.div_le_upper_bound; nia).
  rewrite py_slice_head by lia.
  set (images := rgb <$> take (Z.to_nat n_plots) activations).
  assert (Himages : Forall (has_shape res res) images).
  { apply Forall_fmap. eapply Forall_impl; [apply Forall_take, Hacts |].
    intros im Him. apply Hrgb, Him. }
  assert (Hn : Z.of_nat (length images) = Z.min n_plots Ng)
    by (unfold images; rewrite length_fmap, length_take; lia).
  destruct (concat_images_in_rows_value images (n_plots / width) res 4)
    as (p & Ep & Hp); [fold row_size; lia | exact Himages | lia |].
  exists p. split; [exact Ep |]. rewrite Hn in Hp. exact Hp.
Qed.


(** plot_ratemaps raises ZeroDivisionError when width is 0 and when there
    are fewer plots than width (0 <= n_plots < width): the number of rows
    n_plots // width is then 0 and divides the number of pictures. *)
Theorem plot_ratemaps_too_few (activations : list (list (list F)))
    (last_dim n_plots width : Z) :
  width = 0 \/ 0 <= n_plots < width ->
  plot_ratemaps activations last_dim n_plots width = Raise ZeroDivisionError.
Proof.
  intros [-> | Hfew]; [reflexivity |].
  unfold Plots.plot_ratemaps, py_floordiv.
  replace (width =? 0) with false by lia. cbn [mbind result_bind].
  rewrite Z.div_small by lia. reflexivity.
Qed.

Hypothesis to_int_in_grid :
  forall (x : F) (res : Z),
    fle (of_int 0) x = true -> flt x (of_int res) = true ->
    0 <= to_int x < res.

Lemma default_n_avg_again (opts : options F) (n_avg0 : option Z) (n_avg : Z) :
  default_n_avg opts n_avg0 = Ok n_avg ->
  default_n_avg opts (Some n_avg) = Ok n_avg.
Proof.
  unfold default_n_avg. intros Hd.
  destruct (n_avg =? 0) eqn:E0; [| reflexivity].
  apply Z.eqb_eq in E0. subst n_avg.
  destruct n_avg0 as [n |].
  - destruct (n =? 0) eqn:En; [exact Hd |].
    injection Hd as ->. discriminate.
  - exact Hd.
Qed.


End Pictures.

Lemma tile_shape : has_shape 2 2 tile.
Proof.
  split; [reflexivity |]. split; [reflexivity |].
  split; [cbn; lia |]. split; [cbn; lia |]. split; [reflexivity |].
  repeat constructor.
Qed.

Lemma tiles_shape (n : nat) : Forall (has_shape 2 2) (replicate n tile).
Proof. apply Forall_replicate, tile_shape. Qed.

Lemma tiles_height (n : nat) :
  Forall (fun q => height q = 2 /\ well_formed q) (replicate n tile).
Proof.
  apply Forall_replicate. split; [reflexivity | apply tile_shape].
Qed.

Lemma concat_images_shape_witness :
  [tile; tile] <> []
  /\ Forall (fun q => height q = 2 /\ well_formed q) [tile; tile]
  /\ 0 <= 1
  /\ exists p,
       concat_images [tile; tile] 2 1 = Ok p
       /\ has_shape 2
            (total_width [tile; tile]
             + (Z.of_nat (length [tile; tile]) - 1) * 1) p
       /\ forall r : nat,
            (r < Z.to_nat 2)%nat ->
            pixels p !! r
            = Some (mjoin (interleave (replicate (Z.to_nat 1) white)
                             ((fun q => default [] (pixels q !! r))
                                <$> [tile; tile]))).
Proof.
  assert (Hne : [tile; tile] <> []) by discriminate.
  assert (Hs : 0 <= 1) by lia.
  split; [exact Hne |]. split; [exact (tiles_height 2) |].
  split; [exact Hs |].
  exact (concat_images_shape [tile; tile] 2 1 Hne (tiles_height 2) Hs).
Defined.

Lemma concat_images_errors_witness :
  (exists msg, concat_images [] 2 1 = Raise (ValueError msg))
  /\ (exists msg, concat_images [tile; strip] 2 1 = Raise (ValueError msg)).
Proof.
  destruct concat_images_errors as [Hnil Hbad].
  split; [apply Hnil |].
  apply Hbad; [cbn; lia |].
  apply Exists_cons_tl, Exists_cons_hd. discriminate.
Defined.

Lemma concat_images_in_rows_shape_witness :
  1 <= 2 <= Z.of_nat (length (replicate 5 tile))
  /\ Forall (has_shape 2 2) (replicate 5 tile)
  /\ 0 <= 4
  /\ exists p,
       concat_images_in_rows (replicate 5 tile) 2 2 4 = Ok p
       /\ has_shape (2 * 2 + (2 - 1) * 4)
            (Z.of_nat (length (replicate 5 tile)) / 2 * 2
             + (Z.of_nat (length (replicate 5 tile)) / 2 - 1) * 4) p.
Proof.
  assert (Hrows : 1 <= 2 <= Z.of_nat (length (replicate 5 tile)))
    by (cbn; lia).
  assert (Hs : 0 <= 4) by lia.
  split; [exact Hrows |]. split; [exact (tiles_shape 5) |].
  split; [exact Hs |].
  exact (concat_images_in_rows_shape (replicate 5 tile) 2 2 4 Hrows
           (tiles_shape 5) Hs).
Defined.

Lemma concat_images_in_rows_prefix_witness :
  1 <= 2
  /\ concat_images_in_rows [tile; tile; tile; tile; strip] 2 2 4
     = concat_images_in_rows [tile; tile; tile; tile] 2 2 4.
Proof.
  assert (Hrows : 1 <= 2) by lia. split; [exact Hrows |].
  exact (concat_images_in_rows_prefix [tile; tile; tile; tile; strip] 2 2 4
           Hrows).
Defined.

Lemma concat_images_in_rows_errors_witness :
  concat_images_in_rows [tile; tile] 0 2 4 = Raise ZeroDivisionError
  /\ (exists msg,
        concat_images_in_rows [tile; tile] 3 2 4 = Raise (ValueError msg)).
Proof.
  destruct concat_images_in_rows_errors as [Hzero Hfew].
  split; [apply Hzero |]. apply Hfew. cbn. lia.
Defined.

Lemma rgb0_shape (im : list (list Q)) :
  array_shape2 2 2 im -> has_shape 2 2 (rgb0 im).
Proof. intros _. exact tile_shape. Qed.

Lemma zeros_shape3 : array_shape3 40 2 2 (np_zeros3 (F := Q) 40 2 2).
Proof.
  split; [reflexivity |]. apply Forall_replicate.
  split; [reflexivity |]. apply Forall_replicate. reflexivity.
Qed.


Lemma plot_ratemaps_too_few_witness :
  (16 = 0 \/ 0 <= 10 < 16)
  /\ Plots.plot_ratemaps rgb0 (np_zeros3 10 2 2) 2 10 16
     = Raise ZeroDivisionError.
Proof.
  assert (Hfew : 16 = 0 \/ 0 <= 10 < 16) by (right; lia).
  split; [exact Hfew |].
  exact (plot_ratemaps_too_few rgb0 (np_zeros3 10 2 2) 2 10 16 Hfew).
Defined.


End PlotsFacts.

(** ** More on Experiment.train_and_evaluate *)

Module ExperimentMoreFacts.
Import Experiment Samples ExperimentSamples.
Section TrainLoop.
Variables weights batch data_iter group_options path_error : Type.
Variable next_batch : data_iter -> batch * data_iter.
Variable optimizer_update :
  list (param_group group_options) -> weights -> batch -> Z -> weights.
Variable after_update :
  train_config -> Z -> weights -> result (weights * list path_error).

Abbreviation experiment :=
  (Experiment.experiment weights data_iter group_options path_error).
Abbreviation train_step :=
  (Experiment.train_step weights batch data_iter group_options path_error
     next_batch optimizer_update after_update).
Abbreviation train_and_evaluate :=
  (Experiment.train_and_evaluate weights batch data_iter group_options
     path_error next_batch optimizer_update after_update).

(** The rest of the loop body returns. *)
Abbreviation returns config :=
  (forall step w, exists w' errs, after_update config step w = Ok (w', errs)).

(** What a run of the loop leaves behind. *)
Abbreviation ran config steps self self' :=
  (updates self' = Nat.add (updates self) steps
   /\ group_rest <$> param_groups self' = group_rest <$> param_groups self
   /\ (Nat.lt 0 steps ->
       Forall (fun g => group_lr g = lr config) (param_groups self'))
   /\ train_iter self'
      = Nat.iter steps (fun it => (next_batch it).2) (train_iter self)
   /\ starting_step self' = starting_step self).

Lemma assign_lr_bound (v : Q) (groups : list (param_group group_options)) :
  assign_lr group_options (Some v) groups
  = Ok ((fun g => {| group_lr := v; group_rest := group_rest g |})
          <$> groups).
Proof.
  induction groups as [|g rest IH]; [reflexivity |].
  cbn [assign_lr read_local mbind result_bind]. rewrite IH. reflexivity.
Qed.

(** One iteration with lr bound, or inside the window that binds it. *)
Lemma train_step_bound (config : train_config) (step : Z) (self : experiment)
    (lr_var : option Q) :
  returns config ->
  lr_var = Some (lr config) \/ 10000 < step < 120000 ->
  exists self',
    train_step config step (self, lr_var) = Ok (self', Some (lr config))
    /\ ran config 1 self self'.
Proof.
  intros Hret Hlr. unfold Experiment.train_step.
  destruct (next_batch (train_iter self)) as [batch_data it] eqn:Hnext.
  assert (Hvar : (if (step <? 120000) && (10000 <? step)
                  then Some (lr config) else lr_var) = Some (lr config)).
  { destruct ((step <? 120000) && (10000 <? step)) eqn:E; [reflexivity |].
    destruct Hlr as [-> | Hwin]; [reflexivity | lia]. }
  rewrite Hvar, assign_lr_bound. cbn [mbind result_bind].
  destruct (Hret step
              (optimizer_update
                 ((fun g => {| group_lr := lr config;
                               group_rest := group_rest g |})
                    <$> param_groups self)
                 (model self) batch_data step)) as (w' & errs & ->).
  cbn [mbind result_bind]. eexists. split; [reflexivity |].
  cbn [updates param_groups train_iter starting_step].
  split; [lia |]. split.
  { rewrite <- list_fmap_compose. reflexivity. }
  split.
  { intros _. apply Forall_fmap, Forall_true. reflexivity. }
  split; [cbn; rewrite Hnext; reflexivity | reflexivity].
Qed.

(** Once lr is bound the loop runs to its end, whatever the steps. *)
Lemma train_loop_bound (config : train_config) (l : list Z)
    (self : experiment) :
  returns config ->
  exists self',
    for_each (train_step config) l (self, Some (lr config))
    = Ok (self', Some (lr config))
    /\ updates self' = (updates self + length l)%nat
    /\ group_rest <$> param_groups self' = group_rest <$> param_groups self
    /\ (Forall (fun g => group_lr g = lr config) (param_groups self) ->
        Forall (fun g => group_lr g = lr config) (param_groups self'))
    /\ train_iter self'
       = Nat.iter (length l) (fun it => (next_batch it).2) (train_iter self)
    /\ starting_step self' = starting_step self.
Proof.
  intros Hret. revert self. induction l as [|step l IH]; intros self.
  - exists self. split; [reflexivity |]. cbn [length Nat.iter].
    repeat split; [lia | auto].
  - cbn [for_each].
    destruct (train_step_bound config step self (Some (lr config)) Hret
                ltac:(left; reflexivity))
      as (self1 & E1 & Hu1 & Hg1 & Hlr1 & Hit1 & Hs1).
    rewrite E1. cbn [mbind result_bind].
    destruct (IH self1) as (self' & E' & Hu & Hg & Hlr & Hit & Hs).
    exists self'. split; [exact E' |]. cbn [length].
    split; [lia |]. split; [congruence |].
    split; [intros _; apply Hlr, Hlr1; lia |].
    split; [| congruence].
    rewrite Hit, Hit1. cbn [Nat.iter]. symmetry.
    apply (Nat.iter_succ_r (length l) (fun it => (next_batch it).2)).
Qed.

(** A start inside the window. *)
Lemma train_loop_in_window (config : train_config) (self : experiment) :
  returns config ->
  10000 < starting_step self < 120000 -> 1 <= num_steps_train config ->
  exists self',
    for_each (train_step config)
      (py_range (starting_step self)
         (num_steps_train config + starting_step self))
      (self, None)
    = Ok (self', Some (lr config))
    /\ ran config (Z.to_nat (num_steps_train config)) self self'.
Proof.
  intros Hret Hwin Hsteps.
  rewrite ExperimentFacts.py_range_cons by lia. cbn [for_each].
  destruct (train_step_bound config (starting_step self) self None Hret
              ltac:(right; exact Hwin))
    as (self1 & E1 & Hu1 & Hg1 & Hlr1 & Hit1 & Hs1).
  rewrite E1. cbn [mbind result_bind].
  destruct (train_loop_bound config
              (py_range (starting_step self + 1)
                 (num_steps_train config + starting_step self)) self1 Hret)
    as (self' & E' & Hu & Hg & Hlr & Hit & Hs).
  assert (Hlen : S (length (py_range (starting_step self + 1)
                              (num_steps_train config + starting_step self)))
                 = Z.to_nat (num_steps_train config))
    by (unfold py_range; rewrite length_seqZ; lia).
  exists self'. split; [exact E' |].
  split; [lia |]. split; [congruence |].
  split; [intros _; apply Hlr, Hlr1; lia |].
  split; [| congruence].
  rewrite Hit, Hit1, <- Hlen. cbn [Nat.iter]. symmetry.
  apply (Nat.iter_succ_r _ (fun it => (next_batch it).2)).
Qed.

(** A run that starts inside the window 10000 < step < 120000 (a resumed
    checkpoint) completes its num_steps_train steps when the rest of the
    loop body returns: lr keeps its binding after step 120000, so every
    step, inside the window or after it, sets the learning rate of every
    parameter group to config.lr; there is one optimizer update and one
    training batch per step. *)
Theorem train_and_evaluate_in_window (config : train_config)
    (self : experiment) :
  returns config ->
  10000 < starting_step self < 120000 -> 1 <= num_steps_train config ->
  exists self',
    for_each (train_step config)
      (py_range (starting_step self)
         (num_steps_train config + starting_step self))
      (self, None)
    = Ok (self', Some (lr config))
    /\ train_and_evaluate config self = Ok (errors self', model self')
    /\ updates self'
       = (updates self + Z.to_nat (num_steps_train config))%nat
    /\ group_rest <$> param_groups self' = group_rest <$> param_groups self
    /\ Forall (fun g => group_lr g = lr config) (param_groups self')
    /\ train_iter self'
       = Nat.iter (Z.to_nat (num_steps_train config))
           (fun it => (next_batch it).2) (train_iter self).
Proof.
  intros Hret Hwin Hsteps.
  destruct (train_loop_in_window config self Hret Hwin Hsteps)
    as (self' & E & Hu & Hg & Hlr & Hit & _).
  exists self'. split; [exact E |]. split.
  { unfold Experiment.train_and_evaluate. rewrite E. reflexivity. }
  split; [exact Hu |]. split; [exact Hg |].
  split; [apply Hlr; lia | exact Hit].
Qed.

(** With an optimizer that holds a parameter group and a loop body that
    otherwise returns, train_and_evaluate raises UnboundLocalError on lr
    exactly when there is a step to run and the first step lies outside
    the window 10000 < step < 120000. *)
Theorem train_and_evaluate_unbound_iff (config : train_config)
    (self : experiment) :
  returns config ->
  param_groups self <> [] ->
  train_and_evaluate config self = Raise (UnboundLocalError "lr")
  <-> 1 <= num_steps_train config
      /\ ~ (10000 < starting_step self < 120000).
Proof.
  intros Hret Hgroups. split.
  - intros Hraise.
    destruct (Z_lt_le_dec (num_steps_train config) 1) as [Hnone | Hsome].
    + unfold Experiment.train_and_evaluate, py_range in Hraise.
      rewrite seqZ_nil in Hraise by lia. discriminate.
    + split; [exact Hsome |]. intros Hwin.
      destruct (train_loop_in_window config self Hret Hwin Hsome)
        as (self' & E & _).
      unfold Experiment.train_and_evaluate in Hraise. rewrite E in Hraise.
      discriminate.
  - intros [Hsome Hout]. unfold Experiment.train_and_evaluate.
    rewrite ExperimentFacts.py_range_cons by lia. cbn [for_each].
    rewrite (ExperimentFacts.train_step_unbound _ _ _ _ _ next_batch
               optimizer_update after_update config (starting_step self) self)
      by (auto; lia).
    reflexivity.
Qed.

End TrainLoop.

Lemma no_errors_returns (step : Z) (w : unit) :
  exists w' errs, no_errors config0 step w = Ok (w', errs).
Proof. exists w, []. reflexivity. Qed.

Lemma train_and_evaluate_in_window_witness :
  (forall step w, exists w' errs, no_errors config0 step w = Ok (w', errs))
  /\ 10000 < starting_step experiment_resumed < 120000
  /\ 1 <= num_steps_train config0
  /\ exists self',
       for_each
         (Experiment.train_step unit unit unit unit unit next_unit
            keep_weights no_errors config0)
         (py_range (starting_step experiment_resumed)
            (num_steps_train config0 + starting_step experiment_resumed))
         (experiment_resumed, None)
       = Ok (self', Some (lr config0))
       /\ Experiment.train_and_evaluate unit unit unit unit unit next_unit
            keep_weights no_errors config0 experiment_resumed
          = Ok (errors self', model self')
       /\ updates self'
          = (updates experiment_resumed
             + Z.to_nat (num_steps_train config0))%nat
       /\ group_rest <$> param_groups self'
          = group_rest <$> param_groups experiment_resumed
       /\ Forall (fun g => group_lr g = lr config0) (param_groups self')
       /\ train_iter self'
          = Nat.iter (Z.to_nat (num_steps_train config0))
              (fun it => (next_unit it).2) (train_iter experiment_resumed).
Proof.
  assert (Hwin : 10000 < starting_step experiment_resumed < 120000)
    by (cbn; lia).
  assert (Hsteps : 1 <= num_steps_train config0) by (cbn; lia).
  split; [exact no_errors_returns |]. split; [exact Hwin |].
  split; [exact Hsteps |].
  exact (train_and_evaluate_in_window unit unit unit unit unit next_unit
           keep_weights no_errors config0 experiment_resumed
           no_errors_returns Hwin Hsteps).
Defined.

Lemma train_and_evaluate_unbound_iff_witness :
  (forall step w, exists w' errs, no_errors config0 step w = Ok (w', errs))
  /\ param_groups experiment_resumed <> []
  /\ (Experiment.train_and_evaluate unit unit unit unit unit next_unit
        keep_weights no_errors config0 experiment_resumed
      = Raise (UnboundLocalError "lr")
      <-> 1 <= num_steps_train config0
          /\ ~ (10000 < starting_step experiment_resumed < 120000)).
Proof.
  assert (Hgroups : param_groups experiment_resumed <> []) by discriminate.
  split; [exact no_errors_returns |]. split; [exact Hgroups |].
  exact (train_and_evaluate_unbound_iff unit unit unit unit unit next_unit
           keep_weights no_errors config0 experiment_resumed
           no_errors_returns Hgroups).
Defined.

End ExperimentMoreFacts.

(** ** The validation loop of default_config, both ways *)

Module ConfigMoreFacts.

(** The loop of default_config accepts a list of dataset names exactly
    when every name is one of the five recognized ones, and otherwise it
    raises ValueError. *)
Theorem check_dataset_names_accepts (dataset_name : list string) :
  (DefaultConfig.check_dataset_names dataset_name = Ok tt
   <-> Forall (fun d => d ∈ DefaultConfig.recognized_datasets)
         dataset_name)
  /\ (DefaultConfig.check_dataset_names dataset_name <> Ok tt ->
      exists n,
        n ∈ dataset_name
        /\ (n ∉ DefaultConfig.recognized_datasets)
        /\ DefaultConfig.check_dataset_names dataset_name
           = Raise (ValueError (DefaultConfig.not_recognized n))).
Proof.
  induction dataset_name as [|d rest [IHiff IHbad]].
  - split; [split; [constructor | reflexivity] | intros Hne; contradiction].
  - cbn [DefaultConfig.check_dataset_names].
    destruct (py_in d DefaultConfig.recognized_datasets) eqn:Hd;
      cbn [negb].
    + apply ConfigFacts.py_in_elem_of in Hd. split.
      * rewrite IHiff. split.
        -- intros Hrest. constructor; assumption.
        -- intros Hall. apply Forall_cons in Hall as [_ Hrest]. exact Hrest.
      * intros Hne. destruct (IHbad Hne) as (n & Hin & Hnot & Hraise).
        exists n. split; [constructor; exact Hin |].
        split; [exact Hnot | exact Hraise].
    + apply ConfigFacts.not_elem_of_by_py_in in Hd. split.
      * split; [discriminate |].
        intros Hall. apply Forall_cons in Hall as [Hin _]. contradiction.
      * intros _. exists d. split; [constructor |].
        split; [exact Hd | reflexivity].
Qed.

End ConfigMoreFacts.

(** ** VAE.encode and VAE.forward by posterior type *)

Module FcVaeMoreFacts.
Import FcVae FcVaeShapes Samples.
Section VAE.
Context {F : Type} `{PyFloat F}.
Variable rng : Type.
Variable rsample : distribution F -> rng -> tensor F * rng.
Abbreviation reparameterize := (FcVae.reparameterize rng rsample).
Abbreviation forward := (FcVae.forward rng rsample).

Lemma relu_stack_accepts (layers : list (layer F)) (h : tensor F) :
  Forall accepts layers -> exists h', relu_stack layers h = Ok h'.
Proof.
  intros Hall. revert h. induction Hall as [|l ls Hl _ IH]; intros h.
  - exists h. reflexivity.
  - cbn [relu_stack]. destruct (Hl h) as [h1 ->]. cbn [mbind result_bind].
    apply IH.
Qed.

Lemma decode_accepts (self : VAE F) (z : tensor F) :
  layers_accept self -> exists x_mu, decode self z = Ok x_mu.
Proof.
  intros (_ & _ & _ & _ & Hfc & Hlin & Hout). unfold decode.
  destruct (Hfc z) as [h0 ->]. cbn [mbind result_bind].
  destruct (relu_stack_accepts (decoder_linears self) (relu h0) Hlin)
    as [h ->].
  cbn [mbind result_bind]. apply Hout.
Qed.

(** With layers that accept their inputs, encode and forward return
    exactly for the posterior types gaussian and hyperspherical: forward
    then returns the parameters that encode returns and the decoding of
    the one sample that reparameterize draws.  For every other type,
    toroidal included, both raise UnboundLocalError on posterior_params
    and no sample is drawn. *)
Theorem encode_forward_by_type (self : VAE F) (x : tensor F) (s : rng) :
  layers_accept self ->
  (posterior_type self ∈ ["gaussian"; "hyperspherical"] ->
   exists posterior_params z q_z p_z x_mu,
     encode self x = Ok posterior_params
     /\ reparameterize self posterior_params s
        = Ok (z, q_z, p_z, (rsample q_z s).2)
     /\ z = (rsample q_z s).1
     /\ decode self z = Ok x_mu
     /\ forward self x s = Ok (x_mu, posterior_params, (rsample q_z s).2))
  /\ (posterior_type self ∉ ["gaussian"; "hyperspherical"] ->
      encode self x = Raise (UnboundLocalError "posterior_params")
      /\ forward self x s = Raise (UnboundLocalError "posterior_params")).
Proof.
  intros Hacc. pose proof Hacc as (Hfc & Hlin & Hmu & Hlogvar & _).
  assert (Hh : exists h,
            encode self x
            = (if String.eqb (posterior_type self) "gaussian" then
                 z_mu ← fc_z_mu self h;
                 z_logvar ← fc_z_logvar self h;
                 Ok (z_mu, z_logvar)
               else if String.eqb (posterior_type self) "hyperspherical" then
                 z_mu ← fc_z_mu self h;
                 k ← fc_z_logvar self h;
                 Ok (z_mu, add_int (softplus k) 1)
               else Raise (UnboundLocalError "posterior_params"))).
  { unfold encode. destruct (Hfc x) as [h0 ->]. cbn [mbind result_bind].
    destruct (relu_stack_accepts (encoder_linears self) (relu h0) Hlin)
      as [h ->].
    exists h. reflexivity. }
  destruct Hh as [h Hencode]. split.
  - intros Hty.
    destruct (Hmu h) as [z_mu Emu]. destruct (Hlogvar h) as [z_lv Elv].
    rewrite Emu, Elv in Hencode. cbn [mbind result_bind] in Hencode.
    apply elem_of_cons in Hty as [Hty | Hty].
    + rewrite Hty in Hencode.
      change (String.eqb "gaussian" "gaussian") with true in Hencode.
      cbv beta iota in Hencode.
      set (q_z := Normal z_mu (torch_exp (scalar_mul (of_lit 0.5) z_lv))).
      destruct (decode_accepts self (rsample q_z s).1 Hacc) as [x_mu Edec].
      exists (z_mu, z_lv), (rsample q_z s).1, q_z,
        (Normal (ones_like z_mu)
           (ones_like (torch_exp (scalar_mul (of_lit 0.5) z_lv)))), x_mu.
      unfold FcVae.forward, FcVae.reparameterize.
      rewrite Hencode, Hty.
      change (String.eqb "gaussian" "gaussian") with true.
      cbv beta iota zeta. cbn [mbind result_bind]. fold q_z.
      destruct (rsample q_z s) as [z s'].
      cbn [fst snd mbind result_bind] in Edec |- *. rewrite Edec.
      repeat split; reflexivity.
    + apply elem_of_cons in Hty as [Hty | Hty]; [| inversion Hty].
      rewrite Hty in Hencode.
      change (String.eqb "hyperspherical" "gaussian") with false in Hencode.
      change (String.eqb "hyperspherical" "hyperspherical") with true
        in Hencode.
      cbv beta iota in Hencode.
      set (q_z := VonMisesFisher z_mu (add_int (softplus z_lv) 1)).
      destruct (decode_accepts self (rsample q_z s).1 Hacc) as [x_mu Edec].
      exists (z_mu, add_int (softplus z_lv) 1), (rsample q_z s).1, q_z,
        (HypersphericalUniform (latent_dim self - 1)), x_mu.
      unfold FcVae.forward, FcVae.reparameterize.
      rewrite Hencode, Hty.
      change (String.eqb "hyperspherical" "gaussian") with false.
      change (String.eqb "hyperspherical" "hyperspherical") with true.
      cbv beta iota zeta. cbn [mbind result_bind]. fold q_z.
      destruct (rsample q_z s) as [z s'].
      cbn [fst snd mbind result_bind] in Edec |- *. rewrite Edec.
      repeat split; reflexivity.
  - intros Hty.
    apply ConfigFacts.eqb_of_not_elem in Hty as [Hg Hty].
    apply ConfigFacts.eqb_of_not_elem in Hty as [Hh _].
    rewrite Hg, Hh in Hencode. unfold FcVae.forward. rewrite Hencode.
    split; reflexivity.
Qed.

End VAE.

Lemma identity_layers_accept (ty : string) : layers_accept (vae_of ty).
Proof.
  assert (Hid : accepts identity_layer) by (intros t; exists t; reflexivity).
  repeat split; try exact Hid; repeat constructor; exact Hid.
Qed.

Lemma encode_forward_by_type_witness :
  layers_accept (vae_of "toroidal")
  /\ ("toroidal" ∉ ["gaussian"; "hyperspherical"])
  /\ encode (vae_of "toroidal") mu0
     = Raise (UnboundLocalError "posterior_params")
  /\ FcVae.forward nat sample_loc (vae_of "toroidal") mu0 0%nat
     = Raise (UnboundLocalError "posterior_params")
  /\ layers_accept (vae_of "gaussian")
  /\ "gaussian" ∈ ["gaussian"; "hyperspherical"]
  /\ exists posterior_params z q_z p_z x_mu,
       encode (vae_of "gaussian") mu0 = Ok posterior_params
       /\ FcVae.reparameterize nat sample_loc (vae_of "gaussian")
            posterior_params 0%nat
          = Ok (z, q_z, p_z, (sample_loc q_z 0%nat).2)
       /\ z = (sample_loc q_z 0%nat).1
       /\ decode (vae_of "gaussian") z = Ok x_mu
       /\ FcVae.forward nat sample_loc (vae_of "gaussian") mu0 0%nat
          = Ok (x_mu, posterior_params, (sample_loc q_z 0%nat).2).
Proof.
  assert (Hty : "toroidal" ∉ ["gaussian"; "hyperspherical"])
    by (apply ConfigFacts.not_elem_of_by_py_in; reflexivity).
  assert (Hg : "gaussian" ∈ ["gaussian"; "hyperspherical"]) by constructor.
  split; [exact (identity_layers_accept "toroidal") |].
  split; [exact Hty |].
  split; [| split; [| split; [exact (identity_layers_accept "gaussian") |]]].
  - exact (proj1 (proj2 (encode_forward_by_type nat sample_loc
                           (vae_of "toroidal") mu0 0%nat
                           (identity_layers_accept "toroidal")) Hty)).
  - exact (proj2 (proj2 (encode_forward_by_type nat sample_loc
                           (vae_of "toroidal") mu0 0%nat
                           (identity_layers_accept "toroidal")) Hty)).
  - split; [exact Hg |].
    exact (proj1 (encode_forward_by_type nat sample_loc (vae_of "gaussian")
                    mu0 0%nat (identity_layers_accept "gaussian")) Hg).
Defined.

End FcVaeMoreFacts.

(** ** The entries of the rate map *)

Module RateMapFacts.
Import Visualize VisualizeShapes RateMapBins Samples.
Section Bins.
Context {F : Type} `{PyFloat F}.
Abbreviation plane := (list (list F)).

Hypothesis to_int_in_grid :
  forall (x : F) (res : Z),
    fle (of_int 0) x = true -> flt x (of_int res) = true ->
    0 <= to_int x < res.

(** Bin (bx, by) holds the count and the sums of [hits]. *)
Abbreviation holds Ng bx by_ hits b :=
  (get2 (counts b) (Z.to_nat bx) (Z.to_nat by_) = Some (bin_count hits)
   /\ forall n : nat,
        Nat.lt n (Z.to_nat Ng) ->
        get3 (activations b) n (Z.to_nat bx) (Z.to_nat by_)
        = Some (bin_sum n hits)).

Lemma bin_count_snoc (hits : list (list F)) (g_row : list F) :
  bin_count (hits ++ [g_row]) = fadd (bin_count hits) (of_int 1).
Proof. unfold bin_count. rewrite foldl_app. reflexivity. Qed.

Lemma bin_sum_snoc (n : nat) (hits : list (list F)) (g_row : list F) :
  bin_sum n (hits ++ [g_row])
  = fadd (bin_sum n hits) (default (of_int 0) (g_row !! n)).
Proof. unfold bin_sum. rewrite foldl_app. reflexivity. Qed.

Lemma get3_add_row_eq (g_row : list F) (ix iy n : nat) (acts : list plane)
    (gn : F) :
  g_row !! n = Some gn ->
  get3 (add_row g_row ix iy acts) n ix iy
  = (fun v => fadd v gn) <$> get3 acts n ix iy.
Proof.
  intros Hg. unfold get3, add_row. rewrite lookup_zip_with, Hg.
  destruct (acts !! n) as [a|]; [| reflexivity]. cbn.
  rewrite VisualizeFacts.get2_update2, decide_True by auto. reflexivity.
Qed.

(** One sample. *)
Lemma bin_sample_holds (opts : options F) (res Ng : Z) (flag : bool)
    (index bx by_ : Z) (b : bins F) (smp : sample F)
    (hits : list (list F)) :
  0 <= bx -> 0 <= by_ ->
  bins_shape res Ng b -> Z.of_nat (length smp.2) = Ng ->
  holds Ng bx by_ hits b ->
  exists b',
    bin_sample opts res flag index b smp = Ok b'
    /\ bins_shape res Ng b'
    /\ holds Ng bx by_ (hits ++ hits_of opts res bx by_ [smp])%list b'.
Proof.
  intros Hbx Hby (Hcnt & Hlen & Hacts) Hg [Hc Ha].
  destruct smp as [[px py] g_row]. cbn [snd] in Hg.
  unfold bin_sample. cbn [hits_of]. unfold lands. cbn [fst snd].
  set (x := bin_coordinate px (box_width opts) res).
  set (y := bin_coordinate py (box_height opts) res).
  destruct (in_grid x y res) eqn:Hgrid.
  - destruct (VisualizeFacts.in_grid_true to_int_in_grid x y res Hgrid)
      as [Hx Hy].
    assert (Hgl : length g_row = length (activations b)) by lia.
    rewrite (VisualizeFacts.py_index_ok res (to_int x) Hx),
      (VisualizeFacts.py_index_ok res (to_int y) Hy).
    cbn [mbind result_bind andb]. eexists. split; [reflexivity |].
    unfold bins_shape. cbn [counts activations]. split.
    { split; [apply VisualizeFacts.update2_shape, Hcnt |].
      split; [rewrite VisualizeFacts.add_row_length by exact Hgl; exact Hlen
             | apply VisualizeFacts.add_row_shape, Hacts]. }
    destruct ((to_int x =? bx) && (to_int y =? by_)) eqn:Hbin.
    + assert (Ex : to_int x = bx) by lia. assert (Ey : to_int y = by_) by lia.
      rewrite Ex, Ey. split.
      * rewrite VisualizeFacts.get2_update2, decide_True by auto.
        rewrite Hc, bin_count_snoc. reflexivity.
      * intros n Hn.
        destruct (lookup_lt_is_Some_2 g_row n ltac:(unfold Nat.lt in Hn; lia))
          as [gn Hgn].
        rewrite (get3_add_row_eq _ _ _ _ _ gn Hgn), (Ha n Hn), bin_sum_snoc,
          Hgn.
        reflexivity.
    + rewrite app_nil_r.
      assert (Hne : ~ (Z.to_nat (to_int x) = Z.to_nat bx
                       /\ Z.to_nat (to_int y) = Z.to_nat by_)) by lia.
      split.
      * rewrite VisualizeFacts.get2_update2, decide_False by exact Hne.
        exact Hc.
      * intros n Hn.
        rewrite (VisualizeFacts.get3_add_row_ne _ _ _ _ _ _ _ Hgl Hne).
        apply Ha, Hn.
  - cbn [andb]. rewrite app_nil_r. exists b.
    split; [reflexivity |].
    split; [exact (conj Hcnt (conj Hlen Hacts)) | exact (conj Hc Ha)].
Qed.

Lemma hits_of_cons (opts : options F) (res bx by_ : Z) (smp : sample F)
    (batch : list (sample F)) :
  hits_of opts res bx by_ (smp :: batch)
  = (hits_of opts res bx by_ [smp] ++ hits_of opts res bx by_ batch)%list.
Proof. cbn [hits_of]. destruct (lands opts res bx by_ smp); reflexivity. Qed.

(** One batch. *)
Lemma bin_samples_holds (opts : options F) (res Ng : Z) (flag : bool)
    (index bx by_ : Z) (batch : list (sample F)) (b : bins F)
    (hits : list (list F)) :
  0 <= bx -> 0 <= by_ ->
  Forall (fun smp : sample F => Z.of_nat (length smp.2) = Ng) batch ->
  bins_shape res Ng b -> holds Ng bx by_ hits b ->
  exists b',
    bin_samples opts res flag index b batch = Ok b'
    /\ bins_shape res Ng b'
    /\ holds Ng bx by_ (hits ++ hits_of opts res bx by_ batch)%list b'.
Proof.
  intros Hbx Hby Hfit. revert b hits.
  induction Hfit as [|smp batch Hg _ IH]; intros b hits Hshape Hholds.
  - exists b. cbn [hits_of]. rewrite app_nil_r.
    split; [reflexivity |]. split; assumption.
  - cbn [bin_samples].
    destruct (bin_sample_holds opts res Ng flag index bx by_ b smp hits
                Hbx Hby Hshape Hg Hholds) as (b1 & E1 & Hshape1 & Hholds1).
    rewrite E1. cbn [mbind result_bind].
    destruct (IH b1 _ Hshape1 Hholds1) as (b' & E' & Hshape' & Hholds').
    exists b'. split; [exact E' |]. split; [exact Hshape' |].
    rewrite hits_of_cons, app_assoc. exact Hholds'.
Qed.

(** The loop over the batches. *)
Lemma bin_batches_holds (batch_at : Z -> list (sample F)) (opts : options F)
    (res Ng : Z) (flag : bool) (bx by_ : Z) (l : list Z) (b : bins F)
    (hits : list (list F)) :
  0 <= bx -> 0 <= by_ ->
  Forall (fun index => fits opts Ng (batch_at index) = true) l ->
  bins_shape res Ng b -> holds Ng bx by_ hits b ->
  exists b',
    for_each (bin_batches batch_at opts res Ng flag) l b = Ok b'
    /\ bins_shape res Ng b'
    /\ holds Ng bx by_ (hits ++ hits_over batch_at opts res bx by_ l)%list b'.
Proof.
  intros Hbx Hby Hfit. revert b hits.
  induction Hfit as [|index l Hf _ IH]; intros b hits Hshape Hholds.
  - exists b. unfold hits_over. cbn. rewrite app_nil_r.
    split; [reflexivity |]. split; assumption.
  - cbn [for_each]. unfold bin_batches at 2. rewrite Hf.
    destruct (bin_samples_holds opts res Ng flag index bx by_
                (batch_at index) b hits Hbx Hby
                (VisualizeFacts.fits_true _ _ _ Hf) Hshape Hholds)
      as (b1 & E1 & Hshape1 & Hholds1).
    rewrite E1. cbn [mbind result_bind].
    destruct (IH b1 _ Hshape1 Hholds1) as (b' & E' & Hshape' & Hholds').
    exists b'. split; [exact E' |]. split; [exact Hshape' |].
    unfold hits_over in Hholds' |- *.
    rewrite fmap_cons.
    change (mjoin (?a :: ?r)) with (a ++ mjoin r)%list.
    rewrite app_assoc. exact Hholds'.
Qed.

Lemma for_each_app {S} (body : Z -> S -> result S) (l1 l2 : list Z) (s : S) :
  for_each body (l1 ++ l2)%list s
  = s' ← for_each body l1 s; for_each body l2 s'.
Proof.
  revert s. induction l1 as [|i l1 IH]; intros s; [reflexivity |].
  cbn [app for_each]. destruct (body i s) as [s1 | e]; [| reflexivity].
  cbn [mbind result_bind]. apply IH.
Qed.

Lemma py_range_split (n k : Z) :
  0 <= k < n ->
  py_range 0 n = (py_range 0 k ++ k :: py_range (k + 1) n)%list.
Proof.
  intros Hk. unfold py_range.
  replace (n - 0) with ((k - 0) + (n - k)) by lia.
  rewrite seqZ_app by lia. f_equal.
  rewrite seqZ_cons by lia. f_equal; [lia |]. f_equal; lia.
Qed.

(** One step of the normalization, on arrays of the right shape. *)
Lemma normalize_bin_value (cnt : plane) (res x y : Z) :
  plane_shape res cnt -> 0 <= x < res -> 0 <= y < res ->
  exists c,
    get2 cnt (Z.to_nat x) (Z.to_nat y) = Some c
    /\ forall acts,
         normalize_bin cnt x y acts
         = Ok (if flt (of_int 0) c
               then map (update2 (fun v => fdiv v c) (Z.to_nat x) (Z.to_nat y))
                      acts
               else acts).
Proof.
  intros [Hlen Hrows] Hx Hy.
  destruct (lookup_lt_is_Some_2 cnt (Z.to_nat x) ltac:(lia)) as [row Hrow].
  assert (Hrlen : length row = Z.to_nat res).
  { eapply (Forall_lookup_1 _ _ _ _ Hrows). exact Hrow. }
  destruct (lookup_lt_is_Some_2 row (Z.to_nat y) ltac:(lia)) as [c Hc].
  exists c. split.
  - unfold get2. rewrite Hrow. exact Hc.
  - intros acts. unfold normalize_bin.
    rewrite Hlen, (VisualizeFacts.py_index_ok _ x) by lia.
    cbn [mbind result_bind]. rewrite Hrow. cbn [mbind result_bind].
    rewrite Hrlen, (VisualizeFacts.py_index_ok _ y) by lia.
    cbn [mbind result_bind]. rewrite Hc. cbn [mbind result_bind].
    destruct (flt (of_int 0) c); reflexivity.
Qed.

(** The entries of bin (bx, by) are [e]. *)
Abbreviation entries Ng bx by_ e acts :=
  (forall n : nat,
     Nat.lt n (Z.to_nat Ng) ->
     get3 acts n (Z.to_nat bx) (Z.to_nat by_) = Some (e n)).

(** Steps at other bins leave the entries of bin (bx, by) alone. *)
Lemma normalize_elsewhere (cnt : plane) (res Ng x bx by_ : Z)
    (e : nat -> F) (ys : list Z) (acts : list plane) :
  plane_shape res cnt -> 0 <= x < res -> 0 <= bx -> 0 <= by_ ->
  Forall (fun y => 0 <= y < res /\ ~ (x = bx /\ y = by_)) ys ->
  acts_shape res Ng acts -> entries Ng bx by_ e acts ->
  exists acts',
    for_each (normalize_bin cnt x) ys acts = Ok acts'
    /\ acts_shape res Ng acts' /\ entries Ng bx by_ e acts'.
Proof.
  intros Hcnt Hx Hbx Hby Hys Hshape He.
  apply (VisualizeFacts.for_each_inv
           (fun acts => acts_shape res Ng acts /\ entries Ng bx by_ e acts)
           (normalize_bin cnt x) ys acts); [| split; assumption].
  intros y acts1 Hin [[Hlen1 Hshape1] He1].
  rewrite Forall_forall in Hys. destruct (Hys y Hin) as [Hy Hne].
  destruct (normalize_bin_value cnt res x y Hcnt Hx Hy) as (c & _ & Hstep).
  rewrite Hstep. eexists. split; [reflexivity |].
  destruct (flt (of_int 0) c); [| repeat split; assumption].
  split; [split |].
  - rewrite length_map. exact Hlen1.
  - apply Forall_map. eapply Forall_impl; [exact Hshape1 |].
    intros a Ha. apply VisualizeFacts.update2_shape. exact Ha.
  - intros n Hn. rewrite VisualizeFacts.get3_map_update2.
    rewrite decide_False by lia. apply He1, Hn.
Qed.

(** The inner loop at x = bx divides the entries of bin (bx, by) once. *)
Lemma normalize_row_here (cnt : plane) (res Ng bx by_ : Z) (c : F)
    (e : nat -> F) (acts : list plane) :
  plane_shape res cnt -> 0 <= bx < res -> 0 <= by_ < res ->
  get2 cnt (Z.to_nat bx) (Z.to_nat by_) = Some c ->
  acts_shape res Ng acts -> entries Ng bx by_ e acts ->
  exists acts',
    for_each (normalize_bin cnt bx) (py_range 0 res) acts = Ok acts'
    /\ acts_shape res Ng acts'
    /\ entries Ng bx by_
         (fun n => if flt (of_int 0) c then fdiv (e n) c else e n) acts'.
Proof.
  intros Hcnt Hbx Hby Hc Hshape He.
  rewrite (py_range_split res by_ Hby), for_each_app.
  destruct (normalize_elsewhere cnt res Ng bx bx by_ e (py_range 0 by_) acts
              Hcnt Hbx ltac:(lia) ltac:(lia)) as (a1 & E1 & Hs1 & He1);
    [| exact Hshape | exact He |].
  { apply Forall_forall. intros y Hy%VisualizeFacts.elem_of_py_range. lia. }
  rewrite E1. cbn [mbind result_bind for_each].
  destruct (normalize_bin_value cnt res bx by_ Hcnt Hbx Hby)
    as (c' & Hc' & Hstep).
  rewrite Hc in Hc'. injection Hc' as <-. rewrite Hstep.
  cbn [mbind result_bind].
  apply (normalize_elsewhere cnt res Ng bx bx by_ _ (py_range (by_ + 1) res));
    [exact Hcnt | exact Hbx | lia | lia | | |].
  - apply Forall_forall. intros y Hy. unfold py_range in Hy.
    apply list_elem_of_lookup in Hy as [k Hk]. apply lookup_seqZ in Hk. lia.
  - destruct Hs1 as [Hlen1 Hshape1].
    destruct (flt (of_int 0) c); [| split; assumption]. split.
    + rewrite length_map. exact Hlen1.
    + apply Forall_map. eapply Forall_impl; [exact Hshape1 |].
      intros a Ha. apply VisualizeFacts.update2_shape. exact Ha.
  - intros n Hn. destruct (flt (of_int 0) c); [| apply He1, Hn].
    rewrite VisualizeFacts.get3_map_update2, decide_True by auto.
    rewrite (He1 n Hn). reflexivity.
Qed.

(** The two loops divide the entries of every bin once, by its count. *)
Lemma normalize_entries (cnt : plane) (res Ng bx by_ : Z) (c : F)
    (e : nat -> F) (acts : list plane) :
  plane_shape res cnt -> 0 <= bx < res -> 0 <= by_ < res ->
  get2 cnt (Z.to_nat bx) (Z.to_nat by_) = Some c ->
  acts_shape res Ng acts -> entries Ng bx by_ e acts ->
  exists acts',
    normalize cnt res acts = Ok acts'
    /\ acts_shape res Ng acts'
    /\ entries Ng bx by_
         (fun n => if flt (of_int 0) c then fdiv (e n) c else e n) acts'.
Proof.
  intros Hcnt Hbx Hby Hc Hshape He. unfold normalize.
  set (B := fun (x : Z) (acts : list plane) =>
              for_each (fun y acts => normalize_bin cnt x y acts)
                (py_range 0 res) acts).
  assert (Hother : forall (e' : nat -> F) (xs : list Z) (acts0 : list plane),
            Forall (fun x => 0 <= x < res /\ x <> bx) xs ->
            acts_shape res Ng acts0 -> entries Ng bx by_ e' acts0 ->
            exists acts',
              for_each B xs acts0 = Ok acts'
              /\ acts_shape res Ng acts' /\ entries Ng bx by_ e' acts').
  { intros e' xs acts0 Hxs Hs0 He0.
    apply (VisualizeFacts.for_each_inv
             (fun acts => acts_shape res Ng acts /\ entries Ng bx by_ e' acts));
      [| split; assumption].
    intros x acts1 Hin [Hs1 He1].
    rewrite Forall_forall in Hxs. destruct (Hxs x Hin) as [Hx Hne].
    apply (normalize_elsewhere cnt res Ng x bx by_ e' (py_range 0 res) acts1);
      [exact Hcnt | exact Hx | lia | lia | | exact Hs1 | exact He1].
    apply Forall_forall. intros y Hy%VisualizeFacts.elem_of_py_range. lia. }
  rewrite (py_range_split res bx Hbx), for_each_app.
  destruct (Hother e (py_range 0 bx) acts) as (a1 & E1 & Hs1 & He1);
    [| exact Hshape | exact He |].
  { apply Forall_forall. intros x Hx%VisualizeFacts.elem_of_py_range. lia. }
  rewrite E1. cbn [mbind result_bind for_each].
  destruct (normalize_row_here cnt res Ng bx by_ c e a1 Hcnt Hbx Hby Hc Hs1 He1)
    as (a2 & E2 & Hs2 & He2).
  change (B bx a1) with (for_each (normalize_bin cnt bx) (py_range 0 res) a1).
  rewrite E2. cbn [mbind result_bind].
  apply Hother; [| exact Hs2 | exact He2].
  apply Forall_forall. intros x Hx. unfold py_range in Hx.
  apply list_elem_of_lookup in Hx as [k Hk]. apply lookup_seqZ in Hk. lia.
Qed.

(** On batches of the expected shape, every entry of the rate map is the
    mean activation of its cell over the samples that fall in its bin:
    entry (n, bx * res + by) is the sum of the activations of cell n over
    those samples, added to 0.0 in the order of the loops, divided by
    their number (0.0 + 1 + ... + 1) when that number is positive, and
    the undivided sum otherwise. *)
Theorem rate_map_is_mean (test_batch : Z -> list (sample F))
    (opts : options F) (res : Z) (n_avg0 : option Z) (n_avg Ng : Z)
    (all_activations_flag : bool) :
  default_n_avg opts n_avg0 = Ok n_avg ->
  0 <= n_avg -> 0 <= batch_size opts * sequence_length opts ->
  0 <= Ng -> 0 <= res ->
  (forall index, 0 <= index < n_avg ->
     fits opts Ng (test_batch index) = true) ->
  exists r,
    Visualize.compute_ratemaps test_batch opts res n_avg0 Ng
      all_activations_flag = Ok r
    /\ forall (bx by_ : Z) (n : nat),
         0 <= bx < res -> 0 <= by_ < res -> Nat.lt n (Z.to_nat Ng) ->
         get2 (rate_map r) n (Z.to_nat (bx * res + by_))
         = Some (bin_mean n (bin_hits test_batch opts res n_avg bx by_)).
Proof.
  intros Hdefault Havg Hbs HNg Hres Hfits.
  unfold Visualize.compute_ratemaps. rewrite Hdefault.
  cbn [mbind result_bind]. unfold accumulate.
  rewrite VisualizeFacts.check_dims_ok by assumption.
  cbn [mbind result_bind].
  assert (Hall : Forall (fun index => fits opts Ng (test_batch index) = true)
                   (py_range 0 n_avg)).
  { apply Forall_forall.
    intros index Hin%VisualizeFacts.elem_of_py_range. auto. }
  set (start := {| counts := np_zeros2 res res;
                   activations := np_zeros3 Ng res res;
                   all_activations := np_zeros4 Ng res res n_avg |}).
  destruct (VisualizeFacts.bin_batches_inv to_int_in_grid test_batch opts res
              Ng all_activations_flag (py_range 0 n_avg) start Hall
              (VisualizeFacts.zeros_shape res Ng (np_zeros4 Ng res res n_avg)))
    as (b & Eb & (Hcnt & Hlen & Hshape) & _).
  rewrite Eb. cbn [mbind result_bind].
  destruct (VisualizeMoreFacts.normalize_shape (counts b) res Ng
              (activations b) Hcnt (conj Hlen Hshape))
    as (acts & Eacts & Hacts).
  rewrite Eacts. cbn [mbind result_bind]. eexists. split; [reflexivity |].
  cbn [rate_map]. intros bx by_ n Hbx Hby Hn.
  destruct (bin_batches_holds test_batch opts res Ng all_activations_flag
              bx by_ (py_range 0 n_avg) start [] ltac:(lia) ltac:(lia) Hall
              (VisualizeFacts.zeros_shape res Ng (np_zeros4 Ng res res n_avg)))
    as (b' & Eb' & _ & Hc & Ha).
  { destruct (VisualizeFacts.zeros_bin_zero res Ng (Z.to_nat bx)
                (Z.to_nat by_) ltac:(lia) ltac:(lia)) as [Hz Hza].
    split; [exact Hz | exact Hza]. }
  rewrite Eb in Eb'. injection Eb' as <-. cbn [app] in Hc, Ha.
  destruct (normalize_entries (counts b) res Ng bx by_ _ _ (activations b)
              Hcnt Hbx Hby Hc (conj Hlen Hshape) Ha)
    as (acts' & Eacts' & [_ Hshape'] & He').
  rewrite Eacts in Eacts'. injection Eacts' as <-.
  replace (Z.to_nat (bx * res + by_))
    with (Z.to_nat bx * Z.to_nat res + Z.to_nat by_)%nat by nia.
  apply (VisualizeFacts.reshape_rows_lookup res);
    [exact Hshape' | lia |].
  rewrite (He' n Hn). reflexivity.
Qed.

Lemma get4_add_row4 (g_row : list F) (ix iy idx n i j k : nat)
    (all : list (list plane)) (gn : F) :
  g_row !! n = Some gn ->
  get4 (add_row4 g_row ix iy idx all) n i j k
  = if decide (ix = i /\ iy = j /\ idx = k)
    then (fun v => fadd v gn) <$> get4 all n i j k
    else get4 all n i j k.
Proof.
  intros Hg. unfold get4, add_row4. rewrite lookup_zip_with, Hg.
  destruct (all !! n) as [a3|]; [| destruct (decide _); reflexivity].
  cbn. unfold get3. destruct (decide (ix = i)) as [-> | Hi].
  - rewrite list_lookup_alter_eq.
    destruct (a3 !! i) as [p|]; cbn.
    + rewrite VisualizeFacts.get2_update2.
      destruct (decide (iy = j /\ idx = k)) as [[-> ->] | Hne].
      * rewrite decide_True by auto. reflexivity.
      * rewrite decide_False by tauto. reflexivity.
    + destruct (decide _); reflexivity.
  - rewrite list_lookup_alter_ne by exact Hi.
    rewrite decide_False by tauto. reflexivity.
Qed.

(** Entry (bx, by, k) of every cell of all_activations holds the sums of
    [hits]. *)
Abbreviation holds4 Ng bx by_ k hits b :=
  (forall n : nat,
     Nat.lt n (Z.to_nat Ng) ->
     get4 (all_activations b) n (Z.to_nat bx) (Z.to_nat by_) k
     = Some (bin_sum n hits)).

Lemma bin_sample_holds4 (opts : options F) (res Ng : Z) (index bx by_ : Z)
    (k : nat) (b b' : bins F) (smp : sample F) (hits : list (list F)) :
  0 <= bx -> 0 <= by_ ->
  Z.of_nat (length smp.2) = Ng ->
  bin_sample opts res true index b smp = Ok b' ->
  holds4 Ng bx by_ k hits b ->
  holds4 Ng bx by_ k
    (if decide (Z.to_nat index = k)
     then (hits ++ hits_of opts res bx by_ [smp])%list else hits) b'.
Proof.
  intros Hbx Hby Hg. destruct smp as [[px py] g_row]. cbn [snd] in Hg.
  unfold bin_sample. cbn [hits_of]. unfold lands. cbn [fst snd].
  set (x := bin_coordinate px (box_width opts) res).
  set (y := bin_coordinate py (box_height opts) res).
  destruct (in_grid x y res) eqn:Hgrid.
  - destruct (VisualizeFacts.in_grid_true to_int_in_grid x y res Hgrid)
      as [Hx Hy].
    rewrite (VisualizeFacts.py_index_ok res (to_int x) Hx),
      (VisualizeFacts.py_index_ok res (to_int y) Hy).
    cbn [mbind result_bind andb]. intros [= <-] Ha n Hn.
    cbn [all_activations].
    destruct (lookup_lt_is_Some_2 g_row n ltac:(unfold Nat.lt in Hn; lia))
      as [gn Hgn].
    rewrite (get4_add_row4 _ _ _ _ _ _ _ _ _ gn Hgn).
    destruct (decide (Z.to_nat index = k)) as [Hk | Hk].
    + destruct ((to_int x =? bx) && (to_int y =? by_)) eqn:Hbin.
      * rewrite decide_True by (split; [| split]; lia).
        rewrite (Ha n Hn), bin_sum_snoc, Hgn. reflexivity.
      * rewrite decide_False by lia. rewrite app_nil_r. apply Ha, Hn.
    + rewrite decide_False by tauto. apply Ha, Hn.
  - cbn [andb]. intros [= <-] Ha. rewrite app_nil_r.
    destruct (decide _); exact Ha.
Qed.

Lemma bin_samples_holds4 (opts : options F) (res Ng : Z) (index bx by_ : Z)
    (k : nat) (batch : list (sample F)) (b b' : bins F)
    (hits : list (list F)) :
  0 <= bx -> 0 <= by_ ->
  Forall (fun smp : sample F => Z.of_nat (length smp.2) = Ng) batch ->
  bin_samples opts res true index b batch = Ok b' ->
  holds4 Ng bx by_ k hits b ->
  holds4 Ng bx by_ k
    (if decide (Z.to_nat index = k)
     then (hits ++ hits_of opts res bx by_ batch)%list else hits) b'.
Proof.
  intros Hbx Hby Hfit. revert b hits.
  induction Hfit as [|smp batch Hg _ IH]; intros b hits.
  - cbn [bin_samples hits_of]. intros [= <-] Ha. rewrite app_nil_r.
    destruct (decide _); exact Ha.
  - cbn [bin_samples].
    destruct (bin_sample opts res true index b smp) as [b1 | e] eqn:E1;
      [| discriminate].
    cbn [mbind result_bind]. intros Eb Ha.
    pose proof (bin_sample_holds4 opts res Ng index bx by_ k b b1 smp hits
                  Hbx Hby Hg E1 Ha) as H1.
    pose proof (IH b1 _ Eb H1) as H2.
    destruct (decide (Z.to_nat index = k)); [| exact H2].
    rewrite hits_of_cons, app_assoc. exact H2.
Qed.

(** Batches at other indices leave entry k alone. *)
Lemma bin_batches_holds4_other (batch_at : Z -> list (sample F))
    (opts : options F) (res Ng bx by_ : Z) (k : nat) (l : list Z)
    (b b' : bins F) (hits : list (list F)) :
  0 <= bx -> 0 <= by_ ->
  Forall (fun index => fits opts Ng (batch_at index) = true
                       /\ Z.to_nat index <> k) l ->
  for_each (bin_batches batch_at opts res Ng true) l b = Ok b' ->
  holds4 Ng bx by_ k hits b -> holds4 Ng bx by_ k hits b'.
Proof.
  intros Hbx Hby Hl. revert b.
  induction Hl as [|index l [Hf Hk] _ IH]; intros b.
  - cbn. intros [= <-] Ha. exact Ha.
  - cbn [for_each]. unfold bin_batches at 2. rewrite Hf.
    destruct (bin_samples opts res true index b (batch_at index))
      as [b1 | e] eqn:E1; [| discriminate].
    cbn [mbind result_bind]. intros Eb Ha. apply (IH b1 Eb).
    pose proof (bin_samples_holds4 opts res Ng index bx by_ k
                  (batch_at index) b b1 hits Hbx Hby
                  (VisualizeFacts.fits_true _ _ _ Hf) E1 Ha) as H1.
    rewrite decide_False in H1 by exact Hk. exact H1.
Qed.

Lemma get4_zeros (Ng res n_avg : Z) (n i j k : nat) :
  Nat.lt n (Z.to_nat Ng) -> Nat.lt i (Z.to_nat res) ->
  Nat.lt j (Z.to_nat res) -> Nat.lt k (Z.to_nat n_avg) ->
  get4 (np_zeros4 Ng res res n_avg) n i j k = Some (of_int 0).
Proof.
  intros Hn Hi Hj Hk. unfold get4, get3, get2, np_zeros4, np_zeros3, np_zeros2.
  rewrite lookup_replicate_2 by exact Hn. cbn.
  rewrite lookup_replicate_2 by exact Hi. cbn.
  rewrite lookup_replicate_2 by exact Hj. cbn.
  apply lookup_replicate_2. exact Hk.
Qed.

(** With all_activations_flag on, the first array returned by
    compute_ratemaps is all_activations, which the normalization loop
    does not touch: entry (n, bx, by, index) is the sum of the
    activations of cell n over the samples of batch index that fall in
    bin (bx, by), added to 0.0 in the order of the batch, and is not
    divided by any count. *)
Theorem all_activations_are_sums (test_batch : Z -> list (sample F))
    (opts : options F) (res : Z) (n_avg0 : option Z) (n_avg Ng : Z) :
  default_n_avg opts n_avg0 = Ok n_avg ->
  0 <= n_avg -> 0 <= batch_size opts * sequence_length opts ->
  0 <= Ng -> 0 <= res ->
  (forall index, 0 <= index < n_avg ->
     fits opts Ng (test_batch index) = true) ->
  exists r all,
    Visualize.compute_ratemaps test_batch opts res n_avg0 Ng true = Ok r
    /\ returned_activations r = inr all
    /\ forall (bx by_ index : Z) (n : nat),
         0 <= bx < res -> 0 <= by_ < res -> 0 <= index < n_avg ->
         Nat.lt n (Z.to_nat Ng) ->
         get4 all n (Z.to_nat bx) (Z.to_nat by_) (Z.to_nat index)
         = Some (bin_sum n (hits_of opts res bx by_ (test_batch index))).
Proof.
  intros Hdefault Havg Hbs HNg Hres Hfits.
  unfold Visualize.compute_ratemaps. rewrite Hdefault.
  cbn [mbind result_bind]. unfold accumulate.
  rewrite VisualizeFacts.check_dims_ok by assumption.
  cbn [mbind result_bind].
  assert (Hall : Forall (fun index => fits opts Ng (test_batch index) = true)
                   (py_range 0 n_avg)).
  { apply Forall_forall.
    intros index Hin%VisualizeFacts.elem_of_py_range. auto. }
  set (start := {| counts := np_zeros2 res res;
                   activations := np_zeros3 Ng res res;
                   all_activations := np_zeros4 Ng res res n_avg |}).
  destruct (VisualizeFacts.bin_batches_inv to_int_in_grid test_batch opts res
              Ng true (py_range 0 n_avg) start Hall
              (VisualizeFacts.zeros_shape res Ng (np_zeros4 Ng res res n_avg)))
    as (b & Eb & (Hcnt & Hlen & Hshape) & _).
  rewrite Eb. cbn [mbind result_bind].
  destruct (VisualizeMoreFacts.normalize_shape (counts b) res Ng
              (activations b) Hcnt (conj Hlen Hshape))
    as (acts & Eacts & Hacts).
  rewrite Eacts. cbn [mbind result_bind]. eexists _, _.
  split; [reflexivity |]. split; [reflexivity |].
  intros bx by_ index n Hbx Hby Hindex Hn.
  rewrite (py_range_split n_avg index Hindex), for_each_app in Eb.
  destruct (for_each (bin_batches test_batch opts res Ng true)
              (py_range 0 index) start) as [b1 | e] eqn:E1; [| discriminate].
  cbn [mbind result_bind for_each] in Eb.
  assert (Estep : bin_batches test_batch opts res Ng true index b1
                  = bin_samples opts res true index b1 (test_batch index))
    by (unfold bin_batches; rewrite (Hfits index Hindex); reflexivity).
  rewrite Estep in Eb.
  destruct (bin_samples opts res true index b1 (test_batch index))
    as [b2 | e] eqn:E2; [| discriminate].
  cbn [mbind result_bind] in Eb.
  assert (H1 : holds4 Ng bx by_ (Z.to_nat index) [] b1).
  { apply (bin_batches_holds4_other test_batch opts res Ng bx by_
             (Z.to_nat index) (py_range 0 index) start b1 []);
      [lia | lia | | exact E1 |].
    - apply Forall_forall.
      intros i Hi%VisualizeFacts.elem_of_py_range. split; [| lia].
      apply Hfits. lia.
    - intros m Hm. cbn [all_activations start].
      apply get4_zeros; unfold Nat.lt in *; lia. }
  pose proof (bin_samples_holds4 opts res Ng index bx by_ (Z.to_nat index)
                (test_batch index) b1 b2 [] ltac:(lia) ltac:(lia)
                (VisualizeFacts.fits_true _ _ _ (Hfits index Hindex)) E2 H1)
    as H2.
  rewrite decide_True in H2 by reflexivity. cbn [app] in H2.
  apply (bin_batches_holds4_other test_batch opts res Ng bx by_
           (Z.to_nat index) (py_range (index + 1) n_avg) b2 b _);
    [lia | lia | | exact Eb | exact H2 | exact Hn].
  apply Forall_forall. intros i Hi. unfold py_range in Hi.
  apply list_elem_of_lookup in Hi as [j Hj]. apply lookup_seqZ in Hj.
  split; [apply Hfits; lia | lia].
Qed.

End Bins.

Lemma all_activations_are_sums_witness :
  default_n_avg options0 (Some 1) = Ok 1
  /\ 0 <= batch_size options0 * sequence_length options0
  /\ (forall index, 0 <= index < 1 -> fits options0 1 (batch0 index) = true)
  /\ exists r all,
       Visualize.compute_ratemaps batch0 options0 2 (Some 1) 1 true = Ok r
       /\ returned_activations r = inr all
       /\ forall (bx by_ index : Z) (n : nat),
            0 <= bx < 2 -> 0 <= by_ < 2 -> 0 <= index < 1 ->
            Nat.lt n (Z.to_nat 1) ->
            get4 all n (Z.to_nat bx) (Z.to_nat by_) (Z.to_nat index)
            = Some (bin_sum n (hits_of options0 2 bx by_ (batch0 index))).
Proof.
  assert (Hsize : 0 <= batch_size options0 * sequence_length options0)
    by (cbn; lia).
  assert (Hfits : forall index, 0 <= index < 1 ->
                    fits options0 1 (batch0 index) = true)
    by (intros index _; reflexivity).
  split; [reflexivity |]. split; [exact Hsize |]. split; [exact Hfits |].
  apply (all_activations_are_sums VisualizeFacts.Q_to_int_in_grid batch0
           options0 2 (Some 1) 1 1 eq_refl);
    [lia | exact Hsize | lia | lia | exact Hfits].
Defined.

Lemma rate_map_is_mean_witness :
  default_n_avg options0 (Some 1) = Ok 1
  /\ 0 <= batch_size options0 * sequence_length options0
  /\ (forall index, 0 <= index < 1 -> fits options0 1 (batch0 index) = true)
  /\ exists r,
       Visualize.compute_ratemaps batch0 options0 2 (Some 1) 1 false = Ok r
       /\ forall (bx by_ : Z) (n : nat),
            0 <= bx < 2 -> 0 <= by_ < 2 -> Nat.lt n (Z.to_nat 1) ->
            get2 (rate_map r) n (Z.to_nat (bx * 2 + by_))
            = Some (bin_mean n (bin_hits batch0 options0 2 1 bx by_)).
Proof.
  assert (Hsize : 0 <= batch_size options0 * sequence_length options0)
    by (cbn; lia).
  assert (Hfits : forall index, 0 <= index < 1 ->
                    fits options0 1 (batch0 index) = true)
    by (intros index _; reflexivity).
  split; [reflexivity |]. split; [exact Hsize |]. split; [exact Hfits |].
  apply (rate_map_is_mean VisualizeFacts.Q_to_int_in_grid batch0 options0 2
           (Some 1) 1 1 false eq_refl);
    [lia | exact Hsize | lia | lia | exact Hfits].
Defined.

(** In the sample run the first sample is the only one in bin (0, 0), so
    the entry is its activation 0 + 3 divided by the count 0 + 1. *)
Lemma bin_mean_sample :
  bin_hits batch0 options0 2 1 0 0 = [[3%Q]]
  /\ Qeq (bin_mean 0 (bin_hits batch0 options0 2 1 0 0)) 3.
Proof. split; vm_compute; reflexivity. Qed.

End RateMapFacts.
